(** * Workload analytics backend: the Express handlers over a document store

    A shallow embedding of [backend/src/controllers], [backend/src/middleware],
    the route validators and the [WorkloadData] model.  A handler is a function
    from the request and the store to a response and the next store; the
    [try { ... } catch] of every handler is the [500] branch. *)

From Stdlib Require Import ZArith QArith Lqa String List.
From stdpp Require Import gmap strings list fin_maps sorting.

Set Warnings "-register-all".

Open Scope string_scope.
Open Scope Z_scope.

(** ** Values *)

(** An [ObjectId] in its 24-digit hexadecimal form.  Identifiers range over
    well-formed ones; a malformed path parameter makes [findById] raise and
    the handler answer [500]. *)
Abbreviation ObjectId := string (only parsing).

(** A JavaScript date as milliseconds since the epoch. *)
Abbreviation Date := Z (only parsing).

(** What [res.json] is given.  A [Number] is an IEEE 754 double; every finite
    double is a rational and is kept as that rational.  A date is kept as a
    date (serialised as an ISO string). *)
Inductive json : Type :=
| JNull
| JBool (b : bool)
| JNum (q : Q)
| JStr (s : string)
| JDate (d : Z)
| JArr (items : list json)
| JObj (fields : list (string * json)).

(** [mentions k j]: some object inside [j], at any depth, has a field named [k]. *)
Fixpoint mentions (k : string) (j : json) {struct j} : bool :=
  match j with
  | JArr items => existsb (mentions k) items
  | JObj fields =>
      existsb (fun kv => match kv with (k', v) => String.eqb k k' || mentions k v end) fields
  | _ => false
  end.

Definition JInt (z : Z) : json := JNum (inject_Z z).

Definition JOpt {A} (f : A -> json) (o : option A) : json :=
  match o with Some a => f a | None => JNull end.

(** A field that is [undefined] is left out by [JSON.stringify]. *)
Definition optField {A} (k : string) (f : A -> json) (o : option A) : list (string * json) :=
  match o with Some a => [(k, f a)] | None => [] end.

(** Field exclusion of a projection such as [select('-password')]. *)
Definition exclude (k : string) (fields : list (string * json)) : list (string * json) :=
  List.filter (fun kv => negb (String.eqb k (fst kv))) fields.

(** ** Third-party functions

    String-level functions of the libraries the handlers call (validator.js,
    the JavaScript runtime, bcrypt, jsonwebtoken, the store's regular
    expressions), and the arithmetic of doubles.  An arithmetic operation on
    doubles is the exact operation followed by [roundNearest], the rounding of
    the format; [dbSum] is the store's [$sum] accumulator, whose order and
    intermediate precision the store does not specify.  Of all these, the
    results proved below use two facts only: rounding is monotone, and it
    leaves the integers that a double holds exactly as they are. *)
Record Lib := {
  trim : string -> string;               (* validator: trim() *)
  isISO8601 : string -> bool;            (* validator: isISO8601() *)
  isEmail : string -> bool;              (* validator: isEmail() *)
  newDate : string -> option Z;          (* new Date(s); None is Invalid Date *)
  regexI : string -> string -> bool;     (* { $regex: pattern, $options: 'i' } on a text *)
  bcryptHash : string -> string;         (* the hash kept in place of the credential *)
  jwtSign : string -> string;            (* jwt.sign({ userId }, secret, { expiresIn: '24h' }) *)
  roundNearest : Q -> Q;                 (* the double nearest to a real *)
  dbSum : list Q -> Q;                   (* { $sum: ... } over doubles *)
  roundNearest_le : forall x y : Q, (x <= y)%Q -> (roundNearest x <= roundNearest y)%Q;
  roundNearest_int :
    forall z : Z, - 2 ^ 53 <= z <= 2 ^ 53 -> (roundNearest (inject_Z z) == inject_Z z)%Q
}.

(** ** Documents *)

(** Modelled from the spec: the [User] schema ([models/User.js] is not among
    the sources).  The fields are the ones the controllers read and write;
    [password] holds the credential hash. *)
Record User := {
  username : string;
  email : string;
  password : string;
  role : string;
  isActive : bool;
  lastLogin : option Date;
  u_createdAt : Date
}.

(** Modelled from the spec: the closed set of roles of the [User] schema, as
    spelled by the [isIn] rule of [routes/users.js]. *)
Definition roleEnum : list string := ["admin"; "user"; "manager"].

(** [workloadDataSchema]. *)
Record WorkloadData := {
  developer : ObjectId;
  project : string;
  taskName : string;
  taskType : string;
  hoursSpent : Q;
  date : Date;
  status : string;
  priority : string;
  description : option string;
  blockers : option string;
  tags : list string;
  dependencies : list ObjectId;
  createdAt : Date;
  updatedAt : Date
}.

Definition taskTypeEnum : list string :=
  ["development"; "bug-fix"; "review"; "meeting"; "documentation"; "other"].
Definition statusEnum : list string := ["planned"; "in-progress"; "completed"; "blocked"].
Definition priorityEnum : list string := ["high"; "medium"; "low"].

(** The two collections, keyed by [_id].  The calls into the document mapper
    are those of the version the backend asks for ([mongoose ^7.5.0] in its
    [package.json]): [findById] and [findOne] read, [save()] validates and
    writes. *)
Record Store := {
  users : gmap ObjectId User;
  workloads : gmap ObjectId WorkloadData
}.

(** [doc.remove()].  The documents of this version of the mapper have no
    [remove] method, so the call raises a [TypeError] before anything reaches
    the store; [None] is the raised error. *)
Definition documentRemove {A} (id : ObjectId) (docs : gmap ObjectId A)
    : option (gmap ObjectId A) := None.

(** [mongoose.Types.ObjectId(s)], called without [new].  [ObjectId] is a
    class in this version of the mapper and a class cannot be called as a
    function: the call raises a [TypeError] whatever [s] is; [None] is the
    raised error. *)
Definition typesObjectId (s : string) : option ObjectId := None.

Record Response := {
  statusCode : Z;
  body : json
}.

Definition errorBody (msg : string) : json := JObj [("error", JStr msg)].
Definition messageBody (msg : string) : json := JObj [("message", JStr msg)].

(** ** Serialisation of documents *)

Definition userFields (id : string) (u : User) : list (string * json) :=
  [("_id", JStr id);
   ("username", JStr (username u));
   ("email", JStr (email u));
   ("password", JStr (password u));
   ("role", JStr (role u));
   ("isActive", JBool (isActive u))]
  ++ optField "lastLogin" JDate (lastLogin u)
  ++ [("createdAt", JDate (u_createdAt u)); ("__v", JInt 0)].

(** [.select('-password')] followed by [toJSON]. *)
Definition userWithoutPassword (id : string) (u : User) : json :=
  JObj (exclude "password" (userFields id u)).

(** [populate('developer', '-password')]: the owner's document without its
    credential, or [null] when the reference dangles. *)
Definition populateDeveloper (us : gmap string User) (id : string) : json :=
  match us !! id with
  | Some u => userWithoutPassword id u
  | None => JNull
  end.

Definition workloadFields (dev : json) (id : string) (w : WorkloadData) : list (string * json) :=
  [("_id", JStr id);
   ("developer", dev);
   ("project", JStr (project w));
   ("taskName", JStr (taskName w));
   ("taskType", JStr (taskType w));
   ("hoursSpent", JNum (hoursSpent w));
   ("date", JDate (date w));
   ("status", JStr (status w));
   ("priority", JStr (priority w))]
  ++ optField "description" JStr (description w)
  ++ optField "blockers" JStr (blockers w)
  ++ [("tags", JArr (map JStr (tags w)));
      ("dependencies", JArr (map JStr (dependencies w)));
      ("createdAt", JDate (createdAt w));
      ("updatedAt", JDate (updatedAt w));
      ("__v", JInt 0)].

Definition populatedWorkload (us : gmap string User) (id : string) (w : WorkloadData) : json :=
  JObj (workloadFields (populateDeveloper us (developer w)) id w).

(** ** JavaScript and store helpers *)

(** Truthiness of a string that may be [undefined]. *)
Definition truthy (o : option string) : bool :=
  match o with
  | Some s => negb (String.eqb s "")
  | None => false
  end.

(** [Math.ceil(total / limit)]; [None] is the non-finite result of a zero
    [limit], which [res.json] writes as [null].  For the counts and page
    sizes of a collection the rounding of the quotient does not move it
    across a whole number, and the ceiling is that of the exact quotient. *)
Definition ceilDiv (total limit : Z) : option Z :=
  if limit =? 0 then None else Some (- ((- total) / limit)).

(** [cursor.skip(skip).limit(limit)]: the store refuses a negative [skip],
    reads [limit(0)] as no limit and a negative limit as its absolute value. *)
Definition skipLimit {A} (skip limit : Z) (l : list A) : option (list A) :=
  if skip <? 0 then None
  else
    let rest := drop (Z.to_nat skip) l in
    Some (if limit =? 0 then rest else take (Z.to_nat (Z.abs limit)) rest).

(** [sort({ key: -1 })] on an integer key: a document may stand before
    another when its key is not the smaller one. *)
Definition geBy {A} (key : A -> Z) : relation A := fun a b => key b <= key a.

#[global] Instance geBy_dec {A} (key : A -> Z) : RelDecision (geBy key).
Proof. intros a b. unfold geBy. apply _. Defined.

Definition sortDesc {A} (key : A -> Z) (l : list A) : list A :=
  merge_sort (geBy key) l.

(** [{ $sort: { key: -1 } }] on a numeric key. *)
Definition geByQ {A} (key : A -> Q) : relation A := fun a b => (key b <= key a)%Q.

#[global] Instance geByQ_dec {A} (key : A -> Q) : RelDecision (geByQ key).
Proof.
  intros a b. unfold geByQ.
  destruct (Qlt_le_dec (key a) (key b)) as [Hlt | Hle]; [right | left].
  - by apply Qlt_not_le.
  - exact Hle.
Defined.

Definition sortDescQ {A} (key : A -> Q) (l : list A) : list A :=
  merge_sort (geByQ key) l.

(** [$group]: one group per distinct key, holding the documents of that
    key.  The store does not specify the order of the groups. *)
Definition groupBy {K A} `{EqDecision K} (key : A -> K) (l : list A) : list (K * list A) :=
  map (fun k => (k, List.filter (fun a => bool_decide (key a = k)) l))
      (remove_dups (map key l)).

(** The exact sum of a list of numbers. *)
Definition sumQ (l : list Q) : Q := fold_right Qplus 0%Q l.

(** [{ $sum: { $cond: [c, 1, 0] } }] *)
Definition countIf {A} (p : A -> bool) (l : list A) : Z := Z.of_nat (length (List.filter p l)).

(** [$divide] raises on a zero divisor; [$multiply]; [a + b] of the runtime. *)
Definition divide (L : Lib) (a b : Q) : option Q :=
  if Qeq_bool b 0 then None else Some (roundNearest L (a / b)%Q).

Definition multiply (L : Lib) (a b : Q) : Q := roundNearest L (a * b)%Q.

Definition addDoubles (L : Lib) (a b : Q) : Q := roundNearest L (a + b)%Q.

(** An inclusive date range [{ $gte: lo, $lte: hi }]. *)
Definition inRange (lo hi d : Z) : bool := (lo <=? d) && (d <=? hi).

(** The driver writes an Invalid Date as the epoch. *)
Definition bsonDate (d : option Z) : Z := default 0 d.

(** One entry of [validationResult(req).array()]. *)
Definition fieldError (path msg : string) (value : list (string * json)) : json :=
  JObj ([("type", JStr "field")] ++ value
        ++ [("msg", JStr msg); ("path", JStr path); ("location", JStr "body")]).

(** ** Middleware ([middleware/auth.js]) *)

(** [req.user], the document [auth] attached. *)
Record AuthUser := {
  uid : ObjectId;
  udoc : User
}.

Definition isAdmin (me : AuthUser) : bool := String.eqb (role (udoc me)) "admin".

(** [checkRole(roles)]: [None] lets the request through. *)
Definition checkRole (roles : list string) (me : AuthUser) : option Response :=
  if bool_decide (role (udoc me) ∈ roles) then None
  else Some {| statusCode := 403;
               body := errorBody "Access denied. Insufficient permissions." |}.

(** [checkUserAccess] *)
Definition checkUserAccess (me : AuthUser) (targetUserId : string) : option Response :=
  if isAdmin me then None
  else if negb (String.eqb (uid me) targetUserId)
       then Some {| statusCode := 403;
                    body := errorBody "Access denied. You can only modify your own profile." |}
       else None.

(** ** User controller ([controllers/userController.js]) *)

(** The query string of [GET /api/users]; [page] and [limit] are the
    integers their strings spell. *)
Record UsersQuery := {
  uq_page : option Z;
  uq_limit : option Z;
  uq_search : option string;
  uq_role : option string
}.

Definition usersFilter (L : Lib) (q : UsersQuery) (u : User) : bool :=
  (if truthy (uq_search q)
   then regexI L (default "" (uq_search q)) (username u)
        || regexI L (default "" (uq_search q)) (email u)
   else true)
  && (if truthy (uq_role q) then bool_decide (role u = default "" (uq_role q)) else true).

Definition getUsers (L : Lib) (q : UsersQuery) (st : Store) : Response :=
  let page := default 1 (uq_page q) in
  let limit := default 10 (uq_limit q) in
  let matched := List.filter (fun iu => usersFilter L q (snd iu)) (map_to_list (users st)) in
  let skip := (page - 1) * limit in
  match skipLimit skip limit (sortDesc (fun iu => u_createdAt (snd iu)) matched) with
  | None => {| statusCode := 500; body := errorBody "Error fetching users" |}
  | Some found =>
      let total := Z.of_nat (length matched) in
      {| statusCode := 200;
         body := JObj [("users", JArr (map (fun iu => userWithoutPassword (fst iu) (snd iu)) found));
                       ("pagination", JObj [("total", JInt total);
                                            ("page", JInt page);
                                            ("pages", JOpt JInt (ceilDiv total limit))])] |}
  end.

Definition getUserById (userId : string) (st : Store) : Response :=
  match users st !! userId with
  | None => {| statusCode := 404; body := errorBody "User not found" |}
  | Some u => {| statusCode := 200; body := userWithoutPassword userId u |}
  end.

(** A JSON scalar. *)
Inductive scalar : Type :=
| SNull
| SBool (b : bool)
| SNum (q : Q)
| SStr (s : string).

Definition scalarJson (v : scalar) : json :=
  match v with
  | SNull => JNull
  | SBool b => JBool b
  | SNum q => JNum q
  | SStr s => JStr s
  end.

(** The request body of [PUT /api/users/:userId]: the three text fields are
    strings, [isActive] is any scalar. *)
Record UserUpdateBody := {
  ub_username : option string;
  ub_email : option string;
  ub_role : option string;
  ub_isActive : option scalar
}.

(** [isBoolean()]: the validator reads the value as a string and accepts
    'true', 'false', '1' and '0'; [null] reads as the empty string. *)
Definition isBoolean (v : scalar) : bool :=
  match v with
  | SNull => false
  | SBool _ => true
  | SNum q => Qeq_bool q 0 || Qeq_bool q 1
  | SStr s => bool_decide (s ∈ ["true"; "false"; "1"; "0"])
  end.

(** [typeof isActive === 'boolean'] *)
Definition asBoolean (v : option scalar) : option bool :=
  match v with
  | Some (SBool b) => Some b
  | _ => None
  end.

(** [userUpdateValidation]: every rule is [optional()], so an absent field
    is skipped. *)
Definition userUpdateErrors (L : Lib) (b : UserUpdateBody) : list json :=
  (match ub_username b with
   | Some s => if (String.length (trim L s) <? 3)%nat
               then [fieldError "username" "Username must be at least 3 characters long"
                       [("value", JStr (trim L s))]]
               else []
   | None => [] end)
  ++ (match ub_email b with
      | Some s => if isEmail L s then []
                  else [fieldError "email" "Must be a valid email address" [("value", JStr s)]]
      | None => [] end)
  ++ (match ub_role b with
      | Some s => if bool_decide (s ∈ roleEnum) then []
                  else [fieldError "role" "Invalid role specified" [("value", JStr s)]]
      | None => [] end)
  ++ (match ub_isActive b with
      | Some v => if isBoolean v then []
                  else [fieldError "isActive" "isActive must be a boolean value"
                          [("value", scalarJson v)]]
      | None => [] end).

(** The body after the sanitizers of the chain ([trim] on [username]). *)
Definition userUpdateSanitized (L : Lib) (b : UserUpdateBody) : UserUpdateBody :=
  {| ub_username := trim L <$> ub_username b;
     ub_email := ub_email b;
     ub_role := ub_role b;
     ub_isActive := ub_isActive b |}.

(** The [updates] object of [updateUser]; a field left [undefined] is not
    written by [findByIdAndUpdate]. *)
Record UserUpdates := {
  up_username : option string;
  up_email : option string;
  up_role : option string;
  up_isActive : option bool
}.

Definition applyUserUpdates (up : UserUpdates) (u : User) : User :=
  {| username := default (username u) (up_username up);
     email := default (email u) (up_email up);
     password := password u;
     role := default (role u) (up_role up);
     isActive := default (isActive u) (up_isActive up);
     lastLogin := lastLogin u;
     u_createdAt := u_createdAt u |}.

(** [{ $or: [{ email }, { username }] }]; an [undefined] operand matches no
    stored user, every one of which has both fields. *)
Definition sameEmailOrUsername (em un : option string) (u : User) : bool :=
  bool_decide (em = Some (email u)) || bool_decide (un = Some (username u)).

Definition updateUser (L : Lib) (me : AuthUser) (userId : string) (raw : UserUpdateBody)
    (st : Store) : Response * Store :=
  let errors := userUpdateErrors L raw in
  let b := userUpdateSanitized L raw in
  if negb (bool_decide (errors = [])) then
    ({| statusCode := 400; body := JObj [("errors", JArr errors)] |}, st)
  else if existsb (fun iu => negb (String.eqb (fst iu) userId)
                             && sameEmailOrUsername (ub_email b) (ub_username b) (snd iu))
                  (map_to_list (users st)) then
    ({| statusCode := 400; body := errorBody "Email or username is already taken" |}, st)
  else
    let updates :=
      {| up_username := ub_username b;
         up_email := ub_email b;
         up_role := if isAdmin me then (if truthy (ub_role b) then ub_role b else None) else None;
         up_isActive := if isAdmin me then asBoolean (ub_isActive b) else None |} in
    match users st !! userId with
    | None => ({| statusCode := 404; body := errorBody "User not found" |}, st)
    | Some u =>
        let u' := applyUserUpdates updates u in
        if match up_role updates with
           | Some r => bool_decide (r ∈ roleEnum)   (* runValidators, on the paths written *)
           | None => true
           end then
          ({| statusCode := 200; body := userWithoutPassword userId u' |},
           {| users := <[userId := u']> (users st); workloads := workloads st |})
        else ({| statusCode := 500; body := errorBody "Error updating user" |}, st)
    end.

Definition adminCount (us : gmap string User) : Z :=
  countIf (fun iu => String.eqb (role (snd iu)) "admin") (map_to_list us).

Definition deleteUser (userId : string) (st : Store) : Response * Store :=
  match users st !! userId with
  | None => ({| statusCode := 404; body := errorBody "User not found" |}, st)
  | Some user =>
      if String.eqb (role user) "admin" && (adminCount (users st) <=? 1) then
        ({| statusCode := 400; body := errorBody "Cannot delete the last admin user" |}, st)
      else
        match documentRemove userId (users st) with
        | Some us' =>
            ({| statusCode := 200; body := messageBody "User deleted successfully" |},
             {| users := us'; workloads := workloads st |})
        | None => ({| statusCode := 500; body := errorBody "Error deleting user" |}, st)
        end
  end.

(** One row of the [$group] by role followed by the [$project] of
    [getUserStats]. *)
Definition roleStatsRow (g : string * list User) : json :=
  let count := Z.of_nat (length (snd g)) in
  let activeUsers := countIf isActive (snd g) in
  JObj [("_id", JStr (fst g));
        ("count", JInt count);
        ("activeUsers", JInt activeUsers);
        ("role", JStr (fst g));
        ("inactiveUsers", JInt (count - activeUsers))].

Definition getUserStats (st : Store) : Response :=
  let groups := groupBy role (map snd (map_to_list (users st))) in
  let totalUsers := fold_left (fun acc g => acc + Z.of_nat (length (snd g))) groups 0 in
  let activeUsers := fold_left (fun acc g => acc + countIf isActive (snd g)) groups 0 in
  {| statusCode := 200;
     body := JObj [("totalUsers", JInt totalUsers);
                   ("activeUsers", JInt activeUsers);
                   ("inactiveUsers", JInt (totalUsers - activeUsers));
                   ("roleDistribution", JArr (map roleStatsRow groups))] |}.

(** ** Registration ([register] of the authentication controller) *)

(** The body of [POST /api/auth/register].  The rules of that route are not
    among the sources: their outcome, [validationResult(req).array()], is an
    input of the handler. *)
Record RegisterBody := {
  rb_username : string;
  rb_email : string;
  rb_password : string;
  rb_role : option string
}.

(** [role || 'user'] *)
Definition roleOrDefault (r : option string) : string :=
  if truthy r then default "" r else "user".

(** Modelled from the spec: [new User(...)] followed by [save()].  The schema
    refuses a role outside its closed set, the credential is replaced by its
    hash at creation time, and [_id] is unique. *)
Definition saveNewUser (L : Lib) (newId : string) (now : Z) (un em pw r : string)
    (us : gmap string User) : option (User * gmap string User) :=
  if bool_decide (r ∈ roleEnum) && bool_decide (us !! newId = None) then
    let u := {| username := un; email := em; password := bcryptHash L pw; role := r;
                isActive := true; lastLogin := None; u_createdAt := now |} in
    Some (u, <[newId := u]> us)
  else None.

(** Modelled from the spec: [getPublicProfile()], the credential-stripped
    projection of a user. *)
Definition getPublicProfile (id : string) (u : User) : json := userWithoutPassword id u.

Definition register (L : Lib) (errors : list json) (newId : string) (now : Z)
    (b : RegisterBody) (st : Store) : Response * Store :=
  if negb (bool_decide (errors = [])) then
    ({| statusCode := 400; body := JObj [("errors", JArr errors)] |}, st)
  else if existsb (fun iu => sameEmailOrUsername (Some (rb_email b)) (Some (rb_username b)) (snd iu))
                  (map_to_list (users st)) then
    ({| statusCode := 400;
        body := errorBody "User already exists with this email or username" |}, st)
  else
    match saveNewUser L newId now (rb_username b) (rb_email b) (rb_password b)
                      (roleOrDefault (rb_role b)) (users st) with
    | None => ({| statusCode := 500; body := errorBody "Error creating user" |}, st)
    | Some (u, us') =>
        ({| statusCode := 201;
            body := JObj [("user", getPublicProfile newId u); ("token", JStr (jwtSign L newId))] |},
         {| users := us'; workloads := workloads st |})
    end.

(** ** Workload routes and controller ([routes/workload.js],
       [controllers/workloadController.js]) *)

(** The request body of the entry routes: the paths of the schema, each of
    the JSON type the schema expects; [_id] and the two timestamps are paths
    like the others.  An [_id], when given, is a well-formed identifier. *)
Record WorkloadBody := {
  wb__id : option ObjectId;
  wb_developer : option string;
  wb_project : option string;
  wb_taskName : option string;
  wb_taskType : option string;
  wb_hoursSpent : option Q;
  wb_date : option string;
  wb_status : option string;
  wb_priority : option string;
  wb_description : option string;
  wb_blockers : option string;
  wb_tags : option (list string);
  wb_dependencies : option (list string);
  wb_createdAt : option string;
  wb_updatedAt : option string
}.

(** [isFloat({ min: 0 })] on a number. *)
Definition isFloatMin0 (q : Q) : bool := Qle_bool 0 q.

Definition memberOf (allowed : list string) (s : string) : bool := bool_decide (s ∈ allowed).

(** A rule on a field that must be present: an [undefined] value fails it. *)
Definition requiredRule {A} (path msg : string) (show : A -> json) (ok : A -> bool)
    (o : option A) : list json :=
  match o with
  | Some a => if ok a then [] else [fieldError path msg [("value", show a)]]
  | None => [fieldError path msg []]
  end.

(** A rule after [optional()]: an [undefined] value is skipped. *)
Definition optionalRule {A} (path msg : string) (show : A -> json) (ok : A -> bool)
    (o : option A) : list json :=
  match o with
  | Some a => if ok a then [] else [fieldError path msg [("value", show a)]]
  | None => []
  end.

Definition notEmpty (s : string) : bool := negb (String.eqb s "").

(** [toString] of a string field that may be [undefined], as the sanitizers
    and validators read it. *)
Definition toStr (o : option string) : string := default "" o.

(** [workloadCreateValidation] *)
Definition workloadCreateErrors (L : Lib) (b : WorkloadBody) : list json :=
  requiredRule "project" "Project name is required" JStr notEmpty
    (Some (trim L (toStr (wb_project b))))
  ++ requiredRule "taskName" "Task name is required" JStr notEmpty
       (Some (trim L (toStr (wb_taskName b))))
  ++ requiredRule "taskType" "Invalid task type" JStr (memberOf taskTypeEnum) (wb_taskType b)
  ++ requiredRule "hoursSpent" "Hours spent must be a positive number" JNum isFloatMin0
       (wb_hoursSpent b)
  ++ requiredRule "date" "Invalid date format" JStr (isISO8601 L) (wb_date b)
  ++ requiredRule "status" "Invalid status" JStr (memberOf statusEnum) (wb_status b)
  ++ requiredRule "priority" "Invalid priority level" JStr (memberOf priorityEnum) (wb_priority b).

(** [workloadUpdateValidation] *)
Definition workloadUpdateErrors (L : Lib) (b : WorkloadBody) : list json :=
  optionalRule "project" "Project name cannot be empty" JStr notEmpty (trim L <$> wb_project b)
  ++ optionalRule "taskName" "Task name cannot be empty" JStr notEmpty (trim L <$> wb_taskName b)
  ++ optionalRule "taskType" "Invalid task type" JStr (memberOf taskTypeEnum) (wb_taskType b)
  ++ optionalRule "hoursSpent" "Hours spent must be a positive number" JNum isFloatMin0
       (wb_hoursSpent b)
  ++ optionalRule "date" "Invalid date format" JStr (isISO8601 L) (wb_date b)
  ++ optionalRule "status" "Invalid status" JStr (memberOf statusEnum) (wb_status b)
  ++ optionalRule "priority" "Invalid priority level" JStr (memberOf priorityEnum) (wb_priority b).

(** The body after the sanitizers of a chain: [trim] on [project] and
    [taskName], which [optional()] skips on update when the field is absent. *)
Definition workloadSanitized (L : Lib) (onCreate : bool) (b : WorkloadBody) : WorkloadBody :=
  {| wb__id := wb__id b;
     wb_developer := wb_developer b;
     wb_project := if onCreate then Some (trim L (toStr (wb_project b)))
                   else trim L <$> wb_project b;
     wb_taskName := if onCreate then Some (trim L (toStr (wb_taskName b)))
                    else trim L <$> wb_taskName b;
     wb_taskType := wb_taskType b;
     wb_hoursSpent := wb_hoursSpent b;
     wb_date := wb_date b;
     wb_status := wb_status b;
     wb_priority := wb_priority b;
     wb_description := wb_description b;
     wb_blockers := wb_blockers b;
     wb_tags := wb_tags b;
     wb_dependencies := wb_dependencies b;
     wb_createdAt := wb_createdAt b;
     wb_updatedAt := wb_updatedAt b |}.

(** The validators of [workloadDataSchema], run by [save()]: required
    strings are not empty, the enumerations hold and [hoursSpent] has
    [min: 0]. *)
Definition schemaValid (w : WorkloadData) : bool :=
  notEmpty (project w) && notEmpty (taskName w)
  && memberOf taskTypeEnum (taskType w)
  && Qle_bool 0 (hoursSpent w)
  && memberOf statusEnum (status w)
  && memberOf priorityEnum (priority w).

(** The pre-save hook: [this.updatedAt = new Date()]. *)
Definition preSave (now : Z) (w : WorkloadData) : WorkloadData :=
  {| developer := developer w; project := project w; taskName := taskName w;
     taskType := taskType w; hoursSpent := hoursSpent w; date := date w;
     status := status w; priority := priority w; description := description w;
     blockers := blockers w; tags := tags w; dependencies := dependencies w;
     createdAt := createdAt w; updatedAt := now |}.

(** [save()] of a new document: validation, then the hook, then the insert;
    [None] when the document is refused. *)
Definition saveWorkload (now : Z) (id : string) (w : WorkloadData)
    (ws : gmap string WorkloadData) : option (WorkloadData * gmap string WorkloadData) :=
  if schemaValid w then Some (preSave now w, <[id := preSave now w]> ws) else None.

(** A date path given as a string is cast by [new Date]; a string that does
    not cast makes [save()] refuse the document. *)
Definition castDate (L : Lib) (given : option string) (otherwise : Z) : option Z :=
  match given with
  | Some s => newDate L s
  | None => Some otherwise
  end.

(** [new WorkloadData({ ...req.body, developer: req.user._id })]: the casts
    and defaults of the schema; [now] is the [Date.now] of the two timestamp
    defaults.  [None] stands for a document that [save()] refuses for a
    missing required field or a date that does not cast. *)
Definition newWorkloadData (L : Lib) (now : Z) (dev : string) (b : WorkloadBody)
    : option WorkloadData :=
  p ← wb_project b;
  tn ← wb_taskName b;
  tt ← wb_taskType b;
  h ← wb_hoursSpent b;
  ds ← wb_date b;
  d ← newDate L ds;
  created ← castDate L (wb_createdAt b) now;
  updated ← castDate L (wb_updatedAt b) now;
  Some {| developer := dev;
          project := trim L p;
          taskName := trim L tn;
          taskType := tt;
          hoursSpent := h;
          date := d;
          status := default "planned" (wb_status b);
          priority := default "medium" (wb_priority b);
          description := trim L <$> wb_description b;
          blockers := trim L <$> wb_blockers b;
          tags := map (trim L) (default [] (wb_tags b));
          dependencies := default [] (wb_dependencies b);
          createdAt := created;
          updatedAt := updated |}.

(** [Object.assign(workload, updates)]: every path of the body overwrites
    that of the loaded document through the schema's setters. *)
Definition assignWorkload (L : Lib) (b : WorkloadBody) (w : WorkloadData)
    : option WorkloadData :=
  d ← castDate L (wb_date b) (date w);
  created ← castDate L (wb_createdAt b) (createdAt w);
  updated ← castDate L (wb_updatedAt b) (updatedAt w);
  Some {| developer := default (developer w) (wb_developer b);
          project := default (project w) (trim L <$> wb_project b);
          taskName := default (taskName w) (trim L <$> wb_taskName b);
          taskType := default (taskType w) (wb_taskType b);
          hoursSpent := default (hoursSpent w) (wb_hoursSpent b);
          date := d;
          status := default (status w) (wb_status b);
          priority := default (priority w) (wb_priority b);
          description := match wb_description b with
                         | Some s => Some (trim L s)
                         | None => description w
                         end;
          blockers := match wb_blockers b with
                      | Some s => Some (trim L s)
                      | None => blockers w
                      end;
          tags := default (tags w) (map (trim L) <$> wb_tags b);
          dependencies := default (dependencies w) (wb_dependencies b);
          createdAt := created;
          updatedAt := updated |}.

(** One path of the update that [save()] sends for a loaded document: a path
    is modified when its value is no longer the loaded one, and the update
    sets the modified paths only. *)
Definition modifiedPath {A} (same : A -> A -> bool) (loaded assigned stored : A) : A :=
  if same loaded assigned then stored else assigned.

Definition sameAs {A} `{EqDecision A} (a b : A) : bool := bool_decide (a = b).

(** The stored document after the modified paths of [w] are set on it. *)
Definition setModified (loaded w stored : WorkloadData) : WorkloadData :=
  {| developer := modifiedPath sameAs (developer loaded) (developer w) (developer stored);
     project := modifiedPath sameAs (project loaded) (project w) (project stored);
     taskName := modifiedPath sameAs (taskName loaded) (taskName w) (taskName stored);
     taskType := modifiedPath sameAs (taskType loaded) (taskType w) (taskType stored);
     hoursSpent := modifiedPath Qeq_bool (hoursSpent loaded) (hoursSpent w) (hoursSpent stored);
     date := modifiedPath sameAs (date loaded) (date w) (date stored);
     status := modifiedPath sameAs (status loaded) (status w) (status stored);
     priority := modifiedPath sameAs (priority loaded) (priority w) (priority stored);
     description :=
       modifiedPath sameAs (description loaded) (description w) (description stored);
     blockers := modifiedPath sameAs (blockers loaded) (blockers w) (blockers stored);
     tags := modifiedPath sameAs (tags loaded) (tags w) (tags stored);
     dependencies :=
       modifiedPath sameAs (dependencies loaded) (dependencies w) (dependencies stored);
     createdAt := modifiedPath sameAs (createdAt loaded) (createdAt w) (createdAt stored);
     updatedAt := modifiedPath sameAs (updatedAt loaded) (updatedAt w) (updatedAt stored) |}.

(** [save()] of a loaded document: validation, then the hook, then an update
    that sets the modified paths on the stored document whose [_id] is the
    one the document has now.  [None] when the document is refused, or when
    the store has no document of that [_id]. *)
Definition saveLoaded (now : Z) (id : string) (loaded w : WorkloadData)
    (ws : gmap string WorkloadData) : option (WorkloadData * gmap string WorkloadData) :=
  if schemaValid w then
    stored ← ws !! id;
    Some (preSave now w, <[id := setModified loaded (preSave now w) stored]> ws)
  else None.

(** [createWorkload]; [now] is the time at which the document is built and
    [saved] the time at which the hook runs.  The document is inserted under
    the [_id] of the body when it has one, and under a new one otherwise. *)
Definition createWorkload (L : Lib) (me : AuthUser) (newId : string) (now saved : Z)
    (raw : WorkloadBody) (st : Store) : Response * Store :=
  let errors := workloadCreateErrors L raw in
  if negb (bool_decide (errors = [])) then
    ({| statusCode := 400; body := JObj [("errors", JArr errors)] |}, st)
  else
    let id := default newId (wb__id raw) in
    match
      w ← newWorkloadData L now (uid me) (workloadSanitized L true raw);
      if bool_decide (workloads st !! id = None)
      then saveWorkload saved id w (workloads st) else None
    with
    | None => ({| statusCode := 500; body := errorBody "Error creating workload entry" |}, st)
    | Some (w', ws') =>
        ({| statusCode := 201; body := populatedWorkload (users st) id w' |},
         {| users := users st; workloads := ws' |})
    end.

(** [updateWorkload] never consults [validationResult(req)]: the rules of
    the route have run, and only their sanitizers have an effect.  The
    permission is that of the document the path names; the document that
    [save()] updates is the one the body's [_id] names, when it has one. *)
Definition updateWorkload (L : Lib) (me : AuthUser) (id : string) (now : Z)
    (raw : WorkloadBody) (st : Store) : Response * Store :=
  let updates := workloadSanitized L false raw in
  match workloads st !! id with
  | None => ({| statusCode := 404; body := errorBody "Workload entry not found" |}, st)
  | Some workload =>
      if negb (isAdmin me) && negb (String.eqb (developer workload) (uid me)) then
        ({| statusCode := 403; body := errorBody "Access denied" |}, st)
      else
        let target := default id (wb__id updates) in
        match
          w ← assignWorkload L updates workload;
          saveLoaded now target workload w (workloads st)
        with
        | None => ({| statusCode := 500; body := errorBody "Error updating workload entry" |}, st)
        | Some (w', ws') =>
            ({| statusCode := 200; body := populatedWorkload (users st) target w' |},
             {| users := users st; workloads := ws' |})
        end
  end.

(** The query string of [GET /api/workload]; [page] and [limit] are the
    integers their strings spell. *)
Record WorkloadsQuery := {
  wq_startDate : option string;
  wq_endDate : option string;
  wq_project : option string;
  wq_status : option string;
  wq_taskType : option string;
  wq_page : option Z;
  wq_limit : option Z
}.

(** One optional exact-match condition of the [query] object. *)
Definition matchesIf (requested : option string) (actual : string) : bool :=
  if truthy requested then bool_decide (actual = toStr requested) else true.

(** The conditions of the [query] object that the request asks for; [None]
    when a date of the range does not cast. *)
Definition requestedFilter (L : Lib) (q : WorkloadsQuery) : option (WorkloadData -> bool) :=
  range ← (if truthy (wq_startDate q) && truthy (wq_endDate q) then
             lo ← newDate L (toStr (wq_startDate q));
             hi ← newDate L (toStr (wq_endDate q));
             Some (inRange lo hi)
           else Some (fun _ => true));
  Some (fun w =>
          range (date w)
          && matchesIf (wq_project q) (project w)
          && matchesIf (wq_status q) (status w)
          && matchesIf (wq_taskType q) (taskType w)).

(** The whole [query] object of [getWorkloads]: the requested conditions,
    and [developer] set to the caller unless the caller is an administrator. *)
Definition workloadsFilter (L : Lib) (me : AuthUser) (q : WorkloadsQuery)
    : option (WorkloadData -> bool) :=
  requested ← requestedFilter L q;
  Some (fun w =>
          requested w
          && (if negb (isAdmin me) then bool_decide (developer w = uid me) else true)).

(** The documents [find(query).sort({ date: -1 }).skip(skip).limit(limit)]
    returns, and the [total] of [countDocuments(query)]. *)
Definition findWorkloads (L : Lib) (me : AuthUser) (q : WorkloadsQuery) (st : Store)
    : option (list (string * WorkloadData) * Z) :=
  let page := default 1 (wq_page q) in
  let limit := default 10 (wq_limit q) in
  keep ← workloadsFilter L me q;
  let matched := List.filter (fun iw => keep (snd iw)) (map_to_list (workloads st)) in
  found ← skipLimit ((page - 1) * limit) limit (sortDesc (fun iw => date (snd iw)) matched);
  Some (found, Z.of_nat (length matched)).

Definition getWorkloads (L : Lib) (me : AuthUser) (q : WorkloadsQuery) (st : Store) : Response :=
  let page := default 1 (wq_page q) in
  let limit := default 10 (wq_limit q) in
  match findWorkloads L me q st with
  | None => {| statusCode := 500; body := errorBody "Error fetching workload data" |}
  | Some (found, total) =>
      {| statusCode := 200;
         body := JObj [("workloads",
                        JArr (map (fun iw => populatedWorkload (users st) (fst iw) (snd iw)) found));
                       ("pagination", JObj [("total", JInt total);
                                            ("page", JInt page);
                                            ("pages", JOpt JInt (ceilDiv total limit))])] |}
  end.

(** *** Workload statistics ([statics.getWorkloadStats] and its handler) *)

(** A row of the first [$group], keyed by developer and task type. *)
Record TypeTotals := {
  tt_developer : string;
  tt_taskType : string;
  tt_totalHours : Q;
  tt_taskCount : Z
}.

(** A row of the second [$group], keyed by developer. *)
Record DeveloperStats := {
  ds_id : string;
  ds_workloadByType : list TypeTotals;
  ds_totalHours : Q
}.

(** The [match] object: the date range, and the developer when one is given. *)
Definition statsMatch (startDate endDate : Z) (developerId : option string)
    (w : WorkloadData) : bool :=
  inRange startDate endDate (date w)
  && match developerId with
     | Some d => bool_decide (developer w = d)
     | None => true
     end.

Definition typeTotals (L : Lib) (g : (string * string) * list WorkloadData) : TypeTotals :=
  {| tt_developer := fst (fst g);
     tt_taskType := snd (fst g);
     tt_totalHours := dbSum L (map hoursSpent (snd g));
     tt_taskCount := Z.of_nat (length (snd g)) |}.

Definition developerStats (L : Lib) (g : string * list TypeTotals) : DeveloperStats :=
  {| ds_id := fst g;
     ds_workloadByType := snd g;
     ds_totalHours := dbSum L (map tt_totalHours (snd g)) |}.

(** The [$match] and the two [$group] stages. *)
Definition workloadStatsRows (L : Lib) (startDate endDate : Z) (developerId : option string)
    (ws : list WorkloadData) : list DeveloperStats :=
  let matched := List.filter (statsMatch startDate endDate developerId) ws in
  let byType := map (typeTotals L) (groupBy (fun w => (developer w, taskType w)) matched) in
  map (developerStats L) (groupBy tt_developer byType).

Definition typeTotalsJson (t : TypeTotals) : json :=
  JObj [("taskType", JStr (tt_taskType t));
        ("totalHours", JNum (tt_totalHours t));
        ("taskCount", JInt (tt_taskCount t))].

(** [$lookup] into the users and [$unwind]: a row is joined with the user
    document of its developer, and dropped when there is none. *)
Definition lookupDeveloper (us : gmap string User) (r : DeveloperStats)
    : list (DeveloperStats * User) :=
  match us !! ds_id r with
  | None => []
  | Some u => [(r, u)]
  end.

(** A joined row after the [$project] that removes [developer.password] and
    [developer.__v]. *)
Definition statsJson (ru : DeveloperStats * User) : json :=
  JObj [("_id", JStr (ds_id (fst ru)));
        ("workloadByType", JArr (map typeTotalsJson (ds_workloadByType (fst ru))));
        ("totalHours", JNum (ds_totalHours (fst ru)));
        ("developer",
         JObj (exclude "__v" (exclude "password" (userFields (ds_id (fst ru)) (snd ru)))))].

(** The rows the aggregation returns for a [match] object. *)
Definition statsRows (L : Lib) (startDate endDate : Z) (developer : option ObjectId)
    (st : Store) : list (DeveloperStats * User) :=
  concat (map (lookupDeveloper (users st))
              (workloadStatsRows L startDate endDate developer
                 (map snd (map_to_list (workloads st))))).

(** The static [getWorkloadStats]; [Some d] is a [developerId] that is not
    falsy, which is what the handler passes: a non-empty string of the query,
    or the [_id] of the caller.  Such a filter goes through
    [mongoose.Types.ObjectId]; [None] is the rejected promise. *)
Definition workloadStats (L : Lib) (startDate endDate : Z) (developerId : option string)
    (st : Store) : option (list json) :=
  developer ← match developerId with
              | Some d => Some <$> typesObjectId d
              | None => Some None
              end;
  Some (map statsJson (statsRows L startDate endDate developer st)).

Record StatsQuery := {
  sq_startDate : option string;
  sq_endDate : option string;
  sq_developerId : option string
}.

(** [developerId || (req.user.role !== 'admin' ? req.user._id : null)] *)
Definition statsDeveloper (me : AuthUser) (q : StatsQuery) : option string :=
  if truthy (sq_developerId q) then sq_developerId q
  else if negb (isAdmin me) then Some (uid me) else None.

Definition getWorkloadStats (L : Lib) (me : AuthUser) (q : StatsQuery) (st : Store) : Response :=
  if negb (truthy (sq_startDate q)) || negb (truthy (sq_endDate q)) then
    {| statusCode := 400; body := errorBody "Start and end dates are required" |}
  else if negb (isAdmin me) && truthy (sq_developerId q)
          && negb (String.eqb (toStr (sq_developerId q)) (uid me)) then
    {| statusCode := 403; body := errorBody "Access denied" |}
  else
    match workloadStats L (bsonDate (newDate L (toStr (sq_startDate q))))
                          (bsonDate (newDate L (toStr (sq_endDate q))))
                          (statsDeveloper me q) st with
    | None => {| statusCode := 500; body := errorBody "Error fetching workload statistics" |}
    | Some stats => {| statusCode := 200; body := JArr stats |}
    end.

(** *** Project summary ([getProjectSummary]) *)

(** A row of the [$group] by project. *)
Record ProjectGroup := {
  pg_id : string;
  pg_totalHours : Q;
  pg_taskCount : Z;
  pg_completedTasks : Z;
  pg_blockedTasks : Z
}.

(** A row after the [$project] stage. *)
Record ProjectSummary := {
  ps_id : string;
  totalHours : Q;
  taskCount : Z;
  completedTasks : Z;
  blockedTasks : Z;
  ps_project : string;
  completionRate : Q
}.

Definition hasStatus (s : string) (w : WorkloadData) : bool := String.eqb (status w) s.

Definition projectGroup (L : Lib) (g : string * list WorkloadData) : ProjectGroup :=
  {| pg_id := fst g;
     pg_totalHours := dbSum L (map hoursSpent (snd g));
     pg_taskCount := Z.of_nat (length (snd g));
     pg_completedTasks := countIf (hasStatus "completed") (snd g);
     pg_blockedTasks := countIf (hasStatus "blocked") (snd g) |}.

(** The [$project] stage; it fails when [$divide] does. *)
Definition projectStage (L : Lib) (g : ProjectGroup) : option ProjectSummary :=
  ratio ← divide L (inject_Z (pg_completedTasks g)) (inject_Z (pg_taskCount g));
  Some {| ps_id := pg_id g;
          totalHours := pg_totalHours g;
          taskCount := pg_taskCount g;
          completedTasks := pg_completedTasks g;
          blockedTasks := pg_blockedTasks g;
          ps_project := pg_id g;
          completionRate := multiply L ratio 100 |}.

(** The whole pipeline: [$match], [$group], [$project], [$sort]. *)
Definition projectSummary (L : Lib) (startDate endDate : Z) (ws : list WorkloadData)
    : option (list ProjectSummary) :=
  let matched := List.filter (fun w => inRange startDate endDate (date w)) ws in
  rows ← mapM (projectStage L) (map (projectGroup L) (groupBy project matched));
  Some (sortDescQ totalHours rows).

Definition projectSummaryJson (r : ProjectSummary) : json :=
  JObj [("_id", JStr (ps_id r));
        ("totalHours", JNum (totalHours r));
        ("taskCount", JInt (taskCount r));
        ("completedTasks", JInt (completedTasks r));
        ("blockedTasks", JInt (blockedTasks r));
        ("project", JStr (ps_project r));
        ("completionRate", JNum (completionRate r))].

Record SummaryQuery := {
  pq_startDate : option string;
  pq_endDate : option string
}.

Definition getProjectSummary (L : Lib) (q : SummaryQuery) (st : Store) : Response :=
  if negb (truthy (pq_startDate q)) || negb (truthy (pq_endDate q)) then
    {| statusCode := 400; body := errorBody "Start and end dates are required" |}
  else
    match projectSummary L (bsonDate (newDate L (toStr (pq_startDate q))))
                           (bsonDate (newDate L (toStr (pq_endDate q))))
                         (map snd (map_to_list (workloads st))) with
    | None => {| statusCode := 500; body := errorBody "Error fetching project summary" |}
    | Some summary => {| statusCode := 200; body := JArr (map projectSummaryJson summary) |}
    end.

(** ** Concrete data used by the examples *)

(** The demo data are numbers that every operation below computes exactly. *)
Definition demoLib : Lib :=
  {| trim := fun s => s;
     isISO8601 := fun s => negb (String.eqb s "");
     isEmail := fun s => negb (String.eqb s "");
     newDate := fun s => if String.eqb s "2024-01-01" then Some 1704067200000
                         else if String.eqb s "2024-12-31" then Some 1735603200000
                         else None;
     regexI := fun p s => String.eqb p s;
     bcryptHash := fun s => "$2a$10$" ++ s;
     jwtSign := fun s => "jwt." ++ s;
     roundNearest := fun x => x;
     dbSum := sumQ;
     roundNearest_le := fun x y Hle => Hle;
     roundNearest_int := fun z _ => Qeq_refl (inject_Z z) |}.

Definition demoUser (name r : string) : User :=
  {| username := name; email := name ++ "@example.com"; password := "$2a$10$" ++ name;
     role := r; isActive := true; lastLogin := None; u_createdAt := 0 |}.

Definition demoEntry (dev proj : string) (hours : Q) (day : Z) (st : string) : WorkloadData :=
  {| developer := dev; project := proj; taskName := "Task"; taskType := "development";
     hoursSpent := hours; date := day; status := st; priority := "medium";
     description := None; blockers := None; tags := []; dependencies := [];
     createdAt := 0; updatedAt := 0 |}.

Definition demoStore : Store :=
  {| users := <["a1" := demoUser "root" "admin"]>
                (<["u1" := demoUser "ann" "user"]> (<["u2" := demoUser "bob" "user"]> ∅));
     workloads := <["w1" := demoEntry "u1" "P" 4 1710000000000 "completed"]>
                    (<["w2" := demoEntry "u1" "P" 2 1720000000000 "planned"]>
                       (<["w3" := demoEntry "u2" "R" 7 1715000000000 "blocked"]> ∅)) |}.

Definition ann : AuthUser := {| uid := "u1"; udoc := demoUser "ann" "user" |}.

Definition year2024 : SummaryQuery :=
  {| pq_startDate := Some "2024-01-01"; pq_endDate := Some "2024-12-31" |}.

Definition everything : WorkloadsQuery :=
  {| wq_startDate := None; wq_endDate := None; wq_project := None; wq_status := None;
     wq_taskType := None; wq_page := None; wq_limit := None |}.

(** A store with fifteen entries of one developer, on fifteen successive days. *)
Definition fifteenEntries : list (string * WorkloadData) :=
  map (fun i : nat =>
         (String (Ascii.ascii_of_nat (65 + i)) "",
          demoEntry "u1" "P" 1 (1710000000000 + 86400000 * Z.of_nat i) "planned"))
      (seq 0 15).

Definition fifteen : Store :=
  {| users := users demoStore; workloads := list_to_map fifteenEntries |}.

Definition secondPage : WorkloadsQuery :=
  {| wq_startDate := None; wq_endDate := None; wq_project := None; wq_status := None;
     wq_taskType := None; wq_page := Some 2; wq_limit := None |}.

Definition ownStats : StatsQuery :=
  {| sq_startDate := Some "2024-01-01"; sq_endDate := Some "2024-12-31";
     sq_developerId := None |}.

Definition othersStatsWithoutDates : StatsQuery :=
  {| sq_startDate := None; sq_endDate := None; sq_developerId := Some "u2" |}.

Definition othersStats : StatsQuery :=
  {| sq_startDate := Some "2024-01-01"; sq_endDate := Some "2024-12-31";
     sq_developerId := Some "u2" |}.

(** A self-update that asks for the administrator role and switches the
    account off, with an email that the administrator already holds. *)
Definition takenEmail : UserUpdateBody :=
  {| ub_username := None; ub_email := Some "root@example.com";
     ub_role := Some "admin"; ub_isActive := Some (SBool false) |}.

(** A self-update whose [isActive] is the text 'yes'. *)
Definition notABoolean : UserUpdateBody :=
  {| ub_username := None; ub_email := None; ub_role := None;
     ub_isActive := Some (SStr "yes") |}.

(** The same request with an email of its own. *)
Definition freshEmail : UserUpdateBody :=
  {| ub_username := Some "annie"; ub_email := Some "annie@example.com";
     ub_role := Some "admin"; ub_isActive := Some (SBool false) |}.

(** What a non-administrator's update writes: the name and the email. *)
Definition selfUpdated (L : Lib) (raw : UserUpdateBody) (u : User) : User :=
  {| username := default (username u) (trim L <$> ub_username raw);
     email := default (email u) (ub_email raw);
     password := password u;
     role := role u;
     isActive := isActive u;
     lastLogin := lastLogin u;
     u_createdAt := u_createdAt u |}.

(** An update of the hours alone, to a negative value. *)
Definition negativeHours : WorkloadBody :=
  {| wb__id := None; wb_developer := None; wb_project := None; wb_taskName := None;
     wb_taskType := None; wb_hoursSpent := Some (-1)%Q; wb_date := None;
     wb_status := None; wb_priority := None;
     wb_description := None; wb_blockers := None; wb_tags := None; wb_dependencies := None;
     wb_createdAt := None; wb_updatedAt := None |}.

(** A complete new entry whose hours are negative. *)
Definition negativeEntry : WorkloadBody :=
  {| wb__id := None; wb_developer := None; wb_project := Some "P"; wb_taskName := Some "Task";
     wb_taskType := Some "development"; wb_hoursSpent := Some (-1)%Q;
     wb_date := Some "2024-01-01"; wb_status := Some "planned"; wb_priority := Some "medium";
     wb_description := None; wb_blockers := None; wb_tags := None; wb_dependencies := None;
     wb_createdAt := None; wb_updatedAt := None |}.

Definition eve : RegisterBody :=
  {| rb_username := "eve"; rb_email := "eve@example.com"; rb_password := "secret";
     rb_role := Some "admin" |}.

(** The document [register] creates for a body and a role. *)
Definition registered (L : Lib) (now : Z) (b : RegisterBody) (r : string) : User :=
  {| username := rb_username b; email := rb_email b; password := bcryptHash L (rb_password b);
     role := r; isActive := true; lastLogin := None; u_createdAt := now |}.

(** The demo store with a second administrator. *)
Definition twoAdmins : Store :=
  {| users := <["a2" := demoUser "su" "admin"]> (users demoStore);
     workloads := workloads demoStore |}.

(** ** The remaining handlers, the identity check and the routes *)

(** [deleteWorkload] *)
Definition deleteWorkload (me : AuthUser) (id : string) (st : Store) : Response * Store :=
  match workloads st !! id with
  | None => ({| statusCode := 404; body := errorBody "Workload entry not found" |}, st)
  | Some workload =>
      if negb (isAdmin me) && negb (String.eqb (developer workload) (uid me)) then
        ({| statusCode := 403; body := errorBody "Access denied" |}, st)
      else
        match documentRemove id (workloads st) with
        | Some ws' =>
            ({| statusCode := 200; body := messageBody "Workload entry deleted successfully" |},
             {| users := users st; workloads := ws' |})
        | None => ({| statusCode := 500; body := errorBody "Error deleting workload entry" |}, st)
        end
  end.

(** The two functions of the authentication path that are not string
    formatting.  [jwtVerify] is [jwt.verify(token, secret)] followed by the read
    of [decoded.userId]; [None] is a token that does not verify. *)
Record Crypto := {
  jwtVerify : string -> option string;
  (** Modelled from the spec: [comparePassword] of the [User] model
      ([models/User.js] is not among the sources), the check of a candidate
      credential against the stored hash. *)
  comparePassword : string -> string -> bool
}.

(** [User.findOne(filter)]: a document that meets the filter, when one exists. *)
Definition findOneUser (p : User -> bool) (us : gmap ObjectId User) : option (string * User) :=
  head (List.filter (fun iu => p (snd iu)) (map_to_list us)).

(** The body of [POST /api/auth/login], both fields strings. *)
Record LoginBody := {
  lb_email : string;
  lb_password : string
}.

Definition withLastLogin (now : Z) (u : User) : User :=
  {| username := username u; email := email u; password := password u; role := role u;
     isActive := isActive u; lastLogin := Some now; u_createdAt := u_createdAt u |}.

Definition withPassword (hash : string) (u : User) : User :=
  {| username := username u; email := email u; password := hash; role := role u;
     isActive := isActive u; lastLogin := lastLogin u; u_createdAt := u_createdAt u |}.

Definition invalidLogin : Response :=
  {| statusCode := 401; body := errorBody "Invalid login credentials" |}.

(** [login]; [now] is the [new Date()] written to [lastLogin]. *)
Definition login (C : Crypto) (L : Lib) (now : Z) (b : LoginBody) (st : Store)
    : Response * Store :=
  match findOneUser (fun u => bool_decide (email u = lb_email b)) (users st) with
  | None => (invalidLogin, st)
  | Some (id, user) =>
      if negb (isActive user) then
        ({| statusCode := 401; body := errorBody "Account is deactivated" |}, st)
      else if negb (comparePassword C (lb_password b) (password user)) then
        (invalidLogin, st)
      else
        let user' := withLastLogin now user in
        ({| statusCode := 200;
            body := JObj [("user", getPublicProfile id user'); ("token", JStr (jwtSign L id))] |},
         {| users := <[id := user']> (users st); workloads := workloads st |})
  end.

(** [getProfile] and [logout] *)
Definition getProfile (me : AuthUser) : Response :=
  {| statusCode := 200; body := getPublicProfile (uid me) (udoc me) |}.

Definition logout : Response :=
  {| statusCode := 200; body := messageBody "Logged out successfully" |}.

(** [changePassword].  Modelled from the spec: the [save()] of the [User]
    model replaces the new credential by its hash; it writes the one path
    that changed, and fails when the document is no longer in the store. *)
Definition changePassword (C : Crypto) (L : Lib) (me : AuthUser)
    (currentPassword newPassword : string) (st : Store) : Response * Store :=
  if negb (comparePassword C currentPassword (password (udoc me))) then
    ({| statusCode := 400; body := errorBody "Current password is incorrect" |}, st)
  else
    match users st !! uid me with
    | None => ({| statusCode := 500; body := errorBody "Error changing password" |}, st)
    | Some stored =>
        ({| statusCode := 200; body := messageBody "Password updated successfully" |},
         {| users := <[uid me := withPassword (bcryptHash L newPassword) stored]> (users st);
            workloads := workloads st |})
    end.

(** The rest of [s] after the prefix [pat], when [s] starts with it. *)
Fixpoint stripPrefix (pat s : string) : option string :=
  match pat, s with
  | EmptyString, _ => Some s
  | String a pat', String c s' => if Ascii.eqb a c then stripPrefix pat' s' else None
  | String _ _, EmptyString => None
  end.

(** [s.replace(pat, rep)] for a string pattern: the first occurrence only. *)
Fixpoint replaceFirst (pat rep s : string) : string :=
  match stripPrefix pat s with
  | Some rest => rep ++ rest
  | None =>
      match s with
      | EmptyString => EmptyString
      | String c s' => String c (replaceFirst pat rep s')
      end
  end.

Definition unauthenticated : Response :=
  {| statusCode := 401; body := errorBody "Please authenticate" |}.

(** [auth]: the response of the [catch], or the user attached to the request. *)
Definition auth (C : Crypto) (authorization : option string) (st : Store)
    : Response + AuthUser :=
  let token := replaceFirst "Bearer " "" <$> authorization in
  if negb (truthy token) then inl unauthenticated
  else
    match jwtVerify C (toStr token) with
    | None => inl unauthenticated
    | Some userId =>
        match users st !! userId with
        | Some user =>
            if isActive user then inr {| uid := userId; udoc := user |}
            else inl unauthenticated
        | None => inl unauthenticated
        end
    end.

(** The requests of [routes/users.js]. *)
Inductive UsersRequest :=
| ListUsers (q : UsersQuery)
| UserStats
| GetUser (userId : string)
| PutUser (userId : string) (raw : UserUpdateBody)
| DeleteUser (userId : string).

(** A middleware that answers ends the request; otherwise the next one runs. *)
Definition guarded (guard : option Response) (st : Store) (handler : Response * Store)
    : Response * Store :=
  match guard with
  | Some refused => (refused, st)
  | None => handler
  end.

(** The router of [routes/users.js], after [auth] has attached [me]. *)
Definition usersRoute (L : Lib) (me : AuthUser) (r : UsersRequest) (st : Store)
    : Response * Store :=
  match r with
  | ListUsers q => guarded (checkRole ["admin"] me) st (getUsers L q st, st)
  | UserStats => guarded (checkRole ["admin"] me) st (getUserStats st, st)
  | GetUser userId => guarded (checkUserAccess me userId) st (getUserById userId st, st)
  | PutUser userId raw => guarded (checkUserAccess me userId) st (updateUser L me userId raw st)
  | DeleteUser userId => guarded (checkRole ["admin"] me) st (deleteUser userId st)
  end.

(** A request to [/api/users] with its [Authorization] header. *)
Definition usersApi (C : Crypto) (L : Lib) (authorization : option string)
    (r : UsersRequest) (st : Store) : Response * Store :=
  match auth C authorization st with
  | inl refused => (refused, st)
  | inr me => usersRoute L me r st
  end.

(** The row the [$project] stage of the summary makes of a group whose
    [taskCount] is not zero. *)
Definition summaryRow (L : Lib) (g : ProjectGroup) : ProjectSummary :=
  {| ps_id := pg_id g;
     totalHours := pg_totalHours g;
     taskCount := pg_taskCount g;
     completedTasks := pg_completedTasks g;
     blockedTasks := pg_blockedTasks g;
     ps_project := pg_id g;
     completionRate :=
       multiply L (roundNearest L (inject_Z (pg_completedTasks g) / inject_Z (pg_taskCount g))%Q)
                100 |}.

(** The requests of [routes/workload.js].  A creation carries the identifier
    the mapper draws for the new document, and the writes the times the clock
    shows when it is read. *)
Inductive WorkloadRequest :=
| PostWorkload (newId : string) (now saved : Z) (raw : WorkloadBody)
| ListWorkloads (q : WorkloadsQuery)
| StatsWorkloads (q : StatsQuery)
| SummaryWorkloads (q : SummaryQuery)
| PutWorkload (id : string) (now : Z) (raw : WorkloadBody)
| DeleteWorkload (id : string).

(** The router of [routes/workload.js], after [auth] has attached [me]: no
    route has a role guard, and the validation chains only record their
    findings for the handler. *)
Definition workloadRoute (L : Lib) (me : AuthUser) (r : WorkloadRequest) (st : Store)
    : Response * Store :=
  match r with
  | PostWorkload newId now saved raw => createWorkload L me newId now saved raw st
  | ListWorkloads q => (getWorkloads L me q st, st)
  | StatsWorkloads q => (getWorkloadStats L me q st, st)
  | SummaryWorkloads q => (getProjectSummary L q st, st)
  | PutWorkload id now raw => updateWorkload L me id now raw st
  | DeleteWorkload id => deleteWorkload me id st
  end.

(** The store after a sequence of requests, each with its caller. *)
Definition runWorkloadRequests (L : Lib) (rs : list (AuthUser * WorkloadRequest)) (st : Store)
    : Store :=
  fold_left (fun s r => snd (workloadRoute L (fst r) (snd r) s)) rs st.

(** The invariants of the schema, over the whole collection. *)
Definition allEntriesValid (st : Store) : Prop :=
  forall id w, workloads st !! id = Some w -> schemaValid w = true.

(** Two requests of [ann] on the entry of another developer. *)
Definition annOnOthersEntry : list (AuthUser * WorkloadRequest) :=
  [(ann, DeleteWorkload "w3");
   (ann, PutWorkload "w3" 1720000000000
           {| wb__id := None; wb_developer := Some "u1"; wb_project := None;
              wb_taskName := None; wb_taskType := None; wb_hoursSpent := Some 1%Q;
              wb_date := None; wb_status := Some "completed"; wb_priority := None;
              wb_description := None; wb_blockers := None; wb_tags := None;
              wb_dependencies := None; wb_createdAt := None; wb_updatedAt := None |});
   (ann, PutWorkload "w1" 1720000000000
           {| wb__id := Some "w2"; wb_developer := None; wb_project := None;
              wb_taskName := None; wb_taskType := None; wb_hoursSpent := Some 1%Q;
              wb_date := None; wb_status := None; wb_priority := None;
              wb_description := None; wb_blockers := None; wb_tags := None;
              wb_dependencies := None; wb_createdAt := None; wb_updatedAt := None |})].

(** A complete new entry, with tags, that names another developer. *)
Definition taggedEntry : WorkloadBody :=
  {| wb__id := None; wb_developer := Some "u2"; wb_project := Some "P"; wb_taskName := Some "Task";
     wb_taskType := Some "development"; wb_hoursSpent := Some 4%Q;
     wb_date := Some "2024-01-01"; wb_status := Some "planned"; wb_priority := Some "medium";
     wb_description := None; wb_blockers := None; wb_tags := Some ["api"; "urgent"];
     wb_dependencies := None;
     wb_createdAt := None; wb_updatedAt := None |}.

Definition bob : AuthUser := {| uid := "u2"; udoc := demoUser "bob" "user" |}.

Definition root : AuthUser := {| uid := "a1"; udoc := demoUser "root" "admin" |}.

(** The demo users without any entry. *)
Definition noEntries : Store := {| users := users demoStore; workloads := ∅ |}.

(** An update that hands the entry to another developer. *)
Definition handOver : WorkloadBody :=
  {| wb__id := None; wb_developer := Some "u2"; wb_project := None; wb_taskName := None;
     wb_taskType := None; wb_hoursSpent := None; wb_date := None;
     wb_status := None; wb_priority := None;
     wb_description := None; wb_blockers := None; wb_tags := None; wb_dependencies := None;
     wb_createdAt := None; wb_updatedAt := None |}.

(** An update of the hours and the status. *)
Definition sixHoursDone : WorkloadBody :=
  {| wb__id := None; wb_developer := None; wb_project := None; wb_taskName := None;
     wb_taskType := None; wb_hoursSpent := Some 6%Q; wb_date := None; wb_status := Some "completed";
     wb_priority := None; wb_description := None; wb_blockers := None; wb_tags := None;
     wb_dependencies := None;
     wb_createdAt := None; wb_updatedAt := None |}.

(** An update whose body names the entry [id] by its [_id]. *)
Definition namesInBody (id : string) (r : WorkloadRequest) : bool :=
  match r with
  | PutWorkload _ _ raw => bool_decide (wb__id raw = Some id)
  | _ => false
  end.

(** An update of the status, with the [_id] of the entry of another
    developer in the body. *)
Definition redirected : WorkloadBody :=
  {| wb__id := Some "w3"; wb_developer := None; wb_project := None; wb_taskName := None;
     wb_taskType := None; wb_hoursSpent := None; wb_date := None;
     wb_status := Some "completed"; wb_priority := None; wb_description := None;
     wb_blockers := None; wb_tags := None; wb_dependencies := None;
     wb_createdAt := None; wb_updatedAt := None |}.

(** No two users share an email or a username. *)
Definition uniqueUsers (us : gmap ObjectId User) : Prop :=
  forall i j u v, us !! i = Some u -> us !! j = Some v -> i <> j ->
                  email u <> email v /\ username u <> username v.

(** The handlers that write user records, with what each is given. *)
Inductive UserWrite :=
| Register (errors : list json) (newId : string) (now : Z) (b : RegisterBody)
| Login (now : Z) (b : LoginBody)
| ChangePassword (me : AuthUser) (currentPassword newPassword : string)
| UpdateUser (me : AuthUser) (userId : string) (raw : UserUpdateBody)
| RemoveUser (userId : string).

Definition userWrite (C : Crypto) (L : Lib) (op : UserWrite) (st : Store) : Response * Store :=
  match op with
  | Register errors newId now b => register L errors newId now b st
  | Login now b => login C L now b st
  | ChangePassword me currentPassword newPassword =>
      changePassword C L me currentPassword newPassword st
  | UpdateUser me userId raw => updateUser L me userId raw st
  | RemoveUser userId => deleteUser userId st
  end.

Definition runUserWrites (C : Crypto) (L : Lib) (ops : list UserWrite) (st : Store) : Store :=
  fold_left (fun s op => snd (userWrite C L op s)) ops st.

(** Credentials as the demo library hashes them. *)
Definition demoCrypto : Crypto :=
  {| jwtVerify := fun t => stripPrefix "jwt." t;
     comparePassword := fun candidate hash => String.eqb ("$2a$10$" ++ candidate) hash |}.

(** An administrator's update that makes the target a plain user. *)
Definition demote : UserUpdateBody :=
  {| ub_username := None; ub_email := None; ub_role := Some "user"; ub_isActive := None |}.

(** What a user may do and how the user proves identity. *)
Definition rights (u : User) : string * bool * string := (role u, isActive u, password u).

(** The store after a sequence of requests to [/api/users], each with its
    [Authorization] header. *)
Definition runUsersApi (C : Crypto) (L : Lib) (rs : list (option string * UsersRequest))
    (st : Store) : Store :=
  fold_left (fun s r => snd (usersApi C L (fst r) (snd r) s)) rs st.

Definition eveLogin : LoginBody := {| lb_email := "eve@example.com"; lb_password := "secret" |}.

(** An administrator's update that switches the account off. *)
Definition deactivate : UserUpdateBody :=
  {| ub_username := None; ub_email := None; ub_role := None;
     ub_isActive := Some (SBool false) |}.

(** Requests that bear the token of [ann], or none. *)
Definition annOnUsers : list (option string * UsersRequest) :=
  [(Some "Bearer jwt.u1", PutUser "u1" freshEmail);
   (Some "Bearer jwt.u1", PutUser "a1" demote);
   (Some "Bearer jwt.u1", DeleteUser "a1");
   (None, DeleteUser "u2")].

(** Deletions sent with the administrator's token. *)
Definition rootDeletes : list (option string * UsersRequest) :=
  [(Some "Bearer jwt.a1", DeleteUser "u2");
   (Some "Bearer jwt.a1", DeleteUser "a1");
   (Some "Bearer jwt.a1", ListUsers {| uq_page := None; uq_limit := None;
                                       uq_search := None; uq_role := None |})].

(** ** The analytics page ([WorkloadAnalytics.jsx])

    [processWorkloadByType] folds the rows of the statistics response into one
    row per task type.  Its [typeMap] is a JavaScript [Map]: keys in order of
    first insertion, [set] on a present key replacing the value in place. *)
Record TypeRow := {
  tr_type : string;
  tr_hours : Q;
  tr_tasks : Z
}.

Definition mapGet (k : string) (m : list (string * TypeRow)) : option TypeRow :=
  snd <$> List.find (fun kv => String.eqb k (fst kv)) m.

Fixpoint mapSet (k : string) (v : TypeRow) (m : list (string * TypeRow))
  : list (string * TypeRow) :=
  match m with
  | [] => [(k, v)]
  | (k', v') :: rest =>
      if String.eqb k k' then (k', v) :: rest else (k', v') :: mapSet k v rest
  end.

(** The body of the inner [forEach]. *)
Definition addToTypeMap (L : Lib) (m : list (string * TypeRow)) (workload : TypeTotals)
  : list (string * TypeRow) :=
  let current :=
    default {| tr_type := tt_taskType workload; tr_hours := 0; tr_tasks := 0 |}
            (mapGet (tt_taskType workload) m) in
  mapSet (tt_taskType workload)
         {| tr_type := tr_type current;
            tr_hours := addDoubles L (tr_hours current) (tt_totalHours workload);
            tr_tasks := tr_tasks current + tt_taskCount workload |}
         m.

Definition processWorkloadByType (L : Lib) (data : list DeveloperStats) : list TypeRow :=
  map snd
      (fold_left (fun m dev => fold_left (addToTypeMap L) (ds_workloadByType dev) m) data []).

(** The row of a key in a map of the analytics page, zero when absent. *)
Definition rowOf (k : string) (m : list (string * TypeRow)) : TypeRow :=
  default {| tr_type := k; tr_hours := 0; tr_tasks := 0 |} (mapGet k m).

(** The per-type rows of a statistics response, of every developer. *)
Definition allTypeTotals (data : list DeveloperStats) : list TypeTotals :=
  concat (map ds_workloadByType data).

Definition ofType (k : string) (items : list TypeTotals) : list TypeTotals :=
  List.filter (fun w => bool_decide (tt_taskType w = k)) items.

(** The list request with a page size of 0, and the one for page 0. *)
Definition zeroLimit : WorkloadsQuery :=
  {| wq_startDate := None; wq_endDate := None; wq_project := None; wq_status := None;
     wq_taskType := None; wq_page := None; wq_limit := Some 0 |}.

Definition zeroPage : WorkloadsQuery :=
  {| wq_startDate := None; wq_endDate := None; wq_project := None; wq_status := None;
     wq_taskType := None; wq_page := Some 0; wq_limit := None |}.

(** A list query with its date range removed. *)
Definition withoutDates (q : WorkloadsQuery) : WorkloadsQuery :=
  {| wq_startDate := None; wq_endDate := None; wq_project := wq_project q;
     wq_status := wq_status q; wq_taskType := wq_taskType q; wq_page := wq_page q;
     wq_limit := wq_limit q |}.

(** A list query that gives a start date only, and not a date at that. *)
Definition sinceWhenever : WorkloadsQuery :=
  {| wq_startDate := Some "yesterday"; wq_endDate := None; wq_project := None;
     wq_status := None; wq_taskType := None; wq_page := None; wq_limit := None |}.

(** ** Properties of the helpers *)

Section Helpers.
Context {A : Type}.

Lemma existsb_false_Forall (p : A -> bool) (l : list A) :
  Forall (fun a => p a = false) l -> existsb p l = false.
Proof.
  induction 1 as [| a l Ha _ IH]; simpl; [done |]. by rewrite Ha, IH.
Qed.

Lemma existsb_map_false {B} (f : B -> A) (p : A -> bool) (l : list B) :
  (forall b, p (f b) = false) -> existsb p (map f l) = false.
Proof.
  intros Hf. induction l as [| b l IH]; simpl; [done |]. by rewrite Hf, IH.
Qed.

Lemma existsb_app_false (p : A -> bool) (l1 l2 : list A) :
  existsb p l1 = false -> existsb p l2 = false -> existsb p (l1 ++ l2) = false.
Proof. intros H1 H2. by rewrite existsb_app, H1, H2. Qed.

Lemma existsb_concat_false (p : A -> bool) (ls : list (list A)) :
  Forall (fun l => existsb p l = false) ls -> existsb p (concat ls) = false.
Proof.
  induction 1 as [| l ls Hl _ IH]; simpl; [done |]. by apply existsb_app_false.
Qed.

Lemma elem_of_List_filter (p : A -> bool) (l : list A) (a : A) :
  a ∈ List.filter p l <-> a ∈ l /\ p a = true.
Proof. rewrite !list_elem_of_In. apply filter_In. Qed.

Lemma List_filter_Permutation (p : A -> bool) (l1 l2 : list A) :
  l1 ≡ₚ l2 -> List.filter p l1 ≡ₚ List.filter p l2.
Proof.
  induction 1 as [| a l1 l2 _ IH | a b l | l1 l2 l3 _ IH1 _ IH2]; simpl.
  - done.
  - destruct (p a); by rewrite IH.
  - destruct (p a), (p b); try done. apply perm_swap.
  - by rewrite IH1.
Qed.

Lemma countIf_Permutation (p : A -> bool) (l1 l2 : list A) :
  l1 ≡ₚ l2 -> countIf p l1 = countIf p l2.
Proof. intros H. unfold countIf. by rewrite (List_filter_Permutation p _ _ H). Qed.

Lemma countIf_cons (p : A -> bool) (a : A) (l : list A) :
  countIf p (a :: l) = (if p a then 1 else 0) + countIf p l.
Proof. unfold countIf. simpl. destruct (p a); simpl length; lia. Qed.

Lemma countIf_nonneg (p : A -> bool) (l : list A) : 0 <= countIf p l.
Proof. unfold countIf. lia. Qed.
End Helpers.

(** ** Guards *)

Lemma checkUserAccess_self (me : AuthUser) : checkUserAccess me (uid me) = None.
Proof. unfold checkUserAccess. rewrite String.eqb_refl. by destruct (isAdmin me). Qed.

Lemma checkUserAccess_other (me : AuthUser) (target : string) :
  isAdmin me = false -> target <> uid me ->
  statusCode <$> checkUserAccess me target = Some 403.
Proof.
  intros Hrole Hne. unfold checkUserAccess. rewrite Hrole.
  destruct (String.eqb_spec (uid me) target); [congruence | done].
Qed.

Lemma checkRole_admin_only (me : AuthUser) :
  checkRole ["admin"] me = None <-> isAdmin me = true.
Proof.
  unfold checkRole, isAdmin. rewrite String.eqb_eq.
  destruct (bool_decide_reflect (role (udoc me) ∈ ["admin"])) as [Hin | Hout].
  - split; [| done]. intros _. by apply list_elem_of_singleton in Hin.
  - split; [done |]. intros Hadmin. exfalso. apply Hout. rewrite Hadmin. left.
Qed.

(** ** Deleting users *)

Lemma adminCount_delete (us : gmap string User) (id : string) (u : User) :
  us !! id = Some u ->
  adminCount us = (if String.eqb (role u) "admin" then 1 else 0) + adminCount (delete id us).
Proof.
  intros Hu. unfold adminCount.
  rewrite <- (countIf_Permutation _ _ _ (map_to_list_delete us id u Hu)).
  by rewrite countIf_cons.
Qed.

Lemma adminCount_nonneg (us : gmap string User) : 0 <= adminCount us.
Proof. apply countIf_nonneg. Qed.

(** [deleteUser] never reaches the store: past its guards it calls
    [user.remove()], which raises. *)
Lemma deleteUser_store (userId : string) (st : Store) : snd (deleteUser userId st) = st.
Proof.
  unfold deleteUser. destruct (users st !! userId) as [u |]; [| done].
  by destruct (_ && _).
Qed.

Lemma deleteUser_refuses (userId : string) (st : Store) :
  statusCode (fst (deleteUser userId st)) <> 200.
Proof.
  unfold deleteUser. destruct (users st !! userId) as [u |]; [| done].
  by destruct (_ && _).
Qed.

(** C2, as the code has it: a delete request that targets the only
    administrator is refused with 400 and leaves the store as it was.  When
    there are two administrators or more the handler passes the guard and
    calls [user.remove()], which the mapper no longer has: the request is
    answered 500 and no record is deleted. *)
Theorem deleteUser_second_admin_is_500 (userId : string) (st : Store) (u : User) :
  users st !! userId = Some u ->
  role u = "admin" ->
  (adminCount (users st) = 1 ->
     deleteUser userId st
     = ({| statusCode := 400; body := errorBody "Cannot delete the last admin user" |}, st))
  /\ (2 <= adminCount (users st) ->
        deleteUser userId st
        = ({| statusCode := 500; body := errorBody "Error deleting user" |}, st)
        /\ users (snd (deleteUser userId st)) !! userId = Some u).
Proof.
  intros Hu Hadmin. unfold deleteUser. rewrite Hu, Hadmin. simpl.
  destruct (Z.leb_spec (adminCount (users st)) 1) as [Hle | Hgt]; simpl.
  - split; [done | lia].
  - split; [lia | done].
Qed.

Lemma deleteUser_second_admin_is_500_witness :
  users twoAdmins !! "a2" = Some (demoUser "su" "admin")
  /\ role (demoUser "su" "admin") = "admin"
  /\ 2 <= adminCount (users twoAdmins)
  /\ deleteUser "a2" twoAdmins
     = ({| statusCode := 500; body := errorBody "Error deleting user" |}, twoAdmins).
Proof.
  assert (H1 : users twoAdmins !! "a2" = Some (demoUser "su" "admin")) by reflexivity.
  assert (H2 : role (demoUser "su" "admin") = "admin") by reflexivity.
  assert (H3 : 2 <= adminCount (users twoAdmins)) by (vm_compute; discriminate).
  split; [exact H1 | split; [exact H2 | split; [exact H3 |]]].
  exact (proj1 (proj2 (deleteUser_second_admin_is_500 "a2" twoAdmins _ H1 H2) H3)).
Defined.

(** No delete request, whoever its target, removes the last administrator. *)
Lemma deleteUser_admin_invariant (userId : string) (st : Store) :
  1 <= adminCount (users st) -> 1 <= adminCount (users (snd (deleteUser userId st))).
Proof. by rewrite deleteUser_store. Qed.

(** ** Grouping and sorting *)

Section Grouping.
Context {K A : Type} `{EqDecision K}.

Lemma elem_of_groupBy (key : A -> K) (l : list A) (k : K) (members : list A) :
  (k, members) ∈ groupBy key l ->
  members = List.filter (fun a => bool_decide (key a = k)) l
  /\ exists a, a ∈ l /\ key a = k.
Proof.
  unfold groupBy. rewrite list_elem_of_fmap. intros (k' & Heq & Hk').
  injection Heq as -> ->. split; [done |].
  apply elem_of_remove_dups, list_elem_of_fmap in Hk' as (a & -> & Ha). eauto.
Qed.

Lemma groupBy_nonempty (key : A -> K) (l : list A) (g : K * list A) :
  g ∈ groupBy key l -> (1 <= length (snd g))%nat.
Proof.
  destruct g as [k members]. intros (-> & a & Ha & Hk)%elem_of_groupBy. simpl.
  assert (Hin : a ∈ List.filter (fun a => bool_decide (key a = k)) l).
  { apply elem_of_List_filter. split; [done |]. by apply bool_decide_eq_true. }
  destruct (List.filter _ l); [by apply not_elem_of_nil in Hin | simpl; lia].
Qed.

Lemma groupBy_keys (key : A -> K) (l : list A) (g : K * list A) :
  g ∈ groupBy key l -> exists a, a ∈ l /\ key a = fst g.
Proof. destruct g as [k members]. by intros (_ & Ha)%elem_of_groupBy. Qed.
End Grouping.

Lemma List_filter_filter {A} (p q : A -> bool) (l : list A) :
  List.filter p (List.filter q l) = List.filter (fun a => q a && p a) l.
Proof.
  induction l as [| a l IH]; simpl; [done |].
  destruct (q a); simpl; [destruct (p a) |]; by rewrite IH.
Qed.

#[global] Instance geBy_total {A} (key : A -> Z) : Total (geBy key).
Proof. intros a b. unfold geBy. lia. Qed.

#[global] Instance geBy_trans {A} (key : A -> Z) : Transitive (geBy key).
Proof. intros a b c. unfold geBy. lia. Qed.

#[global] Instance geByQ_total {A} (key : A -> Q) : Total (geByQ key).
Proof.
  intros a b. unfold geByQ.
  destruct (Qlt_le_dec (key a) (key b)) as [Hlt | Hle]; [right | left]; [| done].
  by apply Qlt_le_weak.
Qed.

#[global] Instance geByQ_trans {A} (key : A -> Q) : Transitive (geByQ key).
Proof. intros a b c. unfold geByQ. intros Hab Hbc. by apply (Qle_trans _ (key b)). Qed.

Lemma sortDesc_sorted {A} (key : A -> Z) (l : list A) :
  StronglySorted (geBy key) (sortDesc key l).
Proof. apply StronglySorted_merge_sort; apply _. Qed.

Lemma sortDesc_Permutation {A} (key : A -> Z) (l : list A) : sortDesc key l ≡ₚ l.
Proof. apply merge_sort_Permutation. Qed.

Lemma sortDescQ_sorted {A} (key : A -> Q) (l : list A) :
  StronglySorted (geByQ key) (sortDescQ key l).
Proof. apply StronglySorted_merge_sort; apply _. Qed.

Lemma sortDescQ_Permutation {A} (key : A -> Q) (l : list A) : sortDescQ key l ≡ₚ l.
Proof. apply merge_sort_Permutation. Qed.

(** ** Project summary *)

Lemma divide_by_count (L : Lib) (c n : Z) :
  1 <= n ->
  divide L (inject_Z c) (inject_Z n) = Some (roundNearest L (inject_Z c / inject_Z n)%Q).
Proof.
  intros Hn. unfold divide.
  destruct (Qeq_bool (inject_Z n) 0) eqn:Hz; [| done].
  apply Qeq_bool_iff in Hz. unfold Qeq in Hz. simpl in Hz. lia.
Qed.

Lemma projectStage_group (L : Lib) (g : string * list WorkloadData) :
  (1 <= length (snd g))%nat ->
  exists r, projectStage L (projectGroup L g) = Some r
    /\ ps_project r = fst g
    /\ ps_id r = fst g
    /\ totalHours r = dbSum L (map hoursSpent (snd g))
    /\ taskCount r = Z.of_nat (length (snd g))
    /\ completedTasks r = countIf (hasStatus "completed") (snd g)
    /\ blockedTasks r = countIf (hasStatus "blocked") (snd g)
    /\ completionRate r
       = multiply L (roundNearest L (inject_Z (completedTasks r) / inject_Z (taskCount r))%Q) 100.
Proof.
  intros Hlen. unfold projectStage. simpl.
  rewrite divide_by_count by lia. simpl. eexists. split; [done |]. by simpl.
Qed.

(** Every row of a summary comes from one group of matched entries. *)
Lemma projectSummary_rows (L : Lib) (startDate endDate : Z) (ws : list WorkloadData) :
  exists rows,
    projectSummary L startDate endDate ws = Some rows
    /\ Forall (fun r =>
         exists g, g ∈ groupBy project
                         (List.filter (fun w => inRange startDate endDate (date w)) ws)
                   /\ projectStage L (projectGroup L g) = Some r) rows
    /\ StronglySorted (geByQ totalHours) rows.
Proof.
  unfold projectSummary.
  set (groups := groupBy project _).
  assert (Hall : Forall (fun g => (1 <= length (snd g))%nat) groups).
  { apply Forall_forall. intros g Hg. by apply groupBy_nonempty in Hg. }
  assert (Hsome : exists rows,
             mapM (projectStage L) (map (projectGroup L) groups) = Some rows
             /\ Forall (fun r => exists g, g ∈ groups
                                   /\ projectStage L (projectGroup L g) = Some r) rows).
  { clearbody groups. induction groups as [| g groups IH].
    - exists []. by split.
    - apply Forall_cons in Hall as [Hg Hall].
      destruct (IH Hall) as (rows & Hrows & Hfrom).
      destruct (projectStage_group L g Hg) as (r & Hr & _).
      exists (r :: rows). split.
      + simpl. rewrite Hr. simpl. simpl in Hrows. by rewrite Hrows.
      + constructor.
        * exists g. split; [left | done].
        * eapply Forall_impl; [exact Hfrom |].
          intros r' (g' & Hg' & Hr'). exists g'. split; [by right | done]. }
  destruct Hsome as (rows & Hrows & Hfrom).
  exists (sortDescQ totalHours rows). split; [by rewrite Hrows | split].
  - eapply Permutation_Forall; [symmetry; apply sortDescQ_Permutation | done].
  - apply sortDescQ_sorted.
Qed.

(** C9: every group the summary aggregation produces holds at least one
    matched entry, so [taskCount] is at least 1, the [$divide] of the
    completion rate never meets a zero divisor, and the pipeline (hence the
    handler) never fails on it. *)
Theorem projectSummary_no_zero_division (L : Lib) (startDate endDate : Z)
    (ws : list WorkloadData) :
  Forall (fun g => 1 <= pg_taskCount g
                   /\ divide L (inject_Z (pg_completedTasks g)) (inject_Z (pg_taskCount g))
                      = Some (roundNearest L
                                (inject_Z (pg_completedTasks g) / inject_Z (pg_taskCount g))%Q))
         (map (projectGroup L)
              (groupBy project (List.filter (fun w => inRange startDate endDate (date w)) ws)))
  /\ (exists rows, projectSummary L startDate endDate ws = Some rows
                   /\ Forall (fun r => 1 <= taskCount r) rows)
  /\ (forall q st, statusCode (getProjectSummary L q st) <> 500).
Proof.
  split; [| split].
  - apply Forall_forall. intros pg (g & -> & Hg)%list_elem_of_fmap.
    apply groupBy_nonempty in Hg.
    assert (Hn : 1 <= pg_taskCount (projectGroup L g)) by (simpl; lia).
    split; [done |]. by apply divide_by_count.
  - destruct (projectSummary_rows L startDate endDate ws) as (rows & Hrows & Hfrom & _).
    exists rows. split; [done |].
    eapply Forall_impl; [exact Hfrom |]. intros r (g & Hg & Hr).
    apply groupBy_nonempty in Hg.
    destruct (projectStage_group L g Hg) as (r' & Hr' & _ & _ & _ & Hcount & _).
    rewrite Hr in Hr'. injection Hr' as <-. lia.
  - intros q st. unfold getProjectSummary.
    destruct (negb (truthy (pq_startDate q)) || negb (truthy (pq_endDate q))); [done |].
    destruct (projectSummary_rows L
                (bsonDate (newDate L (toStr (pq_startDate q))))
                (bsonDate (newDate L (toStr (pq_endDate q))))
                (map snd (map_to_list (workloads st)))) as (rows & -> & _).
    done.
Qed.

(** ** Listing entries *)

Lemma skipLimit_in_range {A} (skip limit : Z) (l : list A) :
  0 <= skip -> 1 <= limit ->
  skipLimit skip limit l = Some (take (Z.to_nat limit) (drop (Z.to_nat skip) l)).
Proof.
  intros Hskip Hlimit. unfold skipLimit.
  destruct (Z.ltb_spec skip 0); [lia |].
  destruct (Z.eqb_spec limit 0); [lia |].
  by rewrite Z.abs_eq by lia.
Qed.

Lemma skipLimit_subseteq {A} (skip limit : Z) (l found : list A) :
  skipLimit skip limit l = Some found -> found ⊆ l.
Proof.
  unfold skipLimit. destruct (skip <? 0); [done |].
  intros [= <-]. destruct (limit =? 0).
  - apply subseteq_drop.
  - etrans; [apply subseteq_take | apply subseteq_drop].
Qed.

Lemma ceilDiv_spec (total limit : Z) :
  1 <= limit ->
  exists pages, ceilDiv total limit = Some pages
                /\ limit * (pages - 1) < total <= limit * pages.
Proof.
  intros Hlimit. unfold ceilDiv. destruct (Z.eqb_spec limit 0); [lia |].
  eexists. split; [done |].
  pose proof (Z.mul_div_le (- total) limit ltac:(lia)).
  pose proof (Z.mul_succ_div_gt (- total) limit ltac:(lia)).
  nia.
Qed.

Lemma findWorkloads_found (L : Lib) (me : AuthUser) (q : WorkloadsQuery) (st : Store)
    (found : list (string * WorkloadData)) (total : Z) :
  findWorkloads L me q st = Some (found, total) ->
  exists keep, workloadsFilter L me q = Some keep
    /\ total = Z.of_nat (length (List.filter (fun iw => keep (snd iw))
                                             (map_to_list (workloads st))))
    /\ Forall (fun iw => workloads st !! fst iw = Some (snd iw) /\ keep (snd iw) = true) found.
Proof.
  unfold findWorkloads. destruct (workloadsFilter L me q) as [keep |]; [| done]. simpl.
  destruct (skipLimit _ _ _) as [found' |] eqn:Hfound; [| done]. simpl.
  intros [= <- <-]. exists keep. split; [done | split; [done |]].
  apply Forall_forall. intros [id w] Hin.
  apply (skipLimit_subseteq _ _ _ _ Hfound) in Hin.
  rewrite (sortDesc_Permutation _ _) in Hin.
  apply elem_of_List_filter in Hin as [Hin Hkeep].
  by apply elem_of_map_to_list in Hin.
Qed.

(** C6: whatever filters a non-administrator asks for, every entry of the
    page returned is an entry of the store owned by the caller; a caller none
    of whose own entries meets the requested filters receives an empty list,
    whatever the other users' entries are. *)
Theorem getWorkloads_only_own (L : Lib) (me : AuthUser) (q : WorkloadsQuery) (st : Store)
    (found : list (string * WorkloadData)) (total : Z) :
  isAdmin me = false ->
  findWorkloads L me q st = Some (found, total) ->
  getWorkloads L me q st
  = {| statusCode := 200;
       body := JObj [("workloads",
                      JArr (map (fun iw => populatedWorkload (users st) (fst iw) (snd iw)) found));
                     ("pagination",
                      JObj [("total", JInt total);
                            ("page", JInt (default 1 (wq_page q)));
                            ("pages", JOpt JInt (ceilDiv total (default 10 (wq_limit q))))])] |}
  /\ Forall (fun iw => workloads st !! fst iw = Some (snd iw) /\ developer (snd iw) = uid me) found
  /\ ((forall requested id w,
         requestedFilter L q = Some requested ->
         workloads st !! id = Some w -> developer w = uid me -> requested w = false) ->
      found = [] /\ total = 0).
Proof.
  intros Hrole Hfind. split; [| split].
  - unfold getWorkloads. by rewrite Hfind.
  - destruct (findWorkloads_found _ _ _ _ _ _ Hfind) as (keep & Hkeep & _ & Hall).
    unfold workloadsFilter in Hkeep. rewrite Hrole in Hkeep.
    destruct (requestedFilter L q) as [requested |]; [| done].
    injection Hkeep as <-.
    eapply Forall_impl; [exact Hall |]. intros [id w] [Hw Hk]. simpl in *.
    split; [done |]. apply andb_true_iff in Hk as [_ Hown]. by apply bool_decide_eq_true in Hown.
  - intros Hnone. unfold findWorkloads in Hfind.
    unfold workloadsFilter in Hfind. rewrite Hrole in Hfind.
    destruct (requestedFilter L q) as [requested |] eqn:Hreq; [| done]. simpl in Hfind.
    assert (Hempty : List.filter
              (fun iw : string * WorkloadData =>
                 requested (snd iw) && bool_decide (developer (snd iw) = uid me))
              (map_to_list (workloads st)) = []).
    { destruct (List.filter _ _) as [| [id w] rest] eqn:Hf; [done |].
      assert (Hin : (id, w) ∈ List.filter
                (fun iw : string * WorkloadData =>
                   requested (snd iw) && bool_decide (developer (snd iw) = uid me))
                (map_to_list (workloads st))) by (rewrite Hf; left).
      apply elem_of_List_filter in Hin as [Hin Hk]. simpl in Hk.
      apply andb_true_iff in Hk as [Hr Hown]. apply bool_decide_eq_true in Hown.
      apply elem_of_map_to_list in Hin.
      by rewrite (Hnone requested id w eq_refl Hin Hown) in Hr. }
    rewrite Hempty in Hfind.
    destruct (skipLimit _ _ _) as [found' |] eqn:Hsl; [| done].
    simpl in Hfind. injection Hfind as <- <-.
    apply skipLimit_subseteq in Hsl. split; [| done].
    destruct found' as [| x rest]; [done |].
    exfalso. specialize (Hsl x ltac:(left)). by apply not_elem_of_nil in Hsl.
Qed.

Lemma getWorkloads_only_own_witness :
  isAdmin ann = false
  /\ findWorkloads demoLib ann everything demoStore
     = Some ([("w2", demoEntry "u1" "P" 2 1720000000000 "planned");
              ("w1", demoEntry "u1" "P" 4 1710000000000 "completed")], 2)
  /\ Forall (fun iw => workloads demoStore !! fst iw = Some (snd iw)
                       /\ developer (snd iw) = uid ann)
            [("w2", demoEntry "u1" "P" 2 1720000000000 "planned");
             ("w1", demoEntry "u1" "P" 4 1710000000000 "completed")].
Proof.
  assert (Hrole : isAdmin ann = false) by reflexivity.
  assert (Hfind : findWorkloads demoLib ann everything demoStore
                  = Some ([("w2", demoEntry "u1" "P" 2 1720000000000 "planned");
                           ("w1", demoEntry "u1" "P" 4 1710000000000 "completed")], 2))
    by (vm_compute; reflexivity).
  split; [exact Hrole | split; [exact Hfind |]].
  exact (proj1 (proj2 (getWorkloads_only_own demoLib ann everything demoStore _ _ Hrole Hfind))).
Defined.




(** ** Workload statistics *)

Lemma workloadStatsRows_developer (L : Lib) (startDate endDate : Z) (d : string)
    (ws : list WorkloadData) :
  Forall (fun r => ds_id r = d) (workloadStatsRows L startDate endDate (Some d) ws).
Proof.
  apply Forall_forall. unfold workloadStatsRows.
  intros r (g & -> & Hg)%list_elem_of_fmap. simpl.
  apply groupBy_keys in Hg as (t & Ht & <-).
  apply list_elem_of_fmap in Ht as (g' & -> & Hg'). simpl.
  apply groupBy_keys in Hg' as (w & Hw & <-). simpl.
  apply elem_of_List_filter in Hw as [_ Hmatch].
  unfold statsMatch in Hmatch. apply andb_true_iff in Hmatch as [_ Hdev].
  by apply bool_decide_eq_true in Hdev.
Qed.

Lemma workloadStatsRows_own_only (L : Lib) (startDate endDate : Z) (d : string)
    (ws : list WorkloadData) :
  workloadStatsRows L startDate endDate (Some d) ws
  = workloadStatsRows L startDate endDate (Some d)
      (List.filter (fun w => bool_decide (developer w = d)) ws).
Proof.
  unfold workloadStatsRows. rewrite List_filter_filter.
  assert (Hsame : List.filter (fun w => bool_decide (developer w = d)
                                        && statsMatch startDate endDate (Some d) w) ws
                  = List.filter (statsMatch startDate endDate (Some d)) ws).
  { apply List.filter_ext. intros w. unfold statsMatch.
    destruct (bool_decide (developer w = d)); simpl; [done | by rewrite andb_false_r]. }
  by rewrite Hsame.
Qed.

Lemma statsDeveloper_non_admin (me : AuthUser) (q : StatsQuery) :
  isAdmin me = false ->
  truthy (sq_developerId q) = false \/ sq_developerId q = Some (uid me) ->
  statsDeveloper me q = Some (uid me)
  /\ truthy (sq_developerId q) && negb (String.eqb (toStr (sq_developerId q)) (uid me)) = false.
Proof.
  intros Hrole Hid. unfold statsDeveloper. rewrite Hrole. simpl.
  destruct Hid as [-> | ->]; [done |]. simpl. rewrite String.eqb_refl.
  rewrite andb_false_r. by destruct (negb (String.eqb (uid me) "")).
Qed.




(** ** Updating users *)

Lemma no_conflict_existsb (us : gmap string User) (userId : string) (em un : option string) :
  (forall id v, us !! id = Some v -> id <> userId ->
                em <> Some (email v) /\ un <> Some (username v)) ->
  existsb (fun iu : string * User =>
             negb (String.eqb (fst iu) userId) && sameEmailOrUsername em un (snd iu))
          (map_to_list us) = false.
Proof.
  intros Hfree. apply existsb_false_Forall, Forall_forall. intros [id v] Hin.
  apply elem_of_map_to_list in Hin. simpl.
  destruct (String.eqb_spec id userId) as [-> | Hne]; [done |]. simpl.
  destruct (Hfree id v Hin Hne) as [Hem Hun]. unfold sameEmailOrUsername.
  by rewrite !bool_decide_eq_false_2.
Qed.

(** Whatever the outcome, a non-administrator's update changes neither the
    role nor the active flag of the target. *)
Lemma updateUser_keeps_role (L : Lib) (me : AuthUser) (userId : string)
    (raw : UserUpdateBody) (st : Store) (u : User) :
  isAdmin me = false ->
  users st !! userId = Some u ->
  exists u', users (snd (updateUser L me userId raw st)) !! userId = Some u'
             /\ role u' = role u /\ isActive u' = isActive u
             /\ password u' = password u.
Proof.
  intros Hrole Hu. unfold updateUser. rewrite Hrole, Hu.
  destruct (negb (bool_decide (userUpdateErrors L raw = []))); [by exists u |].
  destruct (existsb _ _); [by exists u |]. simpl.
  eexists. split; [apply lookup_insert_eq | done].
Qed.

Lemma conflict_existsb (us : gmap string User) (userId : string) (em un : option string)
    (id : string) (v : User) :
  us !! id = Some v -> id <> userId ->
  em = Some (email v) \/ un = Some (username v) ->
  existsb (fun iu : string * User =>
             negb (String.eqb (fst iu) userId) && sameEmailOrUsername em un (snd iu))
          (map_to_list us) = true.
Proof.
  intros Hv Hne Hsame. apply existsb_exists. exists (id, v). split.
  - apply list_elem_of_In. by apply elem_of_map_to_list.
  - simpl. apply andb_true_iff. split.
    + apply negb_true_iff. by apply String.eqb_neq.
    + unfold sameEmailOrUsername. apply orb_true_iff.
      destruct Hsame as [-> | ->]; [left | right]; by apply bool_decide_eq_true.
Qed.

(** C4, as the code has it: a non-administrator's update of the own record
    never changes the stored role or active flag, whatever the body asks for.
    When the body passes the field rules and its name and email belong to no
    other user, the answer is 200 and the name (trimmed) and the email are
    written.  Otherwise the answer is 400 and nothing is written: with the
    list of violations when a field rule fails, and with the message that the
    email or username is taken when another user has one of them. *)
Theorem updateUser_self_non_admin (L : Lib) (me : AuthUser) (raw : UserUpdateBody)
    (st : Store) (u : User) :
  isAdmin me = false ->
  users st !! uid me = Some u ->
  (exists u', users (snd (updateUser L me (uid me) raw st)) !! uid me = Some u'
              /\ role u' = role u /\ isActive u' = isActive u)
  /\ (userUpdateErrors L raw = [] ->
      (forall id v, users st !! id = Some v -> id <> uid me ->
                    ub_email raw <> Some (email v)
                    /\ trim L <$> ub_username raw <> Some (username v)) ->
      updateUser L me (uid me) raw st
      = ({| statusCode := 200; body := userWithoutPassword (uid me) (selfUpdated L raw u) |},
         {| users := <[uid me := selfUpdated L raw u]> (users st);
            workloads := workloads st |}))
  /\ (userUpdateErrors L raw <> [] ->
      updateUser L me (uid me) raw st
      = ({| statusCode := 400; body := JObj [("errors", JArr (userUpdateErrors L raw))] |}, st))
  /\ (userUpdateErrors L raw = [] ->
      (exists id v, users st !! id = Some v /\ id <> uid me
                    /\ (ub_email raw = Some (email v)
                        \/ trim L <$> ub_username raw = Some (username v))) ->
      updateUser L me (uid me) raw st
      = ({| statusCode := 400; body := errorBody "Email or username is already taken" |}, st)).
Proof.
  intros Hrole Hu. split; [| split; [| split]].
  - destruct (updateUser_keeps_role L me (uid me) raw st u Hrole Hu)
      as (u' & Hu' & Hr & Ha & _). by exists u'.
  - intros Hvalid Hfree. unfold updateUser.
    rewrite Hvalid, Hrole, Hu. simpl.
    by rewrite (no_conflict_existsb (users st) (uid me) _ _ Hfree).
  - intros Hinvalid. unfold updateUser.
    by rewrite (bool_decide_eq_false_2 _ Hinvalid).
  - intros Hvalid (id & v & Hv & Hne & Hsame). unfold updateUser.
    rewrite Hvalid. simpl.
    by rewrite (conflict_existsb (users st) (uid me) _ _ id v Hv Hne Hsame).
Qed.

Lemma updateUser_self_non_admin_witness :
  isAdmin ann = false
  /\ users demoStore !! uid ann = Some (demoUser "ann" "user")
  /\ userUpdateErrors demoLib freshEmail = []
  /\ statusCode (fst (updateUser demoLib ann (uid ann) freshEmail demoStore)) = 200
  /\ users (snd (updateUser demoLib ann (uid ann) freshEmail demoStore)) !! uid ann
     = Some {| username := "annie"; email := "annie@example.com";
               password := password (demoUser "ann" "user");
               role := "user"; isActive := true; lastLogin := None; u_createdAt := 0 |}
  /\ updateUser demoLib ann (uid ann) notABoolean demoStore
     = ({| statusCode := 400;
           body := JObj [("errors", JArr (userUpdateErrors demoLib notABoolean))] |}, demoStore).
Proof.
  assert (Hrole : isAdmin ann = false) by reflexivity.
  assert (Hu : users demoStore !! uid ann = Some (demoUser "ann" "user")) by reflexivity.
  assert (Hvalid : userUpdateErrors demoLib freshEmail = []) by reflexivity.
  assert (Hfree : forall id v, users demoStore !! id = Some v -> id <> uid ann ->
                    ub_email freshEmail <> Some (email v)
                    /\ trim demoLib <$> ub_username freshEmail <> Some (username v)).
  { intros id v Hv Hne. apply elem_of_map_to_list in Hv.
    assert (Hall : Forall (fun iv : string * User =>
                             fst iv <> uid ann ->
                             ub_email freshEmail <> Some (email (snd iv))
                             /\ trim demoLib <$> ub_username freshEmail
                                <> Some (username (snd iv)))
                          (map_to_list (users demoStore))).
    { vm_compute map_to_list. repeat constructor; simpl; intros; try done. }
    rewrite Forall_forall in Hall. exact (Hall (id, v) Hv Hne). }
  split; [exact Hrole | split; [exact Hu | split; [exact Hvalid |]]].
  rewrite (proj1 (proj2 (updateUser_self_non_admin demoLib ann freshEmail demoStore _ Hrole Hu))
             Hvalid Hfree).
  split; [reflexivity |]. split; [simpl; apply lookup_insert_eq |].
  apply (proj1 (proj2 (proj2 (updateUser_self_non_admin demoLib ann notABoolean demoStore _
                                Hrole Hu)))).
  discriminate.
Defined.

(** A non-administrator whose self-update includes [role] and [isActive],
    every field well formed, is answered 400 when the email is taken. *)
Lemma updateUser_self_non_admin_can_be_400 :
  isAdmin ann = false
  /\ ub_role takenEmail = Some "admin"
  /\ userUpdateErrors demoLib takenEmail = []
  /\ updateUser demoLib ann (uid ann) takenEmail demoStore
     = ({| statusCode := 400; body := errorBody "Email or username is already taken" |},
        demoStore)
  /\ statusCode (fst (updateUser demoLib ann (uid ann) takenEmail demoStore)) <> 200.
Proof.
  assert (Hresp : updateUser demoLib ann (uid ann) takenEmail demoStore
                  = ({| statusCode := 400;
                        body := errorBody "Email or username is already taken" |}, demoStore))
    by (vm_compute; reflexivity).
  split; [reflexivity | split; [reflexivity | split; [reflexivity | split; [exact Hresp |]]]].
  by rewrite Hresp.
Qed.

(** ** Negative hours *)

Lemma negative_fails_min0 (h : Q) : (h < 0)%Q -> Qle_bool 0 h = false.
Proof.
  intros Hneg. destruct (Qle_bool 0 h) eqn:Hle; [| done].
  apply Qle_bool_iff in Hle. by apply Qlt_not_le in Hneg.
Qed.

Lemma rule_reports_negative (h : Q) :
  (h < 0)%Q ->
  requiredRule "hoursSpent" "Hours spent must be a positive number" JNum isFloatMin0 (Some h)
  = [fieldError "hoursSpent" "Hours spent must be a positive number" [("value", JNum h)]]
  /\ optionalRule "hoursSpent" "Hours spent must be a positive number" JNum isFloatMin0 (Some h)
     = [fieldError "hoursSpent" "Hours spent must be a positive number" [("value", JNum h)]].
Proof.
  intros Hneg. unfold requiredRule, optionalRule, isFloatMin0.
  by rewrite negative_fails_min0.
Qed.

(** Creating an entry with negative hours is refused with the list of
    violations, and nothing is written. *)
Lemma createWorkload_negative_hours (L : Lib) (me : AuthUser) (newId : string)
    (now saved : Z) (raw : WorkloadBody) (st : Store) (h : Q) :
  wb_hoursSpent raw = Some h -> (h < 0)%Q ->
  createWorkload L me newId now saved raw st
  = ({| statusCode := 400; body := JObj [("errors", JArr (workloadCreateErrors L raw))] |}, st)
  /\ fieldError "hoursSpent" "Hours spent must be a positive number" [("value", JNum h)]
     ∈ workloadCreateErrors L raw.
Proof.
  intros Hh Hneg.
  assert (Hin : fieldError "hoursSpent" "Hours spent must be a positive number"
                  [("value", JNum h)] ∈ workloadCreateErrors L raw).
  { unfold workloadCreateErrors. rewrite Hh, (proj1 (rule_reports_negative h Hneg)).
    rewrite !elem_of_app. right. right. right. left. left. }
  split; [| done]. unfold createWorkload.
  destruct (workloadCreateErrors L raw) as [| e errors]; [by apply not_elem_of_nil in Hin |].
  done.
Qed.

(** Updating an entry with negative hours: the rule of the route reports the
    violation, the handler does not look at it, and the request ends in the
    [catch] when [save()] refuses the document.  Nothing is written. *)
Lemma updateWorkload_negative_hours (L : Lib) (me : AuthUser) (id : string) (now : Z)
    (raw : WorkloadBody) (st : Store) (w : WorkloadData) (h : Q) :
  workloads st !! id = Some w ->
  isAdmin me = true \/ developer w = uid me ->
  wb_hoursSpent raw = Some h -> (h < 0)%Q ->
  fieldError "hoursSpent" "Hours spent must be a positive number" [("value", JNum h)]
    ∈ workloadUpdateErrors L raw
  /\ updateWorkload L me id now raw st
     = ({| statusCode := 500; body := errorBody "Error updating workload entry" |}, st).
Proof.
  intros Hw Hallowed Hh Hneg. split.
  - unfold workloadUpdateErrors. rewrite Hh, (proj2 (rule_reports_negative h Hneg)).
    rewrite !elem_of_app. right. right. right. left. left.
  - unfold updateWorkload. rewrite Hw.
    assert (Hgate : negb (isAdmin me) && negb (String.eqb (developer w) (uid me)) = false).
    { destruct Hallowed as [-> | ->]; [done |]. rewrite String.eqb_refl. apply andb_false_r. }
    rewrite Hgate. unfold assignWorkload. simpl. rewrite Hh.
    destruct (castDate L (wb_date raw) (date w)); simpl; [| done].
    destruct (castDate L (wb_createdAt raw) (createdAt w)); simpl; [| done].
    destruct (castDate L (wb_updatedAt raw) (updatedAt w)); simpl; [| done].
    unfold saveLoaded, schemaValid. simpl. rewrite (negative_fails_min0 h Hneg).
    by rewrite !andb_false_r.
Qed.

(** C3 at its failing input: the owner of entry [w1] sends
    [{ hoursSpent: -1 }].  The rule of the update route reports the value,
    yet the answer is 500 and not 400 with the violations; the stored entry
    is unchanged.  The same value on the create route is answered 400. *)
Theorem updateWorkload_negative_hours_is_500 :
  workloadUpdateErrors demoLib negativeHours
  = [fieldError "hoursSpent" "Hours spent must be a positive number" [("value", JNum (-1))]]
  /\ updateWorkload demoLib ann "w1" 1720000000000 negativeHours demoStore
     = ({| statusCode := 500; body := errorBody "Error updating workload entry" |}, demoStore)
  /\ createWorkload demoLib ann "w9" 1720000000000 1720000000001 negativeEntry demoStore
     = ({| statusCode := 400;
           body := JObj [("errors",
                          JArr [fieldError "hoursSpent" "Hours spent must be a positive number"
                                  [("value", JNum (-1))]])] |}, demoStore).
Proof.
  split; [reflexivity | split].
  - apply (updateWorkload_negative_hours demoLib ann "w1" _ negativeHours demoStore
             (demoEntry "u1" "P" 4 1710000000000 "completed") (-1)%Q);
      [reflexivity | by right | reflexivity | reflexivity].
  - destruct (createWorkload_negative_hours demoLib ann "w9" 1720000000000 1720000000001
                negativeEntry demoStore (-1)%Q eq_refl eq_refl) as [-> _].
    reflexivity.
Qed.

(** ** Registration *)

Lemma no_existing_existsb (us : gmap string User) (em un : string) :
  (forall id v, us !! id = Some v -> email v <> em /\ username v <> un) ->
  existsb (fun iu : string * User => sameEmailOrUsername (Some em) (Some un) (snd iu))
          (map_to_list us) = false.
Proof.
  intros Hfree. apply existsb_false_Forall, Forall_forall. intros [id v] Hin.
  apply elem_of_map_to_list in Hin. destruct (Hfree id v Hin) as [Hem Hun].
  unfold sameEmailOrUsername. simpl.
  rewrite !bool_decide_eq_false_2; [done | |]; congruence.
Qed.

Lemma roleOrDefault_given (r : string) : r ∈ roleEnum -> roleOrDefault (Some r) = r.
Proof.
  unfold roleEnum. rewrite !elem_of_cons, elem_of_nil.
  intros [-> | [-> | [-> | []]]]; reflexivity.
Qed.

Lemma roleOrDefault_absent (r : option string) : truthy r = false -> roleOrDefault r = "user".
Proof. unfold roleOrDefault. by intros ->. Qed.

(** C10: [register] has no caller among its inputs.  When the validation
    result is empty, the identifier is new and the name and email are free, a
    role of the closed set given in the body is stored as given, 'admin'
    included, and the role is 'user' when the body gives none or a falsy
    one. *)
Theorem register_stores_given_role (L : Lib) (newId : string) (now : Z) (b : RegisterBody)
    (st : Store) :
  users st !! newId = None ->
  (forall id v, users st !! id = Some v ->
                email v <> rb_email b /\ username v <> rb_username b) ->
  (forall r, rb_role b = Some r -> r ∈ roleEnum ->
     register L [] newId now b st
     = ({| statusCode := 201;
           body := JObj [("user", getPublicProfile newId (registered L now b r));
                         ("token", JStr (jwtSign L newId))] |},
        {| users := <[newId := registered L now b r]> (users st);
           workloads := workloads st |}))
  /\ (truthy (rb_role b) = false ->
      register L [] newId now b st
      = ({| statusCode := 201;
            body := JObj [("user", getPublicProfile newId (registered L now b "user"));
                          ("token", JStr (jwtSign L newId))] |},
         {| users := <[newId := registered L now b "user"]> (users st);
            workloads := workloads st |})).
Proof.
  intros Hfresh Hfree. unfold register. simpl.
  rewrite (no_existing_existsb _ _ _ Hfree). unfold saveNewUser.
  rewrite (bool_decide_eq_true_2 _ Hfresh). split.
  - intros r Hr Hin. rewrite Hr, (roleOrDefault_given r Hin).
    by rewrite (bool_decide_eq_true_2 _ Hin).
  - intros Hnone. rewrite (roleOrDefault_absent _ Hnone). done.
Qed.

Lemma register_stores_given_role_witness :
  users demoStore !! "u9" = None
  /\ rb_role eve = Some "admin"
  /\ "admin" ∈ roleEnum
  /\ users (snd (register demoLib [] "u9" 1720000000000 eve demoStore)) !! "u9"
     = Some {| username := "eve"; email := "eve@example.com"; password := "$2a$10$secret";
               role := "admin"; isActive := true; lastLogin := None;
               u_createdAt := 1720000000000 |}.
Proof.
  assert (Hfresh : users demoStore !! "u9" = None) by reflexivity.
  assert (Hin : "admin" ∈ roleEnum) by (unfold roleEnum; rewrite !elem_of_cons; auto).
  assert (Hfree : forall id v, users demoStore !! id = Some v ->
                    email v <> rb_email eve /\ username v <> rb_username eve).
  { intros id v Hv. apply elem_of_map_to_list in Hv.
    assert (Hall : Forall (fun iv : string * User =>
                             email (snd iv) <> rb_email eve
                             /\ username (snd iv) <> rb_username eve)
                          (map_to_list (users demoStore))).
    { vm_compute map_to_list. repeat constructor; simpl; intros; try done. }
    rewrite Forall_forall in Hall. exact (Hall (id, v) Hv). }
  split; [exact Hfresh | split; [reflexivity | split; [exact Hin |]]].
  rewrite (proj1 (register_stores_given_role demoLib "u9" 1720000000000 eve demoStore
                    Hfresh Hfree) "admin" eq_refl Hin).
  simpl. apply lookup_insert_eq.
Defined.

(** ** The credential hash in responses *)

(** The stored document does carry the hash: the projections below are what
    keeps it out of the responses. *)
Lemma stored_user_has_password (id : string) (u : User) :
  mentions "password" (JObj (userFields id u)) = true.
Proof. reflexivity. Qed.

Lemma mentions_JArr (k : string) (items : list json) :
  mentions k (JArr items) = existsb (mentions k) items.
Proof. reflexivity. Qed.

Lemma mentions_strings (k : string) (l : list string) : mentions k (JArr (map JStr l)) = false.
Proof. rewrite mentions_JArr. by apply existsb_map_false. Qed.

Lemma mentions_JOpt_JInt (k : string) (o : option Z) : mentions k (JOpt JInt o) = false.
Proof. by destruct o. Qed.

Lemma clean_userWithoutPassword (id : string) (u : User) :
  mentions "password" (userWithoutPassword id u) = false.
Proof. unfold userWithoutPassword, userFields. destruct (lastLogin u); reflexivity. Qed.

Lemma clean_populateDeveloper (us : gmap string User) (id : string) :
  mentions "password" (populateDeveloper us id) = false.
Proof.
  unfold populateDeveloper. destruct (us !! id); [apply clean_userWithoutPassword | done].
Qed.

Lemma clean_populatedWorkload (us : gmap string User) (id : string) (w : WorkloadData) :
  mentions "password" (populatedWorkload us id w) = false.
Proof.
  unfold populatedWorkload, workloadFields.
  pose proof (clean_populateDeveloper us (developer w)) as Hdev.
  pose proof (mentions_strings "password" (tags w)) as Htags.
  pose proof (mentions_strings "password" (dependencies w)) as Hdeps.
  destruct (description w), (blockers w); simpl in *; by rewrite Hdev, Htags, Hdeps.
Qed.

Lemma clean_fieldError (path msg : string) (value : json) (given : bool) :
  mentions "password" value = false ->
  mentions "password" (fieldError path msg (if given then [("value", value)] else [])) = false.
Proof. intros Hvalue. destruct given; simpl; [by rewrite Hvalue | done]. Qed.

Lemma clean_rule {A} (required : bool) (path msg : string) (show : A -> json)
    (ok : A -> bool) (o : option A) :
  (forall a, mentions "password" (show a) = false) ->
  existsb (mentions "password")
          (if required then requiredRule path msg show ok o
           else optionalRule path msg show ok o) = false.
Proof.
  intros Hshow. unfold requiredRule, optionalRule.
  destruct required, o as [a |]; try destruct (ok a); simpl; try done;
    by rewrite Hshow.
Qed.

Lemma clean_workloadCreateErrors (L : Lib) (b : WorkloadBody) :
  existsb (mentions "password") (workloadCreateErrors L b) = false.
Proof.
  unfold workloadCreateErrors.
  repeat apply existsb_app_false; by apply (clean_rule true).
Qed.

Lemma clean_userUpdateErrors (L : Lib) (b : UserUpdateBody) :
  existsb (mentions "password") (userUpdateErrors L b) = false.
Proof.
  unfold userUpdateErrors.
  repeat apply existsb_app_false.
  - destruct (ub_username b); [| done]. by destruct (_ <? _)%nat.
  - destruct (ub_email b) as [s |]; [| done]. by destruct (isEmail L s).
  - destruct (ub_role b) as [s |]; [| done]. by destruct (bool_decide _).
  - destruct (ub_isActive b) as [v |]; [| done].
    destruct (isBoolean v); [done |]. by destruct v.
Qed.

Lemma clean_statsJson (ru : DeveloperStats * User) :
  mentions "password" (statsJson ru) = false.
Proof.
  destruct ru as [r u]. unfold statsJson. simpl fst. simpl snd.
  assert (Htypes : existsb (mentions "password")
                     (map typeTotalsJson (ds_workloadByType r)) = false)
    by (by apply existsb_map_false).
  unfold userFields. destruct (lastLogin u); simpl; by rewrite Htypes.
Qed.

Lemma clean_getUsers (L : Lib) (q : UsersQuery) (st : Store) :
  mentions "password" (body (getUsers L q st)) = false.
Proof.
  unfold getUsers. destruct (skipLimit _ _ _) as [found |]; [| done]. simpl.
  rewrite existsb_map_false by (intros; apply clean_userWithoutPassword).
  by rewrite mentions_JOpt_JInt.
Qed.

Lemma clean_getUserById (userId : string) (st : Store) :
  mentions "password" (body (getUserById userId st)) = false.
Proof.
  unfold getUserById. destruct (users st !! userId); [apply clean_userWithoutPassword | done].
Qed.

Lemma clean_getUserStats (st : Store) : mentions "password" (body (getUserStats st)) = false.
Proof. unfold getUserStats. simpl. by rewrite existsb_map_false. Qed.

Lemma clean_updateUser (L : Lib) (me : AuthUser) (userId : string) (raw : UserUpdateBody)
    (st : Store) :
  mentions "password" (body (fst (updateUser L me userId raw st))) = false.
Proof.
  unfold updateUser.
  destruct (negb _); [simpl; by rewrite clean_userUpdateErrors |].
  destruct (existsb _ _); [done |].
  destruct (users st !! userId); [| done].
  destruct (match _ with Some _ => _ | None => true end); [| done].
  apply clean_userWithoutPassword.
Qed.

Lemma clean_getWorkloads (L : Lib) (me : AuthUser) (q : WorkloadsQuery) (st : Store) :
  mentions "password" (body (getWorkloads L me q st)) = false.
Proof.
  unfold getWorkloads. destruct (findWorkloads L me q st) as [[found total] |]; [| done].
  simpl. rewrite existsb_map_false by (intros; apply clean_populatedWorkload).
  by rewrite mentions_JOpt_JInt.
Qed.

Lemma clean_getWorkloadStats (L : Lib) (me : AuthUser) (q : StatsQuery) (st : Store) :
  mentions "password" (body (getWorkloadStats L me q st)) = false.
Proof.
  unfold getWorkloadStats. destruct (_ || _); [done |]. destruct (_ && _); [done |].
  destruct (workloadStats L _ _ _ st) as [stats |] eqn:Hstats; [| done].
  unfold workloadStats in Hstats. destruct (statsDeveloper me q); [done |].
  simpl in Hstats. injection Hstats as <-.
  change (existsb (mentions "password")
            (map statsJson
               (statsRows L (bsonDate (newDate L (toStr (sq_startDate q))))
                            (bsonDate (newDate L (toStr (sq_endDate q)))) None st)) = false).
  apply existsb_map_false, clean_statsJson.
Qed.

Lemma clean_createWorkload (L : Lib) (me : AuthUser) (newId : string) (now saved : Z)
    (raw : WorkloadBody) (st : Store) :
  mentions "password" (body (fst (createWorkload L me newId now saved raw st))) = false.
Proof.
  unfold createWorkload.
  destruct (negb _); [simpl; by rewrite clean_workloadCreateErrors |].
  destruct (_ ≫= _) as [[w' ws'] |]; [apply clean_populatedWorkload | done].
Qed.

Lemma clean_updateWorkload (L : Lib) (me : AuthUser) (id : string) (now : Z)
    (raw : WorkloadBody) (st : Store) :
  mentions "password" (body (fst (updateWorkload L me id now raw st))) = false.
Proof.
  unfold updateWorkload. destruct (workloads st !! id) as [w |]; [| done].
  destruct (_ && _); [done |].
  destruct (_ ≫= _) as [[w' ws'] |]; [apply clean_populatedWorkload | done].
Qed.

(** C1: whatever the store holds and whatever is asked, no object of the JSON
    answered by the user list, the user detail, the user update, the user
    statistics, the entry list, the workload statistics, or the creation or
    update of an entry has a [password] field, at any depth. *)
Theorem password_never_in_response (L : Lib) (me : AuthUser) (st : Store) :
  (forall q, mentions "password" (body (getUsers L q st)) = false)
  /\ (forall userId, mentions "password" (body (getUserById userId st)) = false)
  /\ (forall userId raw,
        mentions "password" (body (fst (updateUser L me userId raw st))) = false)
  /\ mentions "password" (body (getUserStats st)) = false
  /\ (forall q, mentions "password" (body (getWorkloads L me q st)) = false)
  /\ (forall q, mentions "password" (body (getWorkloadStats L me q st)) = false)
  /\ (forall newId now saved raw,
        mentions "password" (body (fst (createWorkload L me newId now saved raw st))) = false)
  /\ (forall id now raw,
        mentions "password" (body (fst (updateWorkload L me id now raw st))) = false).
Proof.
  repeat split; intros.
  - apply clean_getUsers.
  - apply clean_getUserById.
  - apply clean_updateUser.
  - apply clean_getUserStats.
  - apply clean_getWorkloads.
  - apply clean_getWorkloadStats.
  - apply clean_createWorkload.
  - apply clean_updateWorkload.
Qed.

(** ** The groups of a [$group] partition its input *)

Section Partition.
Context {K A : Type} `{EqDecision K}.

Lemma List_filter_disjoint_app (p q : A -> bool) (l : list A) :
  (forall a, p a && q a = false) ->
  List.filter p l ++ List.filter q l ≡ₚ List.filter (fun a => p a || q a) l.
Proof.
  intros Hdisjoint. induction l as [| a l IH]; simpl; [done |].
  specialize (Hdisjoint a). destruct (p a), (q a); simpl in *; try done.
  - by rewrite IH.
  - rewrite <- Permutation_middle. by rewrite IH.
Qed.

Lemma List_filter_ext_elem (p q : A -> bool) (l : list A) :
  (forall a, a ∈ l -> p a = q a) -> List.filter p l = List.filter q l.
Proof.
  intros Hsame. apply List.filter_ext_in. intros a Ha. apply Hsame.
  by apply list_elem_of_In.
Qed.

Lemma List_filter_all {B} (p : B -> bool) (l : list B) :
  (forall a, a ∈ l -> p a = true) -> List.filter p l = l.
Proof.
  induction l as [| a l IH]; simpl; intros Hall; [done |].
  rewrite (Hall a) by left. f_equal. apply IH. intros b Hb. apply Hall. by right.
Qed.

Lemma NoDup_List_filter (p : K -> bool) (ks : list K) : NoDup ks -> NoDup (List.filter p ks).
Proof.
  induction 1 as [| k ks Hk _ IH]; simpl; [constructor |].
  destruct (p k); [| done]. constructor; [| done].
  rewrite elem_of_List_filter. tauto.
Qed.

Lemma concat_key_filters (key : A -> K) (l : list A) (ks : list K) :
  NoDup ks ->
  concat (map (fun k => List.filter (fun a => bool_decide (key a = k)) l) ks)
  ≡ₚ List.filter (fun a => bool_decide (key a ∈ ks)) l.
Proof.
  induction 1 as [| k ks Hk _ IH]; simpl.
  - induction l; [done | simpl; done].
  - rewrite IH. rewrite List_filter_disjoint_app.
    + erewrite List_filter_ext_elem; [done |]. intros a _. simpl.
      destruct (decide (key a = k)) as [-> | Hne].
      * rewrite bool_decide_eq_true_2 by done. simpl. symmetry.
        apply bool_decide_eq_true_2. left.
      * rewrite (bool_decide_eq_false_2 (key a = k)) by done. simpl.
        apply bool_decide_ext. rewrite elem_of_cons. tauto.
    + intros a. destruct (decide (key a = k)) as [-> | Hne].
      * rewrite (bool_decide_eq_false_2 (k ∈ ks)) by done. apply andb_false_r.
      * by rewrite (bool_decide_eq_false_2 (key a = k)).
Qed.

(** The members of the groups whose key meets [P] are the documents whose key
    meets [P], each once. *)
Lemma groupBy_partition (key : A -> K) (P : K -> bool) (l : list A) :
  concat (map snd (List.filter (fun g => P (fst g)) (groupBy key l)))
  ≡ₚ List.filter (fun a => P (key a)) l.
Proof.
  unfold groupBy.
  assert (Hfilter : forall ks : list K,
             List.filter (fun g : K * list A => P (fst g))
               (map (fun k => (k, List.filter (fun a => bool_decide (key a = k)) l)) ks)
             = map (fun k => (k, List.filter (fun a => bool_decide (key a = k)) l))
                   (List.filter P ks)).
  { induction ks as [| k ks IH]; simpl; [done |]. destruct (P k); simpl; by rewrite IH. }
  rewrite Hfilter, map_map. simpl.
  rewrite concat_key_filters by apply NoDup_List_filter, NoDup_remove_dups.
  erewrite List_filter_ext_elem; [done |]. intros a Ha. simpl.
  destruct (P (key a)) eqn:HP.
  - apply bool_decide_eq_true_2, elem_of_List_filter. split; [| done].
    apply elem_of_remove_dups. by apply list_elem_of_fmap_2.
  - apply bool_decide_eq_false_2. rewrite elem_of_List_filter. intros [_ Hp]. congruence.
Qed.

Lemma groupBy_concat (key : A -> K) (l : list A) : concat (map snd (groupBy key l)) ≡ₚ l.
Proof.
  pose proof (groupBy_partition key (fun _ => true) l) as Hall.
  rewrite !List_filter_all in Hall by done. exact Hall.
Qed.

Lemma groupBy_NoDup (key : A -> K) (l : list A) : NoDup (map fst (groupBy key l)).
Proof.
  unfold groupBy. rewrite map_map. simpl. rewrite map_id. apply NoDup_remove_dups.
Qed.

Lemma groupBy_complete (key : A -> K) (l : list A) (a : A) :
  a ∈ l -> key a ∈ map fst (groupBy key l).
Proof.
  intros Ha. unfold groupBy. rewrite map_map. simpl. rewrite map_id.
  apply elem_of_remove_dups. by apply list_elem_of_fmap_2.
Qed.
End Partition.

(** ** User statistics *)

Lemma fold_left_add {B} (f : B -> Z) (l : list B) (z : Z) :
  fold_left (fun acc b => acc + f b) l z = z + fold_right Z.add 0 (map f l).
Proof.
  revert z. induction l as [| b l IH]; intros z; simpl; [lia |]. rewrite IH. lia.
Qed.

Lemma countIf_app {B} (p : B -> bool) (l1 l2 : list B) :
  countIf p (l1 ++ l2) = countIf p l1 + countIf p l2.
Proof. unfold countIf. rewrite List.filter_app, length_app. lia. Qed.

Lemma sum_countIf_concat {B} (p : B -> bool) (ls : list (list B)) :
  fold_right Z.add 0 (map (countIf p) ls) = countIf p (concat ls).
Proof.
  induction ls as [| l ls IH]; simpl; [done |]. by rewrite countIf_app, IH.
Qed.

Lemma countIf_true {B} (l : list B) : countIf (fun _ => true) l = Z.of_nat (length l).
Proof. unfold countIf. by rewrite List_filter_all. Qed.

Lemma countIf_negb {B} (p : B -> bool) (l : list B) :
  countIf (fun b => negb (p b)) l = Z.of_nat (length l) - countIf p l.
Proof.
  induction l as [| b l IH]; [done |]. rewrite !countIf_cons, IH. simpl length.
  destruct (p b); simpl; lia.
Qed.

(** The sum over the groups of a count is the count over the whole input. *)
Lemma groupBy_counts {K B} `{EqDecision K} (key : B -> K) (p : B -> bool) (l : list B) :
  fold_left (fun acc g => acc + countIf p (snd g)) (groupBy key l) 0 = countIf p l.
Proof.
  rewrite (fold_left_add (fun g => countIf p (snd g))). simpl.
  rewrite <- (map_map snd (countIf p)), sum_countIf_concat.
  apply countIf_Permutation, groupBy_concat.
Qed.

(** X1: [getUserStats] reports as [totalUsers] the number of users in the
    store, as [activeUsers] the number of them that are active and as
    [inactiveUsers] the number that are not; the distribution has one row
    per role that occurs, never an empty one. *)
Theorem getUserStats_totals (st : Store) :
  getUserStats st
  = {| statusCode := 200;
       body := JObj [("totalUsers", JInt (Z.of_nat (size (users st))));
                     ("activeUsers", JInt (countIf isActive (map snd (map_to_list (users st)))));
                     ("inactiveUsers",
                      JInt (countIf (fun u => negb (isActive u))
                                    (map snd (map_to_list (users st)))));
                     ("roleDistribution",
                      JArr (map roleStatsRow
                                (groupBy role (map snd (map_to_list (users st))))))] |}
  /\ NoDup (map fst (groupBy role (map snd (map_to_list (users st)))))
  /\ Forall (fun g => (1 <= length (snd g))%nat /\ Forall (fun u => role u = fst g) (snd g))
            (groupBy role (map snd (map_to_list (users st)))).
Proof.
  split; [| split].
  - unfold getUserStats.
    set (l := map snd (map_to_list (users st))).
    assert (Htotal : fold_left (fun acc (g : string * list User) =>
                                  acc + Z.of_nat (length (snd g))) (groupBy role l) 0
                     = Z.of_nat (size (users st))).
    { pose proof (groupBy_counts role (fun _ => true) l) as Hsum.
      rewrite (fold_left_add (fun g => countIf (fun _ => true) (snd g))) in Hsum.
      rewrite (fold_left_add (fun g : string * list User => Z.of_nat (length (snd g)))).
      rewrite (map_ext _ (fun g => countIf (fun _ => true) (snd g)))
        by (intros; by rewrite countIf_true).
      rewrite Hsum, countIf_true. unfold l.
      by rewrite length_map, length_map_to_list. }
    assert (Hlen : length l = size (users st))
      by (unfold l; by rewrite length_map, length_map_to_list).
    by rewrite Htotal, groupBy_counts, countIf_negb, Hlen.
  - apply groupBy_NoDup.
  - apply Forall_forall. intros g Hg. split; [by apply groupBy_nonempty in Hg |].
    destruct g as [k members]. apply elem_of_groupBy in Hg as [-> _]. simpl.
    apply Forall_forall. intros u Hu. apply elem_of_List_filter in Hu as [_ Hu].
    by apply bool_decide_eq_true in Hu.
Qed.

(** ** More on the project summary *)

Lemma projectStage_summaryRow (L : Lib) (g : ProjectGroup) :
  1 <= pg_taskCount g -> projectStage L g = Some (summaryRow L g).
Proof. intros Hn. unfold projectStage. by rewrite divide_by_count. Qed.

(** The summary is the sorted list of the rows of the groups. *)
Lemma projectSummary_groups (L : Lib) (startDate endDate : Z) (ws : list WorkloadData) :
  projectSummary L startDate endDate ws
  = Some (sortDescQ totalHours
            (map (fun g => summaryRow L (projectGroup L g))
                 (groupBy project
                    (List.filter (fun w => inRange startDate endDate (date w)) ws)))).
Proof.
  unfold projectSummary. set (groups := groupBy project _).
  assert (Hall : Forall (fun g : string * list WorkloadData => (1 <= length (snd g))%nat) groups).
  { apply Forall_forall. intros g Hg. by apply groupBy_nonempty in Hg. }
  assert (Hrows : mapM (projectStage L) (map (projectGroup L) groups)
                  = Some (map (fun g => summaryRow L (projectGroup L g)) groups)).
  { clearbody groups. induction Hall as [| g groups Hg _ IH]; [done |].
    simpl. rewrite projectStage_summaryRow by (simpl; lia). simpl.
    simpl in IH. by rewrite IH. }
  by rewrite Hrows.
Qed.

Lemma completed_blocked_disjoint (l : list WorkloadData) :
  countIf (hasStatus "completed") l + countIf (hasStatus "blocked") l <= Z.of_nat (length l).
Proof.
  induction l as [| w l IH]; [done |]. rewrite !countIf_cons. simpl length.
  unfold hasStatus at 1 3.
  destruct (String.eqb_spec (status w) "completed") as [-> | _]; simpl; [lia |].
  destruct (String.eqb (status w) "blocked"); lia.
Qed.

(** Rounding keeps a number between two integers that a double holds. *)
Lemma roundNearest_between (L : Lib) (lo hi : Z) (x : Q) :
  - 2 ^ 53 <= lo -> lo <= hi -> hi <= 2 ^ 53 ->
  (inject_Z lo <= x)%Q -> (x <= inject_Z hi)%Q ->
  (inject_Z lo <= roundNearest L x)%Q /\ (roundNearest L x <= inject_Z hi)%Q.
Proof.
  intros Hlo Hle Hhi Hx1 Hx2. split.
  - apply (Qle_trans _ (roundNearest L (inject_Z lo))); [| by apply roundNearest_le].
    apply Qle_lteq. right. symmetry. apply roundNearest_int. lia.
  - apply (Qle_trans _ (roundNearest L (inject_Z hi))); [by apply roundNearest_le |].
    apply Qle_lteq. right. apply roundNearest_int. lia.
Qed.

Lemma ratio_bounds (c n : Z) :
  0 <= c -> c <= n -> 1 <= n ->
  (inject_Z 0 <= inject_Z c / inject_Z n)%Q /\ (inject_Z c / inject_Z n <= inject_Z 1)%Q.
Proof.
  intros Hc Hcn Hn. destruct n as [| p | p]; try lia.
  unfold Qle, Qdiv, Qmult, Qinv, inject_Z. simpl. split; nia.
Qed.

Lemma rate_bounds (L : Lib) (c n : Z) :
  0 <= c -> c <= n -> 1 <= n ->
  (0 <= multiply L (roundNearest L (inject_Z c / inject_Z n)) 100)%Q
  /\ (multiply L (roundNearest L (inject_Z c / inject_Z n)) 100 <= 100)%Q.
Proof.
  intros Hc Hcn Hn. unfold multiply.
  destruct (ratio_bounds c n Hc Hcn Hn) as [H0 H1].
  destruct (roundNearest_between L 0 1 _ ltac:(lia) ltac:(lia) ltac:(lia) H0 H1) as [Hr0 Hr1].
  apply (roundNearest_between L 0 100); try lia.
  - change (inject_Z 0) with 0%Q in *. lra.
  - change (inject_Z 100) with 100%Q. change (inject_Z 1) with 1%Q in *. lra.
Qed.

(** X2: the project summary has exactly one row per project with an entry in
    the date range; in every row the completed and the blocked entries
    together are at most [taskCount], and [completionRate] lies between 0
    and 100. *)
Theorem projectSummary_rows_bounded (L : Lib) (startDate endDate : Z)
    (ws : list WorkloadData) :
  exists rows,
    projectSummary L startDate endDate ws = Some rows
    /\ NoDup (map ps_project rows)
    /\ Forall (fun w => project w ∈ map ps_project rows)
              (List.filter (fun w => inRange startDate endDate (date w)) ws)
    /\ Forall (fun r => 0 <= completedTasks r
                        /\ 0 <= blockedTasks r
                        /\ completedTasks r + blockedTasks r <= taskCount r
                        /\ (0 <= completionRate r)%Q
                        /\ (completionRate r <= 100)%Q) rows.
Proof.
  eexists. split; [apply projectSummary_groups |].
  set (matched := List.filter _ ws). set (groups := groupBy project matched).
  assert (Hprojects : map ps_project (sortDescQ totalHours
                        (map (fun g => summaryRow L (projectGroup L g)) groups))
                      ≡ₚ map fst groups).
  { rewrite sortDescQ_Permutation, map_map. done. }
  split; [| split].
  - rewrite Hprojects. apply groupBy_NoDup.
  - apply Forall_forall. intros w Hw. rewrite Hprojects. by apply groupBy_complete.
  - eapply Permutation_Forall; [symmetry; apply sortDescQ_Permutation |].
    apply Forall_forall. intros r (g & -> & Hg)%list_elem_of_fmap. simpl.
    apply groupBy_nonempty in Hg.
    pose proof (completed_blocked_disjoint (snd g)) as Hsum.
    pose proof (countIf_nonneg (hasStatus "completed") (snd g)) as Hc.
    pose proof (countIf_nonneg (hasStatus "blocked") (snd g)) as Hb.
    repeat split; try lia; apply rate_bounds; lia.
Qed.

Lemma sumZ_Permutation (l1 l2 : list Z) :
  l1 ≡ₚ l2 -> fold_right Z.add 0 l1 = fold_right Z.add 0 l2.
Proof.
  induction 1 as [| z l1 l2 _ IH | y z l | l1 l2 l3 _ IH1 _ IH2]; simpl; lia.
Qed.

(** The counts of the rows of a summary add up to the count over the matched
    entries. *)
Lemma summary_counts (L : Lib) (p : WorkloadData -> bool) (field : ProjectSummary -> Z)
    (matched : list WorkloadData) :
  (forall g, field (summaryRow L (projectGroup L g)) = countIf p (snd g)) ->
  fold_right Z.add 0
    (map field (sortDescQ totalHours
                  (map (fun g => summaryRow L (projectGroup L g)) (groupBy project matched))))
  = countIf p matched.
Proof.
  intros Hfield.
  rewrite (sumZ_Permutation _ _ (Permutation_map field (sortDescQ_Permutation totalHours _))).
  rewrite map_map. rewrite (map_ext _ (fun g => countIf p (snd g))) by exact Hfield.
  pose proof (groupBy_counts project p matched) as Hsum.
  rewrite (fold_left_add (fun g => countIf p (snd g))) in Hsum. lia.
Qed.

(** X3: the rows of the project summary account for every matched entry
    once: their [taskCount]s add up to the number of entries in the date
    range, their [completedTasks] to the number of those that are completed
    and their [blockedTasks] to the number of those that are blocked. *)
Theorem projectSummary_conserves (L : Lib) (startDate endDate : Z) (ws : list WorkloadData) :
  exists rows,
    projectSummary L startDate endDate ws = Some rows
    /\ fold_right Z.add 0 (map taskCount rows)
       = Z.of_nat (length (List.filter (fun w => inRange startDate endDate (date w)) ws))
    /\ fold_right Z.add 0 (map completedTasks rows)
       = countIf (hasStatus "completed")
                 (List.filter (fun w => inRange startDate endDate (date w)) ws)
    /\ fold_right Z.add 0 (map blockedTasks rows)
       = countIf (hasStatus "blocked")
                 (List.filter (fun w => inRange startDate endDate (date w)) ws).
Proof.
  eexists. split; [apply projectSummary_groups |].
  split; [| split].
  - rewrite <- countIf_true. apply summary_counts. intros g. by rewrite countIf_true.
  - by apply summary_counts.
  - by apply summary_counts.
Qed.



(** ** More on the workload statistics *)

Lemma List_filter_map {B C} (f : B -> C) (p : C -> bool) (l : list B) :
  List.filter p (map f l) = map f (List.filter (fun b => p (f b)) l).
Proof.
  induction l as [| b l IH]; simpl; [done |]. destruct (p (f b)); simpl; by rewrite IH.
Qed.

Lemma sum_lengths_concat {B} (ls : list (list B)) :
  fold_right Z.add 0 (map (fun l => Z.of_nat (length l)) ls) = Z.of_nat (length (concat ls)).
Proof.
  induction ls as [| l ls IH]; simpl; [done |]. rewrite length_app, IH. lia.
Qed.

(** The per-type rows of one developer come from the groups of that
    developer's entries. *)
Lemma stats_members (L : Lib) (matched : list WorkloadData) (d : string)
    (members : list TypeTotals) :
  (d, members) ∈ groupBy tt_developer
                   (map (typeTotals L)
                        (groupBy (fun w => (developer w, taskType w)) matched)) ->
  members = map (typeTotals L)
              (List.filter (fun g : (string * string) * list WorkloadData =>
                              bool_decide (fst (fst g) = d))
                           (groupBy (fun w => (developer w, taskType w)) matched)).
Proof. intros [-> _]%elem_of_groupBy. by rewrite List_filter_map. Qed.

(** The two [$group] stages: one row per developer with a matched entry; the
    per-type counts of a row add up to the number of that developer's matched
    entries, and every per-type row belongs to the developer and counts at
    least one entry. *)
Lemma workloadStatsRows_counts (L : Lib) (startDate endDate : Z) (developerId : option string)
    (ws : list WorkloadData) :
  NoDup (map ds_id (workloadStatsRows L startDate endDate developerId ws))
  /\ (forall d, d ∈ map ds_id (workloadStatsRows L startDate endDate developerId ws)
                <-> exists w, w ∈ List.filter (statsMatch startDate endDate developerId) ws
                              /\ developer w = d)
  /\ Forall (fun r =>
       fold_right Z.add 0 (map tt_taskCount (ds_workloadByType r))
       = Z.of_nat (length (List.filter (fun w => bool_decide (developer w = ds_id r))
                             (List.filter (statsMatch startDate endDate developerId) ws)))
       /\ Forall (fun t => tt_developer t = ds_id r /\ 1 <= tt_taskCount t)
                 (ds_workloadByType r))
     (workloadStatsRows L startDate endDate developerId ws).
Proof.
  unfold workloadStatsRows.
  set (matched := List.filter (statsMatch startDate endDate developerId) ws).
  set (groups := groupBy (fun w => (developer w, taskType w)) matched).
  split; [| split].
  - rewrite map_map. simpl. apply groupBy_NoDup.
  - intros d. rewrite map_map. simpl. split.
    + intros (g & -> & Hg)%list_elem_of_fmap.
      apply groupBy_keys in Hg as (t & Ht & <-).
      apply list_elem_of_fmap in Ht as (g' & -> & Hg'). simpl.
      apply groupBy_keys in Hg' as (w & Hw & <-). by exists w.
    + intros (w & Hw & <-).
      pose proof (groupBy_complete (fun w => (developer w, taskType w)) matched w Hw) as Hkey.
      apply list_elem_of_fmap in Hkey as (g & Hg & Hin).
      replace (developer w) with (tt_developer (typeTotals L g)) by (simpl; by rewrite <- Hg).
      apply groupBy_complete. by apply list_elem_of_fmap_2.
  - apply Forall_forall. intros r ([d members] & -> & Hg)%list_elem_of_fmap. simpl.
    apply stats_members in Hg. fold groups in Hg.
    pose proof (groupBy_partition (fun w => (developer w, taskType w))
                  (fun k => bool_decide (fst k = d)) matched) as Hpart.
    fold groups in Hpart. simpl in Hpart.
    set (mine := List.filter _ groups) in Hg, Hpart. subst members.
    split.
    + rewrite map_map. simpl. rewrite <- (map_map snd (fun l => Z.of_nat (length l))).
      rewrite sum_lengths_concat. f_equal. by apply Permutation_length.
    + apply Forall_forall. intros t (g & -> & Hin)%list_elem_of_fmap. simpl.
      apply elem_of_List_filter in Hin as [Hin Hd]. apply bool_decide_eq_true in Hd.
      split; [done |]. apply groupBy_nonempty in Hin. lia.
Qed.

Lemma elem_of_lookupDeveloper (us : gmap string User) (rs : list DeveloperStats)
    (r : DeveloperStats) (u : User) :
  (r, u) ∈ concat (map (lookupDeveloper us) rs) <-> r ∈ rs /\ us !! ds_id r = Some u.
Proof.
  induction rs as [| r0 rs IH]; simpl.
  - split; [by intros ?%not_elem_of_nil | by intros [?%not_elem_of_nil _]].
  - rewrite elem_of_app, IH, elem_of_cons. unfold lookupDeveloper.
    destruct (us !! ds_id r0) as [u0 |] eqn:Hu0.
    + rewrite list_elem_of_singleton. split.
      * intros [[= -> ->] | [Hin Hu]]; [by split; [left |] | by split; [right |]].
      * intros [[-> | Hin] Hu]; [left; congruence | right; done].
    + split.
      * intros [?%not_elem_of_nil | [Hin Hu]]; [done | by split; [right |]].
      * intros [[-> | Hin] Hu]; [congruence | right; done].
Qed.

Lemma lookupDeveloper_ids (us : gmap string User) (rs : list DeveloperStats) :
  map (fun ru => ds_id (fst ru)) (concat (map (lookupDeveloper us) rs))
  = List.filter (fun d => bool_decide (is_Some (us !! d))) (map ds_id rs).
Proof.
  induction rs as [| r rs IH]; simpl; [done |].
  rewrite map_app, IH. unfold lookupDeveloper.
  destruct (bool_decide_reflect (is_Some (us !! ds_id r))) as [[u Hu] | Hnone].
  - by rewrite Hu.
  - destruct (us !! ds_id r) as [u |]; [| done]. exfalso. apply Hnone. by eexists.
Qed.

(** X4: the statistics an administrator gets for a date range, no developer
    named.  The answer is 200 and has one row per developer who has an entry
    in the range and a user document (the [$lookup] and [$unwind] drop the
    others); each row carries that user document, its per-type counts add up
    to the number of that developer's entries in the range, and every
    per-type row belongs to the developer and counts at least one entry. *)
Theorem getWorkloadStats_admin_rows (L : Lib) (me : AuthUser) (q : StatsQuery) (st : Store) :
  isAdmin me = true ->
  truthy (sq_startDate q) = true ->
  truthy (sq_endDate q) = true ->
  truthy (sq_developerId q) = false ->
  exists rows : list (DeveloperStats * User),
    getWorkloadStats L me q st = {| statusCode := 200; body := JArr (map statsJson rows) |}
    /\ NoDup (map (fun ru => ds_id (fst ru)) rows)
    /\ (forall d,
          d ∈ map (fun ru => ds_id (fst ru)) rows
          <-> (exists w, w ∈ map snd (map_to_list (workloads st))
                         /\ inRange (bsonDate (newDate L (toStr (sq_startDate q))))
                                    (bsonDate (newDate L (toStr (sq_endDate q)))) (date w) = true
                         /\ developer w = d)
              /\ is_Some (users st !! d))
    /\ Forall (fun ru =>
         users st !! ds_id (fst ru) = Some (snd ru)
         /\ fold_right Z.add 0 (map tt_taskCount (ds_workloadByType (fst ru)))
            = Z.of_nat (length
                (List.filter
                   (fun w => inRange (bsonDate (newDate L (toStr (sq_startDate q))))
                                     (bsonDate (newDate L (toStr (sq_endDate q)))) (date w)
                             && bool_decide (developer w = ds_id (fst ru)))
                   (map snd (map_to_list (workloads st)))))
         /\ Forall (fun t => tt_developer t = ds_id (fst ru) /\ 1 <= tt_taskCount t)
                   (ds_workloadByType (fst ru)))
       rows.
Proof.
  intros Hadmin Hstart Hend Hdev.
  unfold getWorkloadStats, statsDeveloper. rewrite Hadmin, Hstart, Hend, Hdev. simpl.
  set (lo := bsonDate (newDate L (toStr (sq_startDate q)))).
  set (hi := bsonDate (newDate L (toStr (sq_endDate q)))).
  set (ws := map snd (map_to_list (workloads st))).
  eexists. split; [reflexivity |]. unfold statsRows. fold ws.
  destruct (workloadStatsRows_counts L lo hi None ws) as (Hnodup & Hcover & Hrows).
  assert (Hmatch : List.filter (statsMatch lo hi None) ws
                   = List.filter (fun w => inRange lo hi (date w)) ws).
  { apply List.filter_ext. intros w. unfold statsMatch. apply andb_true_r. }
  rewrite Hmatch in Hcover, Hrows.
  split; [| split].
  - rewrite lookupDeveloper_ids. by apply NoDup_List_filter.
  - intros d. rewrite lookupDeveloper_ids, elem_of_List_filter, Hcover.
    rewrite bool_decide_eq_true. split.
    + intros [(w & Hw & Hd) Hu]. split; [| done].
      apply elem_of_List_filter in Hw as [Hw Hin]. by exists w.
    + intros [(w & Hw & Hin & Hd) Hu]. split; [| done].
      exists w. split; [| done]. apply elem_of_List_filter. by split.
  - apply Forall_forall. intros [r u] [Hr Hu]%elem_of_lookupDeveloper. simpl.
    rewrite Forall_forall in Hrows. destruct (Hrows r Hr) as [Hcount Htypes].
    rewrite List_filter_filter in Hcount. by split.
Qed.

Lemma getWorkloadStats_admin_rows_witness :
  isAdmin root = true
  /\ truthy (sq_startDate ownStats) = true
  /\ truthy (sq_endDate ownStats) = true
  /\ truthy (sq_developerId ownStats) = false
  /\ exists rows,
       getWorkloadStats demoLib root ownStats demoStore
       = {| statusCode := 200; body := JArr (map statsJson rows) |}
       /\ "u1" ∈ map (fun ru => ds_id (fst ru)) rows
       /\ "u2" ∈ map (fun ru => ds_id (fst ru)) rows.
Proof.
  split; [reflexivity | split; [reflexivity | split; [reflexivity | split; [reflexivity |]]]].
  destruct (getWorkloadStats_admin_rows demoLib root ownStats demoStore
              eq_refl eq_refl eq_refl eq_refl) as (rows & Hresp & Hnodup & Hcover & _).
  assert (Hw1 : demoEntry "u1" "P" 4 1710000000000 "completed"
                ∈ map snd (map_to_list (workloads demoStore))).
  { apply list_elem_of_fmap. exists ("w1", demoEntry "u1" "P" 4 1710000000000 "completed").
    split; [done |]. by apply elem_of_map_to_list. }
  assert (Hw3 : demoEntry "u2" "R" 7 1715000000000 "blocked"
                ∈ map snd (map_to_list (workloads demoStore))).
  { apply list_elem_of_fmap. exists ("w3", demoEntry "u2" "R" 7 1715000000000 "blocked").
    split; [done |]. by apply elem_of_map_to_list. }
  exists rows. split; [exact Hresp |]. split.
  - apply Hcover. split; [eexists; split; [exact Hw1 | by split] | by eexists].
  - apply Hcover. split; [eexists; split; [exact Hw3 | by split] | by eexists].
Defined.

(** X25: with both dates given, a statistics request that reaches the static
    with a developer filter is answered 500, because the static calls
    [mongoose.Types.ObjectId] without [new]: that is every request of a
    non-administrator that is not refused with 403, and every request of an
    administrator that names a developer. *)
Theorem getWorkloadStats_developer_filter_is_500 (L : Lib) (me : AuthUser) (q : StatsQuery)
    (st : Store) :
  truthy (sq_startDate q) = true ->
  truthy (sq_endDate q) = true ->
  (isAdmin me = false /\ (truthy (sq_developerId q) = false \/ sq_developerId q = Some (uid me)))
  \/ (isAdmin me = true /\ truthy (sq_developerId q) = true) ->
  getWorkloadStats L me q st
  = {| statusCode := 500; body := errorBody "Error fetching workload statistics" |}.
Proof.
  intros Hstart Hend Hfilter. unfold getWorkloadStats. rewrite Hstart, Hend. simpl.
  destruct Hfilter as [[Hrole Hid] | [Hrole Hdev]].
  - rewrite Hrole. simpl.
    by destruct (statsDeveloper_non_admin me q Hrole Hid) as [-> ->].
  - rewrite Hrole. simpl. unfold statsDeveloper. rewrite Hdev.
    by destruct (sq_developerId q).
Qed.

Lemma getWorkloadStats_developer_filter_is_500_witness :
  truthy (sq_startDate ownStats) = true
  /\ truthy (sq_endDate ownStats) = true
  /\ isAdmin ann = false
  /\ truthy (sq_developerId ownStats) = false
  /\ getWorkloadStats demoLib ann ownStats demoStore
     = {| statusCode := 500; body := errorBody "Error fetching workload statistics" |}.
Proof.
  split; [reflexivity | split; [reflexivity | split; [reflexivity | split; [reflexivity |]]]].
  exact (getWorkloadStats_developer_filter_is_500 demoLib ann ownStats demoStore
           eq_refl eq_refl (or_introl (conj eq_refl (or_introl eq_refl)))).
Defined.

(** ** Writing entries *)

Lemma saveWorkload_Some (now : Z) (id : string) (w w' : WorkloadData)
    (ws ws' : gmap string WorkloadData) :
  saveWorkload now id w ws = Some (w', ws') ->
  schemaValid w = true /\ w' = preSave now w /\ ws' = <[id := preSave now w]> ws.
Proof.
  unfold saveWorkload. destruct (schemaValid w); [| done]. by intros [= <- <-].
Qed.

Lemma saveLoaded_Some (now : Z) (id : string) (loaded w w' : WorkloadData)
    (ws ws' : gmap string WorkloadData) :
  saveLoaded now id loaded w ws = Some (w', ws') ->
  schemaValid w = true /\ w' = preSave now w
  /\ exists stored, ws !! id = Some stored
                    /\ ws' = <[id := setModified loaded (preSave now w) stored]> ws.
Proof.
  unfold saveLoaded. destruct (schemaValid w); [| done].
  destruct (ws !! id) as [stored |]; simpl; [| done].
  intros [= <- <-]. split; [done | split; [done |]]. by exists stored.
Qed.

Lemma schemaValid_preSave (now : Z) (w : WorkloadData) :
  schemaValid (preSave now w) = schemaValid w.
Proof. reflexivity. Qed.

Lemma modifiedPath_same {A} `{EqDecision A} (loaded assigned : A) :
  modifiedPath sameAs loaded assigned loaded = assigned.
Proof. unfold modifiedPath, sameAs. by destruct (bool_decide_reflect (loaded = assigned)). Qed.

Lemma modifiedPath_same_hours (loaded assigned : Q) :
  (modifiedPath Qeq_bool loaded assigned loaded == assigned)%Q.
Proof.
  unfold modifiedPath. destruct (Qeq_bool loaded assigned) eqn:Hsame; [| reflexivity].
  by apply Qeq_bool_iff.
Qed.

Lemma modifiedPath_either {A} (same : A -> A -> bool) (P : A -> Prop)
    (loaded assigned stored : A) :
  P assigned -> P stored -> P (modifiedPath same loaded assigned stored).
Proof. intros Hassigned Hstored. unfold modifiedPath. by destruct (same _ _). Qed.

(** An update of a valid stored document by the modified paths of a valid
    document leaves it valid: the validators look at one path each. *)
Lemma setModified_valid (loaded w stored : WorkloadData) :
  schemaValid w = true -> schemaValid stored = true ->
  schemaValid (setModified loaded w stored) = true.
Proof.
  unfold schemaValid. rewrite !andb_true_iff.
  intros (((((H1 & H2) & H3) & H4) & H5) & H6) (((((G1 & G2) & G3) & G4) & G5) & G6).
  simpl. repeat split;
    by apply (modifiedPath_either _ (fun x => _ x = true)).
Qed.

(** Updating the loaded document itself stores the document as it is in
    memory. *)
Lemma setModified_same (loaded w : WorkloadData) :
  let s := setModified loaded w loaded in
  developer s = developer w /\ project s = project w /\ taskName s = taskName w
  /\ taskType s = taskType w /\ (hoursSpent s == hoursSpent w)%Q /\ date s = date w
  /\ status s = status w /\ priority s = priority w /\ description s = description w
  /\ blockers s = blockers w /\ tags s = tags w /\ dependencies s = dependencies w
  /\ createdAt s = createdAt w /\ updatedAt s = updatedAt w.
Proof.
  simpl. rewrite !modifiedPath_same. repeat split; try done.
  apply modifiedPath_same_hours.
Qed.

Lemma setModified_same_valid (loaded w : WorkloadData) :
  schemaValid w = true -> schemaValid (setModified loaded w loaded) = true.
Proof.
  destruct (setModified_same loaded w)
    as (_ & Hp & Hn & Ht & Hh & _ & Hs & Hpr & _).
  unfold schemaValid. rewrite Hp, Hn, Ht, Hs, Hpr.
  assert (Hhours : Qle_bool 0 (hoursSpent (setModified loaded w loaded))
                   = Qle_bool 0 (hoursSpent w)).
  { destruct (Qle_bool 0 (hoursSpent w)) eqn:Hle.
    - apply Qle_bool_iff. rewrite Hh. by apply Qle_bool_iff.
    - destruct (Qle_bool 0 (hoursSpent (setModified loaded w loaded))) eqn:Hle'; [| done].
      apply Qle_bool_iff in Hle'. rewrite Hh in Hle'. apply Qle_bool_iff in Hle'. congruence. }
  by rewrite Hhours.
Qed.

(** What [createWorkload] can do to the store: nothing, or add one valid
    entry of the caller under an identifier that was free. *)
Lemma createWorkload_cases (L : Lib) (me : AuthUser) (newId : string) (now saved : Z)
    (raw : WorkloadBody) (st : Store) :
  (snd (createWorkload L me newId now saved raw st) = st
   /\ statusCode (fst (createWorkload L me newId now saved raw st)) <> 201)
  \/ (exists w,
        newWorkloadData L now (uid me) (workloadSanitized L true raw) = Some w
        /\ workloadCreateErrors L raw = []
        /\ schemaValid w = true
        /\ workloads st !! default newId (wb__id raw) = None
        /\ createWorkload L me newId now saved raw st
           = ({| statusCode := 201;
                 body := populatedWorkload (users st) (default newId (wb__id raw))
                           (preSave saved w) |},
              {| users := users st;
                 workloads := <[default newId (wb__id raw) := preSave saved w]>
                                (workloads st) |})).
Proof.
  unfold createWorkload.
  destruct (bool_decide_reflect (workloadCreateErrors L raw = [])) as [Hvalid | _];
    simpl; [| by left].
  destruct (newWorkloadData L now (uid me) (workloadSanitized L true raw)) as [w |];
    simpl; [| by left].
  destruct (bool_decide_reflect (workloads st !! default newId (wb__id raw) = None))
    as [Hfresh | _]; [| by left].
  destruct (saveWorkload saved _ w (workloads st)) as [[w' ws'] |] eqn:Hsave; [| by left].
  apply saveWorkload_Some in Hsave as (Hok & -> & ->).
  right. exists w. by rewrite Hvalid.
Qed.

(** What [updateWorkload] can do to the store: nothing, or set the modified
    paths of a valid document on one entry: the one the path names, which the
    caller may write, or the one the body's [_id] names. *)
Lemma updateWorkload_cases (L : Lib) (me : AuthUser) (id : string) (now : Z)
    (raw : WorkloadBody) (st : Store) :
  (snd (updateWorkload L me id now raw st) = st
   /\ statusCode (fst (updateWorkload L me id now raw st)) <> 200)
  \/ (exists w0 w stored,
        workloads st !! id = Some w0
        /\ (isAdmin me = true \/ developer w0 = uid me)
        /\ assignWorkload L (workloadSanitized L false raw) w0 = Some w
        /\ schemaValid w = true
        /\ workloads st !! default id (wb__id raw) = Some stored
        /\ updateWorkload L me id now raw st
           = ({| statusCode := 200;
                 body := populatedWorkload (users st) (default id (wb__id raw))
                           (preSave now w) |},
              {| users := users st;
                 workloads := <[default id (wb__id raw)
                                := setModified w0 (preSave now w) stored]> (workloads st) |})).
Proof.
  unfold updateWorkload. destruct (workloads st !! id) as [w0 |] eqn:Hw0; [| by left].
  assert (Hsaved : forall may : isAdmin me = true \/ developer w0 = uid me,
    let r := match
               w ← assignWorkload L (workloadSanitized L false raw) w0;
               saveLoaded now (default id (wb__id (workloadSanitized L false raw))) w0 w
                 (workloads st)
             with
             | Some (w', ws') =>
                 ({| statusCode := 200;
                     body := populatedWorkload (users st)
                               (default id (wb__id (workloadSanitized L false raw))) w' |},
                  {| users := users st; workloads := ws' |})
             | None =>
                 ({| statusCode := 500; body := errorBody "Error updating workload entry" |}, st)
             end in
    (snd r = st /\ statusCode (fst r) <> 200)
    \/ (exists w0' w stored,
          Some w0 = Some w0'
          /\ (isAdmin me = true \/ developer w0' = uid me)
          /\ assignWorkload L (workloadSanitized L false raw) w0' = Some w
          /\ schemaValid w = true
          /\ workloads st !! default id (wb__id raw) = Some stored
          /\ r = ({| statusCode := 200;
                     body := populatedWorkload (users st) (default id (wb__id raw))
                               (preSave now w) |},
                  {| users := users st;
                     workloads := <[default id (wb__id raw)
                                    := setModified w0' (preSave now w) stored]>
                                    (workloads st) |}))).
  { intros may. simpl.
    destruct (assignWorkload L _ w0) as [w |] eqn:Hassign; simpl; [| by left].
    destruct (saveLoaded now _ w0 w (workloads st)) as [[w' ws'] |] eqn:Hsave; [| by left].
    apply saveLoaded_Some in Hsave as (Hok & -> & stored & Hstored & ->).
    right. exists w0, w, stored. auto 10. }
  destruct (isAdmin me) eqn:Hrole; simpl.
  - apply Hsaved. by left.
  - destruct (String.eqb_spec (developer w0) (uid me)) as [Hown | _]; simpl; [| by left].
    apply Hsaved. by right.
Qed.

(** [deleteWorkload] never reaches the store: past its guards it calls
    [workload.remove()], which raises. *)
Lemma deleteWorkload_store (me : AuthUser) (id : string) (st : Store) :
  snd (deleteWorkload me id st) = st.
Proof.
  unfold deleteWorkload. destruct (workloads st !! id) as [w0 |]; [| done].
  by destruct (_ && _).
Qed.

(** X27: no delete request deletes.  [deleteUser] and [deleteWorkload] pass
    their guards and then call [remove()] on the loaded document, which the
    mapper no longer has: whatever the request, the store is left as it was
    and the answer is not 200; a delete of a stored user who is not the last
    administrator, and a delete of a stored entry by its owner or by an
    administrator, are answered 500. *)
Theorem delete_requests_never_delete (me : AuthUser) (st : Store) :
  (forall userId,
     snd (deleteUser userId st) = st
     /\ statusCode (fst (deleteUser userId st)) <> 200
     /\ forall u, users st !! userId = Some u ->
                  role u <> "admin" \/ 2 <= adminCount (users st) ->
                  fst (deleteUser userId st)
                  = {| statusCode := 500; body := errorBody "Error deleting user" |})
  /\ (forall id,
        snd (deleteWorkload me id st) = st
        /\ statusCode (fst (deleteWorkload me id st)) <> 200
        /\ forall w, workloads st !! id = Some w ->
                     isAdmin me = true \/ developer w = uid me ->
                     fst (deleteWorkload me id st)
                     = {| statusCode := 500; body := errorBody "Error deleting workload entry" |}).
Proof.
  split.
  - intros userId. split; [apply deleteUser_store | split; [apply deleteUser_refuses |]].
    intros u Hu Hmay. unfold deleteUser. rewrite Hu.
    destruct Hmay as [Hplain | Htwo].
    + apply String.eqb_neq in Hplain. by rewrite Hplain.
    + destruct (Z.leb_spec (adminCount (users st)) 1); [lia |]. by rewrite andb_false_r.
  - intros id. split; [apply deleteWorkload_store | split].
    + unfold deleteWorkload. destruct (workloads st !! id) as [w |]; [| done].
      by destruct (_ && _).
    + intros w Hw Hmay. unfold deleteWorkload. rewrite Hw.
      destruct Hmay as [-> | ->]; [done |]. rewrite String.eqb_refl.
      by rewrite andb_false_r.
Qed.

Lemma delete_requests_never_delete_witness :
  workloads demoStore !! "w1" = Some (demoEntry "u1" "P" 4 1710000000000 "completed")
  /\ developer (demoEntry "u1" "P" 4 1710000000000 "completed") = uid ann
  /\ deleteWorkload ann "w1" demoStore
     = ({| statusCode := 500; body := errorBody "Error deleting workload entry" |}, demoStore)
  /\ users demoStore !! "u2" = Some (demoUser "bob" "user")
  /\ deleteUser "u2" demoStore
     = ({| statusCode := 500; body := errorBody "Error deleting user" |}, demoStore).
Proof.
  assert (Hw : workloads demoStore !! "w1"
               = Some (demoEntry "u1" "P" 4 1710000000000 "completed")) by reflexivity.
  assert (Hown : developer (demoEntry "u1" "P" 4 1710000000000 "completed") = uid ann)
    by reflexivity.
  assert (Hu : users demoStore !! "u2" = Some (demoUser "bob" "user")) by reflexivity.
  destruct (delete_requests_never_delete ann demoStore) as [Husers Hentries].
  destruct (Husers "u2") as (Hst & _ & Hfive).
  destruct (Hentries "w1") as (Hst' & _ & Hfive').
  split; [exact Hw | split; [exact Hown | split; [| split; [exact Hu |]]]].
  - rewrite (surjective_pairing (deleteWorkload ann "w1" demoStore)).
    by rewrite Hst', (Hfive' _ Hw (or_intror Hown)).
  - rewrite (surjective_pairing (deleteUser "u2" demoStore)).
    rewrite Hst, (Hfive _ Hu); [done |]. left. discriminate.
Defined.

Lemma newWorkloadData_Some (L : Lib) (now : Z) (dev : string) (b : WorkloadBody)
    (w : WorkloadData) :
  newWorkloadData L now dev b = Some w ->
  developer w = dev
  /\ castDate L (wb_createdAt b) now = Some (createdAt w)
  /\ tags w = map (trim L) (default [] (wb_tags b))
  /\ wb_hoursSpent b = Some (hoursSpent w)
  /\ (exists ds, wb_date b = Some ds /\ newDate L ds = Some (date w)).
Proof.
  unfold newWorkloadData.
  destruct (wb_project b), (wb_taskName b), (wb_taskType b), (wb_hoursSpent b),
    (wb_date b) as [ds |]; simpl; try done.
  destruct (newDate L ds) eqn:Hdate; simpl; [| done].
  destruct (castDate L (wb_createdAt b) now) eqn:Hcreated; simpl; [| done].
  destruct (castDate L (wb_updatedAt b) now) eqn:Hupdated; simpl; [| done].
  intros [= <-]. simpl. repeat split; try done. by exists ds.
Qed.

Lemma assignWorkload_Some (L : Lib) (b : WorkloadBody) (w0 w : WorkloadData) :
  assignWorkload L b w0 = Some w ->
  developer w = default (developer w0) (wb_developer b)
  /\ hoursSpent w = default (hoursSpent w0) (wb_hoursSpent b)
  /\ status w = default (status w0) (wb_status b)
  /\ priority w = default (priority w0) (wb_priority b)
  /\ taskType w = default (taskType w0) (wb_taskType b)
  /\ castDate L (wb_date b) (date w0) = Some (date w)
  /\ castDate L (wb_createdAt b) (createdAt w0) = Some (createdAt w).
Proof.
  unfold assignWorkload.
  destruct (castDate L (wb_date b) (date w0)) as [d |] eqn:Hd; simpl; [| done].
  destruct (castDate L (wb_createdAt b) (createdAt w0)) as [c |] eqn:Hc; simpl; [| done].
  destruct (castDate L (wb_updatedAt b) (updatedAt w0)) as [u |] eqn:Hu; simpl; [| done].
  by intros [= <-].
Qed.

Lemma schemaValid_hours (w : WorkloadData) :
  schemaValid w = true ->
  (0 <= hoursSpent w)%Q /\ status w ∈ statusEnum /\ priority w ∈ priorityEnum
  /\ taskType w ∈ taskTypeEnum /\ project w <> "" /\ taskName w <> "".
Proof.
  unfold schemaValid, memberOf, notEmpty. rewrite !andb_true_iff, !negb_true_iff.
  rewrite !bool_decide_eq_true, Qle_bool_iff, !String.eqb_neq. tauto.
Qed.





Lemma allEntriesValid_insert (st : Store) (id : string) (w : WorkloadData) :
  allEntriesValid st -> schemaValid w = true ->
  allEntriesValid {| users := users st; workloads := <[id := w]> (workloads st) |}.
Proof.
  intros Hall Hw id' w'. simpl. rewrite lookup_insert_Some.
  intros [[_ <-] | [_ Hold]]; [done | by apply (Hall id')].
Qed.

Lemma allEntriesValid_step (L : Lib) (me : AuthUser) (r : WorkloadRequest) (st : Store) :
  allEntriesValid st -> allEntriesValid (snd (workloadRoute L me r st)).
Proof.
  intros Hall.
  destruct r as [newId now saved raw | q | q | q | id now raw | id]; simpl; try done.
  - destruct (createWorkload_cases L me newId now saved raw st)
      as [[-> _] | (w & _ & _ & Hok & _ & ->)]; [done |].
    by apply allEntriesValid_insert.
  - destruct (updateWorkload_cases L me id now raw st)
      as [[-> _] | (w0 & w & stored & _ & _ & _ & Hok & Hstored & ->)]; [done |].
    apply allEntriesValid_insert; [done |].
    apply setModified_valid; [done | by apply (Hall _ _ Hstored)].
  - by rewrite deleteWorkload_store.
Qed.

Lemma demoStore_valid : allEntriesValid demoStore.
Proof.
  intros id w Hw. apply elem_of_map_to_list in Hw.
  assert (Hall : Forall (fun iw : string * WorkloadData => schemaValid (snd iw) = true)
                        (map_to_list (workloads demoStore))).
  { vm_compute map_to_list. repeat constructor. }
  rewrite Forall_forall in Hall. exact (Hall (id, w) Hw).
Qed.

(** X6: the invariants of the entry schema hold of the store after any
    sequence of requests to the workload routes, by any callers and with any
    bodies, when they hold before: every entry has non-negative hours, a task
    type, status and priority of their enumerations, and a project and a task
    name that are not empty. *)
Theorem entries_stay_valid (L : Lib) (rs : list (AuthUser * WorkloadRequest)) (st : Store) :
  allEntriesValid st ->
  forall id w,
    workloads (runWorkloadRequests L rs st) !! id = Some w ->
    (0 <= hoursSpent w)%Q /\ status w ∈ statusEnum /\ priority w ∈ priorityEnum
    /\ taskType w ∈ taskTypeEnum /\ project w <> "" /\ taskName w <> "".
Proof.
  intros Hall id w Hw. apply schemaValid_hours.
  revert st Hall Hw. unfold runWorkloadRequests.
  induction rs as [| [me r] rs IH]; intros st Hall Hw; simpl in *.
  - by apply (Hall id).
  - apply (IH (snd (workloadRoute L me r st))); [by apply allEntriesValid_step | done].
Qed.

Lemma entries_stay_valid_witness :
  allEntriesValid demoStore
  /\ forall id w,
       workloads (runWorkloadRequests demoLib
                    [(ann, PostWorkload "w9" 1720000000000 1720000000001 taggedEntry);
                     (ann, PutWorkload "w1" 1720000000002 negativeHours);
                     (ann, PutWorkload "w2" 1720000000003 redirected)] demoStore) !! id
       = Some w -> (0 <= hoursSpent w)%Q.
Proof.
  split; [exact demoStore_valid |]. intros id w Hw.
  exact (proj1 (entries_stay_valid demoLib _ demoStore demoStore_valid id w Hw)).
Defined.



(** ** Creating and then listing *)

Lemma List_filter_none {B} (p : B -> bool) (l : list B) :
  (forall b, b ∈ l -> p b = false) -> List.filter p l = [].
Proof.
  induction l as [| b l IH]; simpl; intros Hnone; [done |].
  rewrite (Hnone b) by left. apply IH. intros c Hc. apply Hnone. by right.
Qed.

(** The list request without any parameter, sent by a non-administrator. *)
Lemma findWorkloads_everything (L : Lib) (me : AuthUser) (st : Store) :
  isAdmin me = false ->
  findWorkloads L me everything st
  = (found ← skipLimit 0 10
               (sortDesc (fun iw => date (snd iw))
                  (List.filter (fun iw => bool_decide (developer (snd iw) = uid me))
                               (map_to_list (workloads st))));
     Some (found,
           Z.of_nat (length (List.filter (fun iw => bool_decide (developer (snd iw) = uid me))
                                         (map_to_list (workloads st)))))).
Proof. intros Hrole. unfold findWorkloads, workloadsFilter. rewrite Hrole. done. Qed.

(** X8: creating and then listing.  When a non-administrator who owned no
    entry creates one (status 201), the list request without parameters
    returns to that caller exactly the new entry, with a total of 1 on 1
    page, and returns an empty list to another non-administrator who owns
    none. *)
Theorem create_then_list (L : Lib) (me other : AuthUser) (newId : string) (now saved : Z)
    (raw : WorkloadBody) (st : Store) :
  isAdmin me = false ->
  isAdmin other = false ->
  uid other <> uid me ->
  (forall id w, workloads st !! id = Some w ->
                developer w <> uid me /\ developer w <> uid other) ->
  statusCode (fst (createWorkload L me newId now saved raw st)) = 201 ->
  exists w,
    workloads (snd (createWorkload L me newId now saved raw st))
      !! default newId (wb__id raw) = Some w
    /\ getWorkloads L me everything (snd (createWorkload L me newId now saved raw st))
       = {| statusCode := 200;
            body := JObj [("workloads",
                           JArr [populatedWorkload (users st) (default newId (wb__id raw)) w]);
                          ("pagination", JObj [("total", JInt 1); ("page", JInt 1);
                                               ("pages", JInt 1)])] |}
    /\ getWorkloads L other everything (snd (createWorkload L me newId now saved raw st))
       = {| statusCode := 200;
            body := JObj [("workloads", JArr []);
                          ("pagination", JObj [("total", JInt 0); ("page", JInt 1);
                                               ("pages", JInt 0)])] |}.
Proof.
  intros Hme Hother Hne Hnone Hstatus.
  destruct (createWorkload_cases L me newId now saved raw st)
    as [[_ Hno] | (w & Hnew & _ & _ & Hfresh & ->)]; [done |].
  apply newWorkloadData_Some in Hnew as (Hdev & _).
  set (id := default newId (wb__id raw)) in *.
  exists (preSave saved w). simpl. split; [apply lookup_insert_eq | split].
  - unfold getWorkloads. rewrite (findWorkloads_everything L me _ Hme). simpl.
    assert (Hmine : List.filter (fun iw : string * WorkloadData =>
                                   bool_decide (developer (snd iw) = uid me))
                      (map_to_list (<[id := preSave saved w]> (workloads st)))
                    = [(id, preSave saved w)]).
    { apply Permutation_singleton_r.
      rewrite (List_filter_Permutation _ _ _ (map_to_list_insert _ _ _ Hfresh)). simpl.
      rewrite (bool_decide_eq_true_2 _ Hdev).
      rewrite List_filter_none; [done |]. intros [id' w0] Hin%elem_of_map_to_list. simpl.
      apply bool_decide_eq_false_2. by apply (Hnone id' w0). }
    rewrite Hmine.
    assert (Hsorted : sortDesc (fun iw : string * WorkloadData => date (snd iw))
                        [(id, preSave saved w)] = [(id, preSave saved w)])
      by (apply Permutation_singleton_r; apply sortDesc_Permutation).
    rewrite Hsorted. done.
  - unfold getWorkloads. rewrite (findWorkloads_everything L other _ Hother). simpl.
    rewrite List_filter_none; [done |].
    intros [id' w0] Hin%elem_of_map_to_list. simpl. apply bool_decide_eq_false_2.
    apply lookup_insert_Some in Hin as [[_ <-] | [_ Hold]]; simpl.
    + rewrite Hdev. congruence.
    + by apply (Hnone id' w0).
Qed.

Lemma create_then_list_witness :
  isAdmin ann = false /\ isAdmin bob = false /\ uid bob <> uid ann
  /\ statusCode (fst (createWorkload demoLib ann "w9" 1720000000000 1720000000001 taggedEntry
                        noEntries)) = 201
  /\ exists w,
       getWorkloads demoLib ann everything
         (snd (createWorkload demoLib ann "w9" 1720000000000 1720000000001 taggedEntry
                 noEntries))
       = {| statusCode := 200;
            body := JObj [("workloads", JArr [populatedWorkload (users noEntries) "w9" w]);
                          ("pagination", JObj [("total", JInt 1); ("page", JInt 1);
                                               ("pages", JInt 1)])] |}.
Proof.
  assert (Hstatus : statusCode
            (fst (createWorkload demoLib ann "w9" 1720000000000 1720000000001 taggedEntry
                    noEntries)) = 201)
    by (vm_compute; reflexivity).
  assert (Hne : uid bob <> uid ann) by done.
  assert (Hnone : forall id w, workloads noEntries !! id = Some w ->
                               developer w <> uid ann /\ developer w <> uid bob).
  { intros id w Hw. simpl in Hw. by rewrite lookup_empty in Hw. }
  split; [reflexivity | split; [reflexivity | split; [exact Hne | split; [exact Hstatus |]]]].
  destruct (create_then_list demoLib ann bob "w9" 1720000000000 1720000000001 taggedEntry
              noEntries eq_refl eq_refl Hne Hnone Hstatus) as (w & _ & Hmine & _).
  by exists w.
Defined.

(** ** Updating entries *)

(** A successful update whose body names no other entry stores, under the
    identifier of the path, the loaded document with the assigned paths. *)
Lemma updateWorkload_same_entry (L : Lib) (me : AuthUser) (id : string) (now : Z)
    (raw : WorkloadBody) (st : Store) :
  wb__id raw = None \/ wb__id raw = Some id ->
  statusCode (fst (updateWorkload L me id now raw st)) = 200 ->
  exists w0 w,
    workloads st !! id = Some w0
    /\ (isAdmin me = true \/ developer w0 = uid me)
    /\ assignWorkload L (workloadSanitized L false raw) w0 = Some w
    /\ schemaValid w = true
    /\ snd (updateWorkload L me id now raw st)
       = {| users := users st;
            workloads := <[id := setModified w0 (preSave now w) w0]> (workloads st) |}.
Proof.
  intros Hid Hstatus.
  destruct (updateWorkload_cases L me id now raw st)
    as [[_ Hno] | (w0 & w & stored & Hw0 & Hmay & Hassign & Hok & Hstored & Hresp)];
    [done |].
  assert (Htarget : default id (wb__id raw) = id) by (by destruct Hid as [-> | ->]).
  rewrite Htarget in Hstored, Hresp. rewrite Hw0 in Hstored. injection Hstored as <-.
  exists w0, w. by rewrite Hresp.
Qed.





(** ** Writing users *)

Lemma existsb_false_elem {B} (p : B -> bool) (l : list B) (b : B) :
  existsb p l = false -> b ∈ l -> p b = false.
Proof.
  intros Hnone Hin. destruct (p b) eqn:Hp; [| done].
  assert (Hsome : existsb p l = true)
    by (apply existsb_exists; exists b; split; [by apply list_elem_of_In | done]).
  congruence.
Qed.

Lemma sameEmailOrUsername_false (em un : option string) (u : User) :
  sameEmailOrUsername em un u = false -> em <> Some (email u) /\ un <> Some (username u).
Proof.
  unfold sameEmailOrUsername. rewrite orb_false_iff, !bool_decide_eq_false. tauto.
Qed.

(** The [updates] object of [updateUser] for a caller and a body. *)
Lemma updateUser_cases (L : Lib) (me : AuthUser) (userId : string) (raw : UserUpdateBody)
    (st : Store) :
  (snd (updateUser L me userId raw st) = st
   /\ statusCode (fst (updateUser L me userId raw st)) <> 200)
  \/ (exists u up,
        users st !! userId = Some u
        /\ userUpdateErrors L raw = []
        /\ (forall id v, users st !! id = Some v -> id <> userId ->
              ub_email raw <> Some (email v)
              /\ trim L <$> ub_username raw <> Some (username v))
        /\ up_username up = trim L <$> ub_username raw
        /\ up_email up = ub_email raw
        /\ (isAdmin me = false -> up_role up = None /\ up_isActive up = None)
        /\ (isAdmin me = true ->
              up_role up = (if truthy (ub_role raw) then ub_role raw else None)
              /\ up_isActive up = asBoolean (ub_isActive raw))
        /\ (forall r, up_role up = Some r -> r ∈ roleEnum)
        /\ updateUser L me userId raw st
           = ({| statusCode := 200; body := userWithoutPassword userId (applyUserUpdates up u) |},
              {| users := <[userId := applyUserUpdates up u]> (users st);
                 workloads := workloads st |})).
Proof.
  unfold updateUser.
  destruct (bool_decide_reflect (userUpdateErrors L raw = [])) as [Hvalid | _];
    simpl; [| by left].
  destruct (existsb _ _) eqn:Hfree; [by left |].
  destruct (users st !! userId) as [u |] eqn:Hu; [| by left].
  assert (Hothers : forall id v, users st !! id = Some v -> id <> userId ->
                      ub_email raw <> Some (email v)
                      /\ trim L <$> ub_username raw <> Some (username v)).
  { intros id v Hv Hne.
    pose proof (existsb_false_elem _ _ (id, v) Hfree
                  (proj2 (elem_of_map_to_list _ _ _) Hv)) as Hno.
    simpl in Hno. apply String.eqb_neq in Hne. rewrite Hne in Hno. simpl in Hno.
    by apply sameEmailOrUsername_false in Hno. }
  destruct (isAdmin me) eqn:Hme.
  - destruct (truthy (ub_role raw)) eqn:Htruthy.
    + destruct (ub_role raw) as [r |] eqn:Hr; [| done].
      destruct (bool_decide_reflect (r ∈ roleEnum)) as [Hin | _]; [| by left].
      right. eexists u, {| up_username := _; up_email := _; up_role := Some r;
                           up_isActive := asBoolean (ub_isActive raw) |}.
      split_and!; try done. by intros r' [= <-].
    + right. eexists u, {| up_username := _; up_email := _; up_role := None;
                           up_isActive := asBoolean (ub_isActive raw) |}.
      split_and!; done.
  - right. eexists u, {| up_username := _; up_email := _; up_role := None;
                         up_isActive := None |}.
    split_and!; done.
Qed.

Lemma register_cases (L : Lib) (errors : list json) (newId : string) (now : Z)
    (b : RegisterBody) (st : Store) :
  (snd (register L errors newId now b st) = st
   /\ statusCode (fst (register L errors newId now b st)) <> 201)
  \/ (errors = []
      /\ users st !! newId = None
      /\ (forall id v, users st !! id = Some v ->
            email v <> rb_email b /\ username v <> rb_username b)
      /\ roleOrDefault (rb_role b) ∈ roleEnum
      /\ register L errors newId now b st
         = ({| statusCode := 201;
               body := JObj [("user", getPublicProfile newId
                                        (registered L now b (roleOrDefault (rb_role b))));
                             ("token", JStr (jwtSign L newId))] |},
            {| users := <[newId := registered L now b (roleOrDefault (rb_role b))]> (users st);
               workloads := workloads st |})).
Proof.
  unfold register.
  destruct (bool_decide_reflect (errors = [])) as [-> | _]; simpl; [| by left].
  destruct (existsb _ _) eqn:Hfree; [by left |].
  unfold saveNewUser.
  destruct (bool_decide_reflect (roleOrDefault (rb_role b) ∈ roleEnum)) as [Hrole | _];
    simpl; [| by left].
  destruct (bool_decide_reflect (users st !! newId = None)) as [Hfresh | _]; [| by left].
  right. split; [done |]. split; [done |]. split; [| done].
  intros id v Hv.
  pose proof (existsb_false_elem _ _ (id, v) Hfree
                (proj2 (elem_of_map_to_list _ _ _) Hv)) as Hno.
  simpl in Hno. apply sameEmailOrUsername_false in Hno as [Hem Hun]. split; congruence.
Qed.

Lemma findOneUser_Some (p : User -> bool) (us : gmap string User) (id : string) (u : User) :
  findOneUser p us = Some (id, u) -> us !! id = Some u /\ p u = true.
Proof.
  unfold findOneUser. intros Hhead.
  assert (Hin : (id, u) ∈ List.filter (fun iu : string * User => p (snd iu)) (map_to_list us)).
  { destruct (List.filter _ _) as [| x l]; [done |]. injection Hhead as ->. left. }
  apply elem_of_List_filter in Hin as [Hin Hp]. by apply elem_of_map_to_list in Hin.
Qed.

Lemma login_cases (C : Crypto) (L : Lib) (now : Z) (b : LoginBody) (st : Store) :
  (snd (login C L now b st) = st /\ statusCode (fst (login C L now b st)) = 401)
  \/ (exists id u,
        users st !! id = Some u
        /\ email u = lb_email b
        /\ isActive u = true
        /\ comparePassword C (lb_password b) (password u) = true
        /\ login C L now b st
           = ({| statusCode := 200;
                 body := JObj [("user", getPublicProfile id (withLastLogin now u));
                               ("token", JStr (jwtSign L id))] |},
              {| users := <[id := withLastLogin now u]> (users st);
                 workloads := workloads st |})).
Proof.
  unfold login.
  destruct (findOneUser _ (users st)) as [[id u] |] eqn:Hfind; [| by left].
  apply findOneUser_Some in Hfind as [Hu Hemail]. apply bool_decide_eq_true in Hemail.
  destruct (isActive u) eqn:Hactive; simpl; [| by left].
  destruct (comparePassword C (lb_password b) (password u)) eqn:Hpw; simpl; [| by left].
  right. exists id, u. auto.
Qed.

(** X11: whoever sends it and whatever the body, an update of a user touches
    at most the record of the target: every other user and every entry stay
    as they were, the target is neither created nor removed, and its
    credential hash, last login and creation time are kept. *)
Theorem updateUser_frame (L : Lib) (me : AuthUser) (userId : string) (raw : UserUpdateBody)
    (st : Store) :
  (forall id, id <> userId ->
     users (snd (updateUser L me userId raw st)) !! id = users st !! id)
  /\ workloads (snd (updateUser L me userId raw st)) = workloads st
  /\ (users st !! userId = None -> snd (updateUser L me userId raw st) = st)
  /\ (forall u, users st !! userId = Some u ->
        exists u', users (snd (updateUser L me userId raw st)) !! userId = Some u'
                   /\ password u' = password u
                   /\ lastLogin u' = lastLogin u
                   /\ u_createdAt u' = u_createdAt u).
Proof.
  destruct (updateUser_cases L me userId raw st)
    as [[-> _] | (u & up & Hu & _ & _ & _ & _ & _ & _ & _ & ->)].
  - split_and!; try done. intros u Hu. by exists u.
  - simpl. split_and!; try done.
    + intros id Hne. by rewrite lookup_insert_ne.
    + intros Hnone. congruence.
    + intros u0 Hu0. rewrite Hu in Hu0. injection Hu0 as <-.
      eexists. split; [apply lookup_insert_eq | done].
Qed.

Lemma adminCount_insert (us : gmap string User) (id : string) (u : User) :
  adminCount (<[id := u]> us)
  = (if String.eqb (role u) "admin" then 1 else 0) + adminCount (delete id us).
Proof.
  rewrite <- insert_delete_eq. unfold adminCount.
  rewrite (countIf_Permutation _ _ _
             (map_to_list_insert (delete id us) id u (lookup_delete_eq us id))).
  by rewrite countIf_cons.
Qed.

(** X12: the guard of [deleteUser] has no counterpart in [updateUser]: when
    an administrator's update gives an administrator another role and
    succeeds, the number of administrators drops by one, also from one to
    none. *)
Theorem updateUser_can_demote_admin (L : Lib) (me : AuthUser) (userId r : string)
    (raw : UserUpdateBody) (st : Store) (u : User) :
  isAdmin me = true ->
  users st !! userId = Some u ->
  role u = "admin" ->
  ub_role raw = Some r ->
  r <> "admin" ->
  statusCode (fst (updateUser L me userId raw st)) = 200 ->
  adminCount (users (snd (updateUser L me userId raw st))) = adminCount (users st) - 1.
Proof.
  intros Hme Hu Hadmin Hr Hother Hstatus.
  destruct (updateUser_cases L me userId raw st)
    as [[_ Hno] | (u0 & up & Hu0 & Hvalid & _ & _ & _ & _ & Hup & Hin & ->)]; [done |].
  rewrite Hu in Hu0. injection Hu0 as <-. destruct (Hup Hme) as [Hrole _].
  assert (Htruthy : truthy (ub_role raw) = true).
  { unfold userUpdateErrors in Hvalid. rewrite Hr in Hvalid |- *.
    destruct (bool_decide_reflect (r ∈ roleEnum)) as [Hr' | _].
    - unfold roleEnum in Hr'. rewrite !elem_of_cons, elem_of_nil in Hr'.
      by destruct Hr' as [-> | [-> | [-> | []]]].
    - destruct (ub_username raw), (ub_email raw); try destruct (_ <? _)%nat;
        try destruct (isEmail L _); done. }
  rewrite Htruthy, Hr in Hrole. simpl.
  rewrite adminCount_insert, (adminCount_delete _ _ _ Hu), Hadmin. simpl.
  unfold applyUserUpdates. simpl. rewrite Hrole. simpl.
  apply String.eqb_neq in Hother. rewrite Hother. lia.
Qed.

Lemma updateUser_can_demote_admin_witness :
  isAdmin root = true
  /\ users demoStore !! "a1" = Some (demoUser "root" "admin")
  /\ ub_role demote = Some "user"
  /\ statusCode (fst (updateUser demoLib root "a1" demote demoStore)) = 200
  /\ adminCount (users demoStore) = 1
  /\ adminCount (users (snd (updateUser demoLib root "a1" demote demoStore))) = 0.
Proof.
  assert (Hstatus : statusCode (fst (updateUser demoLib root "a1" demote demoStore)) = 200)
    by (vm_compute; reflexivity).
  assert (Hu : users demoStore !! "a1" = Some (demoUser "root" "admin")) by reflexivity.
  assert (Hne : "user" <> "admin") by done.
  assert (Hone : adminCount (users demoStore) = 1) by reflexivity.
  split; [reflexivity | split; [exact Hu | split; [reflexivity | split; [exact Hstatus |]]]].
  split; [exact Hone |].
  rewrite (updateUser_can_demote_admin demoLib root "a1" "user" demote demoStore _
             eq_refl Hu eq_refl eq_refl Hne Hstatus).
  by rewrite Hone.
Defined.

(** ** Unique names and emails *)

Lemma uniqueUsers_insert (us : gmap string User) (id : string) (u : User) :
  uniqueUsers us ->
  (forall j v, us !! j = Some v -> j <> id ->
               email u <> email v /\ username u <> username v) ->
  uniqueUsers (<[id := u]> us).
Proof.
  intros Huniq Hnew i j a b Ha Hb Hne.
  apply lookup_insert_Some in Ha as [[<- <-] | [Hi Ha]];
    apply lookup_insert_Some in Hb as [[<- <-] | [Hj Hb]]; try done.
  - by apply (Hnew j b).
  - destruct (Hnew i a Ha) as [Hem Hun]; [done |]. split; congruence.
  - by apply (Huniq i j).
Qed.

Lemma uniqueUsers_step (C : Crypto) (L : Lib) (op : UserWrite) (st : Store) :
  uniqueUsers (users st) -> uniqueUsers (users (snd (userWrite C L op st))).
Proof.
  intros Huniq.
  destruct op as [errors newId now b | now b | me current new | me userId raw | userId]; simpl.
  - destruct (register_cases L errors newId now b st)
      as [[-> _] | (_ & Hfresh & Hfree & _ & ->)]; [done |]. simpl.
    apply uniqueUsers_insert; [done |]. intros j v Hv _. simpl.
    destruct (Hfree j v Hv). split; congruence.
  - destruct (login_cases C L now b st) as [[-> _] | (id & u & Hu & _ & _ & _ & ->)]; [done |].
    simpl. apply uniqueUsers_insert; [done |]. intros j v Hv Hne. simpl.
    by apply (Huniq id j).
  - unfold changePassword. destruct (negb _); [done |].
    destruct (users st !! uid me) as [stored |] eqn:Hstored; [| done]. simpl.
    apply uniqueUsers_insert; [done |]. intros j v Hv Hne. simpl.
    by apply (Huniq (uid me) j).
  - destruct (updateUser_cases L me userId raw st)
      as [[-> _] | (u & up & Hu & _ & Hfree & Hname & Hemail & _ & _ & _ & ->)]; [done |].
    simpl. apply uniqueUsers_insert; [done |]. intros j v Hv Hne. simpl.
    destruct (Hfree j v Hv Hne) as [Hem Hun].
    destruct (Huniq userId j u v Hu Hv) as [Hem' Hun']; [done |].
    rewrite Hname, Hemail. split.
    + destruct (ub_email raw); simpl; congruence.
    + destruct (ub_username raw); simpl in *; congruence.
  - by rewrite deleteUser_store.
Qed.

Lemma demoStore_unique : uniqueUsers (users demoStore).
Proof.
  intros i j u v Hu Hv Hne.
  apply elem_of_map_to_list in Hu. apply elem_of_map_to_list in Hv.
  remember (map_to_list (users demoStore)) as l eqn:Hl. vm_compute in Hl. subst l.
  rewrite !elem_of_cons, elem_of_nil in Hu, Hv.
  destruct Hu as [[= -> ->] | [[= -> ->] | [[= -> ->] | []]]];
    destruct Hv as [[= -> ->] | [[= -> ->] | [[= -> ->] | []]]]; done.
Qed.

(** X13: registration, login, password change, user update and user
    deletion keep usernames and emails unique: when no two users share one
    before a sequence of these operations, none do after it. *)
Theorem users_stay_unique (C : Crypto) (L : Lib) (ops : list UserWrite) (st : Store) :
  uniqueUsers (users st) ->
  forall i j u v,
    users (runUserWrites C L ops st) !! i = Some u ->
    users (runUserWrites C L ops st) !! j = Some v ->
    i <> j ->
    email u <> email v /\ username u <> username v.
Proof.
  intros Huniq. change (uniqueUsers (users (runUserWrites C L ops st))).
  revert st Huniq. unfold runUserWrites.
  induction ops as [| op ops IH]; intros st Huniq; simpl; [done |].
  apply IH. by apply uniqueUsers_step.
Qed.

Lemma users_stay_unique_witness :
  uniqueUsers (users demoStore)
  /\ uniqueUsers (users (runUserWrites demoCrypto demoLib
                           [Register [] "u9" 1720000000000 eve;
                            UpdateUser ann "u1" freshEmail;
                            UpdateUser ann "u1" takenEmail;
                            RemoveUser "u2"]
                           demoStore)).
Proof.
  split; [exact demoStore_unique |].
  exact (users_stay_unique demoCrypto demoLib _ demoStore demoStore_unique).
Defined.

(** ** Logging in *)

Lemma findOneUser_only (p : User -> bool) (us : gmap string User) (id : string) (u : User) :
  us !! id = Some u -> p u = true ->
  (forall j v, us !! j = Some v -> j <> id -> p v = false) ->
  findOneUser p us = Some (id, u).
Proof.
  intros Hu Hp Hothers. unfold findOneUser.
  assert (Hin : (id, u) ∈ List.filter (fun iu : string * User => p (snd iu)) (map_to_list us))
    by (apply elem_of_List_filter; split; [by apply elem_of_map_to_list | done]).
  destruct (List.filter _ _) as [| [j v] l] eqn:Hl; [by apply not_elem_of_nil in Hin |].
  assert (Hhead : (j, v) ∈ List.filter (fun iu : string * User => p (snd iu)) (map_to_list us))
    by (rewrite Hl; left).
  apply elem_of_List_filter in Hhead as [Hjv Hpv]. apply elem_of_map_to_list in Hjv.
  simpl in *. destruct (decide (j = id)) as [-> | Hne].
  - rewrite Hu in Hjv. by injection Hjv as <-.
  - rewrite (Hothers j v Hjv Hne) in Hpv. done.
Qed.

Lemma findOneUser_None (p : User -> bool) (us : gmap string User) :
  (forall id v, us !! id = Some v -> p v = false) -> findOneUser p us = None.
Proof.
  intros Hnone. unfold findOneUser. rewrite List_filter_none; [done |].
  intros [id v] Hin%elem_of_map_to_list. by apply (Hnone id v).
Qed.

Lemma findOneUser_email (us : gmap string User) (id : string) (u : User) :
  uniqueUsers us -> us !! id = Some u ->
  findOneUser (fun x => bool_decide (email x = email u)) us = Some (id, u).
Proof.
  intros Huniq Hu. apply findOneUser_only; [done | by apply bool_decide_eq_true_2 |].
  intros j v Hv Hne. apply bool_decide_eq_false_2.
  destruct (Huniq j id v u Hv Hu Hne) as [Hem _]. done.
Qed.

(** X14: [login] answers 200 only for an email of a stored, active user
    whose credential matches, and then writes nothing but that user's
    [lastLogin]; every other answer is 401 and leaves the store as it was. *)
Theorem login_needs_credentials (C : Crypto) (L : Lib) (now : Z) (b : LoginBody) (st : Store) :
  (statusCode (fst (login C L now b st)) = 401 /\ snd (login C L now b st) = st)
  \/ (statusCode (fst (login C L now b st)) = 200
      /\ exists id u,
           users st !! id = Some u
           /\ email u = lb_email b
           /\ isActive u = true
           /\ comparePassword C (lb_password b) (password u) = true
           /\ body (fst (login C L now b st))
              = JObj [("user", getPublicProfile id (withLastLogin now u));
                      ("token", JStr (jwtSign L id))]
           /\ users (snd (login C L now b st)) = <[id := withLastLogin now u]> (users st)
           /\ workloads (snd (login C L now b st)) = workloads st).
Proof.
  destruct (login_cases C L now b st) as [[Hst Hno] | (id & u & Hu & Hem & Hact & Hpw & ->)].
  - by left.
  - right. split; [done |]. exists id, u. by split_and!.
Qed.

(** X15: with unique emails, an unknown email and a wrong credential are
    answered alike (401, 'Invalid login credentials'), and a deactivated
    account is told so whatever credential is sent; none of the three writes
    to the store. *)
Theorem login_failures (C : Crypto) (L : Lib) (now : Z) (b : LoginBody) (st : Store) :
  uniqueUsers (users st) ->
  ((forall id v, users st !! id = Some v -> email v <> lb_email b) ->
     login C L now b st = (invalidLogin, st))
  /\ (forall id u,
        users st !! id = Some u -> email u = lb_email b ->
        (isActive u = true -> comparePassword C (lb_password b) (password u) = false ->
           login C L now b st = (invalidLogin, st))
        /\ (isActive u = false ->
              login C L now b st
              = ({| statusCode := 401; body := errorBody "Account is deactivated" |}, st))).
Proof.
  intros Huniq. split.
  - intros Hnone. unfold login. rewrite findOneUser_None; [done |].
    intros id v Hv. apply bool_decide_eq_false_2. by apply (Hnone id v).
  - intros id u Hu Hem. unfold login. rewrite <- Hem.
    rewrite (findOneUser_email _ _ _ Huniq Hu). split.
    + intros -> Hpw. simpl. by rewrite Hpw.
    + by intros ->.
Qed.

Lemma login_failures_witness :
  uniqueUsers (users demoStore)
  /\ login demoCrypto demoLib 1720000000000
       {| lb_email := "nobody@example.com"; lb_password := "ann" |} demoStore
     = (invalidLogin, demoStore)
  /\ login demoCrypto demoLib 1720000000000
       {| lb_email := "ann@example.com"; lb_password := "wrong" |} demoStore
     = (invalidLogin, demoStore).
Proof.
  split; [exact demoStore_unique | split].
  - apply (proj1 (login_failures demoCrypto demoLib 1720000000000
                    {| lb_email := "nobody@example.com"; lb_password := "ann" |}
                    demoStore demoStore_unique)).
    intros id v Hv%elem_of_map_to_list.
    remember (map_to_list (users demoStore)) as l eqn:Hl. vm_compute in Hl. subst l.
    rewrite !elem_of_cons, elem_of_nil in Hv.
    by destruct Hv as [[= -> ->] | [[= -> ->] | [[= -> ->] | []]]].
  - apply (proj1 (proj2 (login_failures demoCrypto demoLib 1720000000000
                           {| lb_email := "ann@example.com"; lb_password := "wrong" |}
                           demoStore demoStore_unique) "u1" (demoUser "ann" "user")
                   eq_refl eq_refl)); reflexivity.
Defined.

(** X16: registering and then logging in.  After a registration that
    succeeds (status 201), a login with the same email and credential, which
    the stored hash accepts, answers 200 with a token for the new user and
    records the time of the login. *)
Theorem register_then_login (C : Crypto) (L : Lib) (errors : list json) (newId : string)
    (now later : Z) (b : RegisterBody) (st : Store) :
  comparePassword C (rb_password b) (bcryptHash L (rb_password b)) = true ->
  statusCode (fst (register L errors newId now b st)) = 201 ->
  exists u,
    users (snd (register L errors newId now b st)) !! newId = Some u
    /\ login C L later {| lb_email := rb_email b; lb_password := rb_password b |}
             (snd (register L errors newId now b st))
       = ({| statusCode := 200;
             body := JObj [("user", getPublicProfile newId (withLastLogin later u));
                           ("token", JStr (jwtSign L newId))] |},
          {| users := <[newId := withLastLogin later u]>
                        (users (snd (register L errors newId now b st)));
             workloads := workloads st |}).
Proof.
  intros Hhash Hstatus.
  destruct (register_cases L errors newId now b st)
    as [[_ Hno] | (_ & Hfresh & Hfree & _ & ->)]; [done |]. simpl.
  eexists. split; [apply lookup_insert_eq |].
  unfold login. simpl.
  rewrite (findOneUser_only _ _ newId (registered L now b (roleOrDefault (rb_role b)))).
  - simpl. by rewrite Hhash.
  - apply lookup_insert_eq.
  - by apply bool_decide_eq_true_2.
  - intros j v Hv Hne. rewrite lookup_insert_ne in Hv by done.
    apply bool_decide_eq_false_2. by destruct (Hfree j v Hv).
Qed.

Lemma register_then_login_witness :
  comparePassword demoCrypto (rb_password eve) (bcryptHash demoLib (rb_password eve)) = true
  /\ statusCode (fst (register demoLib [] "u9" 1720000000000 eve demoStore)) = 201
  /\ statusCode (fst (login demoCrypto demoLib 1720000000001 eveLogin
                        (snd (register demoLib [] "u9" 1720000000000 eve demoStore)))) = 200.
Proof.
  assert (Hhash : comparePassword demoCrypto (rb_password eve)
                    (bcryptHash demoLib (rb_password eve)) = true) by reflexivity.
  assert (Hstatus : statusCode (fst (register demoLib [] "u9" 1720000000000 eve demoStore))
                    = 201) by (vm_compute; reflexivity).
  split; [exact Hhash | split; [exact Hstatus |]].
  destruct (register_then_login demoCrypto demoLib [] "u9" 1720000000000 1720000000001 eve
              demoStore Hhash Hstatus) as (u & _ & Hlogin).
  unfold eveLogin. change "eve@example.com" with (rb_email eve).
  change "secret" with (rb_password eve). by rewrite Hlogin.
Defined.

(** ** The identity check *)

Lemma stripPrefix_app (pat t : string) : stripPrefix pat (pat ++ t) = Some t.
Proof.
  induction pat as [| a pat IH]; simpl; [by destruct t |]. by rewrite Ascii.eqb_refl.
Qed.

Lemma replaceFirst_prefix (pat t : string) : replaceFirst pat "" (pat ++ t) = t.
Proof.
  assert (Hunfold : forall s, replaceFirst pat "" s
                              = match stripPrefix pat s with
                                | Some rest => "" ++ rest
                                | None => match s with
                                          | EmptyString => EmptyString
                                          | String c s' => String c (replaceFirst pat "" s')
                                          end
                                end) by (by intros []).
  by rewrite Hunfold, stripPrefix_app.
Qed.

Lemma truthy_Some (t : string) : t <> "" -> truthy (Some t) = true.
Proof. intros Hne. unfold truthy. apply negb_true_iff. by apply String.eqb_neq. Qed.

Lemma auth_inr (C : Crypto) (authorization : option string) (st : Store) (me : AuthUser) :
  auth C authorization st = inr me ->
  users st !! uid me = Some (udoc me) /\ isActive (udoc me) = true.
Proof.
  unfold auth. destruct (negb _); [done |].
  destruct (jwtVerify C _) as [userId |]; [| done].
  destruct (users st !! userId) as [user |] eqn:Huser; [| done].
  destruct (isActive user) eqn:Hactive; [| done]. by intros [= <-].
Qed.

(** X17: [auth] lets a request through only as a user who is in the store
    and active, and every refusal is the same 401.  A header [Bearer t] with
    a non-empty [t] is accepted as [me] exactly when [t] verifies to the
    identifier of [me], a stored, active user; a request without the header,
    or with an empty token, is refused. *)
Theorem auth_attaches_active_user (C : Crypto) (st : Store) :
  (forall authorization,
     match auth C authorization st with
     | inl refused => refused = unauthenticated
     | inr me => users st !! uid me = Some (udoc me) /\ isActive (udoc me) = true
     end)
  /\ (forall t me, t <> "" ->
        auth C (Some ("Bearer " ++ t)) st = inr me
        <-> jwtVerify C t = Some (uid me)
            /\ users st !! uid me = Some (udoc me)
            /\ isActive (udoc me) = true)
  /\ auth C None st = inl unauthenticated
  /\ auth C (Some "Bearer ") st = inl unauthenticated.
Proof.
  split_and!; try done.
  - intros authorization. destruct (auth C authorization st) as [r | me] eqn:Hauth.
    + unfold auth in Hauth. destruct (negb _); [by injection Hauth |].
      destruct (jwtVerify C _); [| by injection Hauth].
      destruct (users st !! _) as [user |]; [| by injection Hauth].
      destruct (isActive user); [done | by injection Hauth].
    + by apply auth_inr in Hauth.
  - intros t me Hne. unfold auth.
    change (replaceFirst "Bearer " "" <$> Some ("Bearer " ++ t))
      with (Some (replaceFirst "Bearer " "" ("Bearer " ++ t))).
    rewrite replaceFirst_prefix, (truthy_Some t Hne). simpl. split.
    + destruct (jwtVerify C t) as [userId |]; [| done].
      destruct (users st !! userId) as [user |] eqn:Huser; [| done].
      destruct (isActive user) eqn:Hactive; [| done]. by intros [= <-].
    + intros (-> & -> & ->). by destruct me.
Qed.

(** X19: an administrator's update that sets [isActive] to false and
    succeeds locks the account out at once: no [Authorization] header is
    accepted as that user any more, and with unique emails a login with the
    account's email is answered 'Account is deactivated', whatever the
    credential. *)
Theorem deactivated_user_locked_out (C : Crypto) (L : Lib) (me : AuthUser) (userId : string)
    (raw : UserUpdateBody) (st : Store) :
  isAdmin me = true ->
  uniqueUsers (users st) ->
  ub_isActive raw = Some (SBool false) ->
  statusCode (fst (updateUser L me userId raw st)) = 200 ->
  exists u',
    users (snd (updateUser L me userId raw st)) !! userId = Some u'
    /\ isActive u' = false
    /\ (forall authorization me',
          auth C authorization (snd (updateUser L me userId raw st)) = inr me' ->
          uid me' <> userId)
    /\ (forall now pw,
          login C L now {| lb_email := email u'; lb_password := pw |}
                (snd (updateUser L me userId raw st))
          = ({| statusCode := 401; body := errorBody "Account is deactivated" |},
             snd (updateUser L me userId raw st))).
Proof.
  intros Hme Huniq Hoff Hstatus.
  pose proof (uniqueUsers_step C L (UpdateUser me userId raw) st Huniq) as Huniq'.
  simpl in Huniq'.
  destruct (updateUser_cases L me userId raw st)
    as [[_ Hno] | (u & up & Hu & _ & _ & _ & _ & _ & Hup & _ & Hresp)]; [done |].
  destruct (Hup Hme) as [_ Hactive].
  assert (Hflag : isActive (applyUserUpdates up u) = false)
    by (simpl; by rewrite Hactive, Hoff).
  remember (applyUserUpdates up u) as u' eqn:Hu'. clear Hu'.
  rewrite Hresp in Huniq' |- *. simpl in *.
  exists u'. split_and!; try done.
  - apply lookup_insert_eq.
  - intros authorization me' [Hstored Hon]%auth_inr Hsame. simpl in Hstored.
    rewrite Hsame, lookup_insert_eq in Hstored. injection Hstored as Heq.
    rewrite <- Heq in Hon. congruence.
  - intros now pw. unfold login. simpl.
    rewrite (findOneUser_email _ userId _ Huniq' (lookup_insert_eq _ _ _)).
    by rewrite Hflag.
Qed.

Lemma deactivated_user_locked_out_witness :
  isAdmin root = true
  /\ uniqueUsers (users demoStore)
  /\ ub_isActive deactivate = Some (SBool false)
  /\ statusCode (fst (updateUser demoLib root "u1" deactivate demoStore)) = 200
  /\ login demoCrypto demoLib 1720000000000
       {| lb_email := "ann@example.com"; lb_password := "ann" |}
       (snd (updateUser demoLib root "u1" deactivate demoStore))
     = ({| statusCode := 401; body := errorBody "Account is deactivated" |},
        snd (updateUser demoLib root "u1" deactivate demoStore)).
Proof.
  assert (Hstatus : statusCode (fst (updateUser demoLib root "u1" deactivate demoStore)) = 200)
    by (vm_compute; reflexivity).
  split; [reflexivity | split; [exact demoStore_unique | split; [reflexivity |]]].
  split; [exact Hstatus |].
  destruct (deactivated_user_locked_out demoCrypto demoLib root "u1" deactivate demoStore
              eq_refl demoStore_unique eq_refl Hstatus) as (u' & Hu' & _ & _ & Hlogin).
  assert (Hemail : email u' = "ann@example.com").
  { assert (Hlook : users (snd (updateUser demoLib root "u1" deactivate demoStore)) !! "u1"
                    = Some {| username := "ann"; email := "ann@example.com";
                              password := "$2a$10$ann"; role := "user"; isActive := false;
                              lastLogin := None; u_createdAt := 0 |})
      by (vm_compute; reflexivity).
    rewrite Hlook in Hu'. by injection Hu' as <-. }
  rewrite <- Hemail. apply Hlogin.
Defined.

(** ** The users router *)

Lemma checkRole_refuses (me : AuthUser) :
  isAdmin me = false -> exists refused, checkRole ["admin"] me = Some refused.
Proof.
  intros Hrole. destruct (checkRole ["admin"] me) as [r |] eqn:Hcheck; [by exists r |].
  apply checkRole_admin_only in Hcheck. congruence.
Qed.

Lemma auth_transfer (C : Crypto) (authorization : option string) (s st : Store)
    (me : AuthUser) (u : User) :
  auth C authorization s = inr me ->
  users st !! uid me = Some u -> isActive u = true ->
  auth C authorization st = inr {| uid := uid me; udoc := u |}.
Proof.
  unfold auth. destruct (negb _); [done |].
  destruct (jwtVerify C _) as [userId |]; [| done].
  destruct (users s !! userId) as [user |]; [| done].
  destruct (isActive user); [| done]. intros [= <-]. simpl. by intros -> ->.
Qed.

(** One request of a caller who is not an administrator changes nobody's
    rights and no entry. *)
Lemma usersRoute_non_admin (L : Lib) (me : AuthUser) (r : UsersRequest) (s : Store) :
  isAdmin me = false ->
  (forall id, rights <$> users (snd (usersRoute L me r s)) !! id = rights <$> users s !! id)
  /\ workloads (snd (usersRoute L me r s)) = workloads s.
Proof.
  intros Hrole. destruct (checkRole_refuses me Hrole) as [refused Hcheck].
  destruct r as [q | | userId | userId raw | userId]; simpl; rewrite ?Hcheck; simpl; try done.
  - by destruct (checkUserAccess me userId).
  - destruct (checkUserAccess me userId); [done |]. simpl.
    destruct (updateUser_cases L me userId raw s)
      as [[-> _] | (u & up & Hu & _ & _ & _ & _ & Hup & _ & _ & ->)]; [done |].
    destruct (Hup Hrole) as [Hr Ha]. simpl. split; [| done].
    intros id. destruct (decide (id = userId)) as [-> | Hne].
    + rewrite lookup_insert_eq, Hu. simpl. unfold rights. simpl. by rewrite Hr, Ha.
    + by rewrite lookup_insert_ne.
Qed.

Lemma same_rights_non_admin (C : Crypto) (h : option string) (s st : Store) (me : AuthUser) :
  (forall id, rights <$> users s !! id = rights <$> users st !! id) ->
  (forall me0, auth C h st = inr me0 -> isAdmin me0 = false) ->
  auth C h s = inr me -> isAdmin me = false.
Proof.
  intros Hrights Hst Hauth.
  destruct (auth_inr _ _ _ _ Hauth) as [Hstored Hactive].
  pose proof (Hrights (uid me)) as Hsame. rewrite Hstored in Hsame.
  destruct (users st !! uid me) as [u |] eqn:Hu; [| done]. simpl in Hsame.
  assert (Hrts : rights (udoc me) = rights u) by congruence.
  unfold rights in Hrts.
  assert (Hr : role (udoc me) = role u) by congruence.
  assert (Ha : isActive u = true) by congruence.
  pose proof (Hst _ (auth_transfer C h s st me u Hauth Hu Ha)) as Hnot.
  unfold isAdmin in *. simpl in Hnot. by rewrite Hr.
Qed.

(** X20: without the token of an administrator, the users router gives
    nobody new rights: after any sequence of requests whose headers
    authenticate no administrator, every user has the role, the active flag
    and the credential hash it had, no user was added or removed, and no
    entry changed. *)
Theorem no_admin_token_no_new_rights (C : Crypto) (L : Lib)
    (rs : list (option string * UsersRequest)) (st : Store) :
  Forall (fun r => forall me, auth C (fst r) st = inr me -> isAdmin me = false) rs ->
  (forall id, rights <$> users (runUsersApi C L rs st) !! id = rights <$> users st !! id)
  /\ workloads (runUsersApi C L rs st) = workloads st.
Proof.
  intros Hrs. unfold runUsersApi.
  assert (Hgen : forall s,
             (forall id, rights <$> users s !! id = rights <$> users st !! id) ->
             workloads s = workloads st ->
             (forall id,
                rights <$> users (fold_left (fun s r => snd (usersApi C L (fst r) (snd r) s))
                                            rs s) !! id
                = rights <$> users st !! id)
             /\ workloads (fold_left (fun s r => snd (usersApi C L (fst r) (snd r) s)) rs s)
                = workloads st).
  { induction Hrs as [| [h r] rs Hr _ IH]; intros s Hrights Hentries; [done |].
    simpl in *.
    assert (Hstep : (forall id, rights <$> users (snd (usersApi C L h r s)) !! id
                                = rights <$> users s !! id)
                    /\ workloads (snd (usersApi C L h r s)) = workloads s).
    { unfold usersApi. destruct (auth C h s) as [refused | me] eqn:Hauth; [done |].
      apply usersRoute_non_admin. by apply (same_rights_non_admin C h s st). }
    destruct Hstep as [Hr' He']. apply IH.
    - intros id. by rewrite Hr'.
    - by rewrite He'. }
  by apply Hgen.
Qed.

Lemma no_admin_token_no_new_rights_witness :
  Forall (fun r : option string * UsersRequest =>
            forall me, auth demoCrypto (fst r) demoStore = inr me -> isAdmin me = false)
         annOnUsers
  /\ rights <$> users (runUsersApi demoCrypto demoLib annOnUsers demoStore) !! "a1"
     = Some ("admin", true, "$2a$10$root")
  /\ rights <$> users (runUsersApi demoCrypto demoLib annOnUsers demoStore) !! "u1"
     = Some ("user", true, "$2a$10$ann").
Proof.
  assert (Hrs : Forall (fun r : option string * UsersRequest =>
                          forall me, auth demoCrypto (fst r) demoStore = inr me ->
                                     isAdmin me = false) annOnUsers).
  { repeat constructor; intros me Hauth; vm_compute in Hauth;
      try discriminate; by injection Hauth as <-. }
  split; [exact Hrs |].
  destruct (no_admin_token_no_new_rights demoCrypto demoLib annOnUsers demoStore Hrs)
    as [Hrights _].
  by rewrite !Hrights.
Defined.

(** X21: through the users router, requests other than updates never remove
    the last administrator: when the store has one, it has one after any
    sequence of list, statistics, detail and delete requests, whoever sends
    them. *)
Theorem router_keeps_an_admin (C : Crypto) (L : Lib)
    (rs : list (option string * UsersRequest)) (st : Store) :
  Forall (fun r => match snd r with PutUser _ _ => False | _ => True end) rs ->
  1 <= adminCount (users st) ->
  1 <= adminCount (users (runUsersApi C L rs st)).
Proof.
  intros Hrs. revert st. unfold runUsersApi.
  induction Hrs as [| [h r] rs Hr _ IH]; intros st Hone; [done |].
  simpl in *. apply IH. unfold usersApi.
  destruct (auth C h st) as [refused | me]; [done |].
  destruct r as [q | | userId | userId raw | userId]; simpl; try done.
  - by destruct (checkRole ["admin"] me).
  - by destruct (checkRole ["admin"] me).
  - by destruct (checkUserAccess me userId).
  - destruct (checkRole ["admin"] me); [done |]. simpl.
    by apply deleteUser_admin_invariant.
Qed.

Lemma router_keeps_an_admin_witness :
  Forall (fun r : option string * UsersRequest =>
            match snd r with PutUser _ _ => False | _ => True end) rootDeletes
  /\ 1 <= adminCount (users demoStore)
  /\ 1 <= adminCount (users (runUsersApi demoCrypto demoLib rootDeletes demoStore)).
Proof.
  assert (Hrs : Forall (fun r : option string * UsersRequest =>
                          match snd r with PutUser _ _ => False | _ => True end) rootDeletes)
    by (repeat constructor).
  assert (Hone : 1 <= adminCount (users demoStore)) by (vm_compute; discriminate).
  split; [exact Hrs | split; [exact Hone |]].
  exact (router_keeps_an_admin demoCrypto demoLib rootDeletes demoStore Hrs Hone).
Defined.

(** ** The analytics page *)

Lemma mapGet_mapSet (k k' : string) (v : TypeRow) (m : list (string * TypeRow)) :
  mapGet k' (mapSet k v m) = if String.eqb k' k then Some v else mapGet k' m.
Proof.
  unfold mapGet. induction m as [| [k0 v0] m IH]; simpl.
  - by destruct (String.eqb k' k).
  - destruct (String.eqb_spec k k0) as [-> | Hne]; simpl.
    + by destruct (String.eqb k' k0).
    + destruct (String.eqb_spec k' k0) as [-> | Hne']; simpl; [| done].
      destruct (String.eqb_spec k0 k); [congruence | done].
Qed.

Lemma keys_mapSet (k k' : string) (v : TypeRow) (m : list (string * TypeRow)) :
  k' ∈ map fst (mapSet k v m) <-> k' = k \/ k' ∈ map fst m.
Proof.
  induction m as [| [k0 v0] m IH]; simpl.
  - rewrite list_elem_of_singleton, elem_of_nil. tauto.
  - destruct (String.eqb_spec k k0) as [-> | Hne]; simpl; rewrite !elem_of_cons.
    + tauto.
    + rewrite IH. tauto.
Qed.

Lemma NoDup_mapSet (k : string) (v : TypeRow) (m : list (string * TypeRow)) :
  NoDup (map fst m) -> NoDup (map fst (mapSet k v m)).
Proof.
  induction m as [| [k0 v0] m IH]; simpl; intros Hnd.
  - apply NoDup_singleton.
  - apply NoDup_cons in Hnd as [Hk0 Hnd].
    destruct (String.eqb_spec k k0) as [-> | Hne]; simpl; apply NoDup_cons.
    + done.
    + split; [| by apply IH]. rewrite keys_mapSet. intros [-> | Hin]; done.
Qed.

Lemma typed_mapSet (k : string) (v : TypeRow) (m : list (string * TypeRow)) :
  tr_type v = k ->
  Forall (fun kv => tr_type (snd kv) = fst kv) m ->
  Forall (fun kv => tr_type (snd kv) = fst kv) (mapSet k v m).
Proof.
  intros Hv. induction 1 as [| [k0 v0] m Hk0 Hm IH]; simpl; [by repeat constructor |].
  destruct (String.eqb_spec k k0) as [-> | Hne]; by constructor.
Qed.

Lemma mapGet_Some (k : string) (v : TypeRow) (m : list (string * TypeRow)) :
  mapGet k m = Some v -> (k, v) ∈ m.
Proof.
  unfold mapGet. destruct (List.find _ m) as [[k0 v0] |] eqn:Hfind; [| done].
  intros [= <-]. apply find_some in Hfind as [Hin Hk]. simpl in Hk.
  apply String.eqb_eq in Hk as ->. by apply list_elem_of_In.
Qed.

Lemma mapGet_elem (k : string) (v : TypeRow) (m : list (string * TypeRow)) :
  NoDup (map fst m) -> (k, v) ∈ m -> mapGet k m = Some v.
Proof.
  unfold mapGet. induction m as [| [k0 v0] m IH]; simpl; intros Hnd Hin.
  - by apply not_elem_of_nil in Hin.
  - apply NoDup_cons in Hnd as [Hk0 Hnd]. apply elem_of_cons in Hin as [[= <- <-] | Hin].
    + by rewrite String.eqb_refl.
    + destruct (String.eqb_spec k k0) as [-> | Hne]; [| by apply IH].
      exfalso. apply Hk0. by apply (list_elem_of_fmap_2 fst _ (k0, v)).
Qed.

(** A well-formed map: distinct keys, each row filed under its own type. *)
Lemma addToTypeMap_wf (L : Lib) (m : list (string * TypeRow)) (w : TypeTotals) :
  NoDup (map fst m) /\ Forall (fun kv => tr_type (snd kv) = fst kv) m ->
  NoDup (map fst (addToTypeMap L m w))
  /\ Forall (fun kv => tr_type (snd kv) = fst kv) (addToTypeMap L m w).
Proof.
  intros [Hnd Htyped]. unfold addToTypeMap. split; [by apply NoDup_mapSet |].
  apply typed_mapSet; [| done]. simpl.
  destruct (mapGet (tt_taskType w) m) as [c |] eqn:Hget; [| done]. simpl.
  apply mapGet_Some in Hget. rewrite Forall_forall in Htyped. by apply (Htyped _ Hget).
Qed.

Lemma rowOf_addToTypeMap (L : Lib) (k : string) (m : list (string * TypeRow))
    (w : TypeTotals) :
  tr_tasks (rowOf k (addToTypeMap L m w))
  = tr_tasks (rowOf k m) + (if bool_decide (tt_taskType w = k) then tt_taskCount w else 0)
  /\ tr_hours (rowOf k (addToTypeMap L m w))
     = (if bool_decide (tt_taskType w = k)
        then addDoubles L (tr_hours (rowOf k m)) (tt_totalHours w)
        else tr_hours (rowOf k m)).
Proof.
  unfold rowOf, addToTypeMap. rewrite mapGet_mapSet.
  destruct (String.eqb_spec k (tt_taskType w)) as [-> | Hne].
  - rewrite bool_decide_eq_true_2 by done. simpl. split; reflexivity.
  - rewrite bool_decide_eq_false_2 by congruence. split; [lia | done].
Qed.

Lemma rowOf_fold (L : Lib) (k : string) (items : list TypeTotals)
    (m : list (string * TypeRow)) :
  tr_tasks (rowOf k (fold_left (addToTypeMap L) items m))
  = tr_tasks (rowOf k m) + fold_right Z.add 0 (map tt_taskCount (ofType k items))
  /\ tr_hours (rowOf k (fold_left (addToTypeMap L) items m))
     = fold_left (addDoubles L) (map tt_totalHours (ofType k items)) (tr_hours (rowOf k m)).
Proof.
  revert m. induction items as [| w items IH]; intros m; simpl.
  - split; [lia | done].
  - destruct (IH (addToTypeMap L m w)) as [-> ->].
    destruct (rowOf_addToTypeMap L k m w) as [-> ->].
    destruct (bool_decide (tt_taskType w = k)); simpl; split; try lia; done.
Qed.

Lemma fold_wf (L : Lib) (items : list TypeTotals) (m : list (string * TypeRow)) :
  NoDup (map fst m) /\ Forall (fun kv => tr_type (snd kv) = fst kv) m ->
  NoDup (map fst (fold_left (addToTypeMap L) items m))
  /\ Forall (fun kv => tr_type (snd kv) = fst kv) (fold_left (addToTypeMap L) items m).
Proof.
  revert m. induction items as [| w items IH]; intros m Hwf; simpl; [done |].
  by apply IH, addToTypeMap_wf.
Qed.

Lemma fold_keys (L : Lib) (k : string) (items : list TypeTotals)
    (m : list (string * TypeRow)) :
  k ∈ map fst (fold_left (addToTypeMap L) items m)
  <-> k ∈ map fst m \/ exists w, w ∈ items /\ tt_taskType w = k.
Proof.
  revert m. induction items as [| w items IH]; intros m; simpl.
  - split; [by left | intros [H | (w & Hw & _)]; [done | by apply not_elem_of_nil in Hw]].
  - rewrite IH. unfold addToTypeMap at 1. rewrite keys_mapSet. split.
    + intros [[-> | Hin] | (w' & Hw' & <-)].
      * right. exists w. split; [left | done].
      * by left.
      * right. exists w'. split; [by right | done].
    + intros [Hin | (w' & Hw' & <-)]; [by left; right |].
      apply elem_of_cons in Hw' as [-> | Hw']; [by left; left |].
      right. by exists w'.
Qed.

Lemma fold_developers (L : Lib) (data : list DeveloperStats) (m : list (string * TypeRow)) :
  fold_left (fun m dev => fold_left (addToTypeMap L) (ds_workloadByType dev) m) data m
  = fold_left (addToTypeMap L) (allTypeTotals data) m.
Proof.
  revert m. unfold allTypeTotals. induction data as [| dev data IH]; intros m; simpl; [done |].
  by rewrite fold_left_app, IH.
Qed.

Lemma sumZ_concat {B} (f : B -> Z) (ls : list (list B)) :
  fold_right Z.add 0 (map (fun l => fold_right Z.add 0 (map f l)) ls)
  = fold_right Z.add 0 (map f (concat ls)).
Proof.
  induction ls as [| l ls IH]; simpl; [done |]. rewrite map_app, IH.
  induction l as [| b l IHl]; simpl; lia.
Qed.


(** ** Edge cases of the list request *)

(** X23: the list request filters by date only when both ends of the range
    are given: with one of them absent or empty, the other is ignored (it is
    not even read as a date) and the answer is that of the request without
    dates. *)
Theorem getWorkloads_lone_date_ignored (L : Lib) (me : AuthUser) (q : WorkloadsQuery)
    (st : Store) :
  truthy (wq_startDate q) = false \/ truthy (wq_endDate q) = false ->
  getWorkloads L me q st = getWorkloads L me (withoutDates q) st.
Proof.
  intros Hlone.
  assert (Hboth : truthy (wq_startDate q) && truthy (wq_endDate q) = false)
    by (destruct Hlone as [-> | ->]; [done | apply andb_false_r]).
  unfold getWorkloads, findWorkloads, workloadsFilter, requestedFilter. simpl.
  by rewrite Hboth.
Qed.

Lemma getWorkloads_lone_date_ignored_witness :
  truthy (wq_endDate sinceWhenever) = false
  /\ newDate demoLib "yesterday" = None
  /\ getWorkloads demoLib ann sinceWhenever demoStore
     = getWorkloads demoLib ann everything demoStore
  /\ statusCode (getWorkloads demoLib ann sinceWhenever demoStore) = 200.
Proof.
  split; [reflexivity | split; [reflexivity |]].
  pose proof (getWorkloads_lone_date_ignored demoLib ann sinceWhenever demoStore
                (or_intror eq_refl)) as Hsame.
  split; [exact Hsame |]. rewrite Hsame. vm_compute. reflexivity.
Defined.

(** ** Changing the password *)

(** X24: changing the password and then logging in.  For an authenticated
    user whose current credential is accepted, [changePassword] answers 200
    and replaces only that user's hash; with unique emails, a login with the
    new credential then succeeds, and one with a credential that the new
    hash rejects is answered 401.  A wrong current credential is answered
    400 and nothing is written. *)
Theorem changePassword_then_login (C : Crypto) (L : Lib) (me : AuthUser)
    (current new : string) (st : Store) :
  users st !! uid me = Some (udoc me) ->
  isActive (udoc me) = true ->
  uniqueUsers (users st) ->
  (comparePassword C current (password (udoc me)) = false ->
     changePassword C L me current new st
     = ({| statusCode := 400; body := errorBody "Current password is incorrect" |}, st))
  /\ (comparePassword C current (password (udoc me)) = true ->
      changePassword C L me current new st
      = ({| statusCode := 200; body := messageBody "Password updated successfully" |},
         {| users := <[uid me := withPassword (bcryptHash L new) (udoc me)]> (users st);
            workloads := workloads st |})
      /\ forall now pw,
           login C L now {| lb_email := email (udoc me); lb_password := pw |}
                 (snd (changePassword C L me current new st))
           = if comparePassword C pw (bcryptHash L new)
             then ({| statusCode := 200;
                      body := JObj [("user",
                                     getPublicProfile (uid me)
                                       (withLastLogin now
                                          (withPassword (bcryptHash L new) (udoc me))));
                                    ("token", JStr (jwtSign L (uid me)))] |},
                   {| users := <[uid me := withLastLogin now
                                             (withPassword (bcryptHash L new) (udoc me))]>
                                 (<[uid me := withPassword (bcryptHash L new) (udoc me)]>
                                    (users st));
                      workloads := workloads st |})
             else (invalidLogin, snd (changePassword C L me current new st))).
Proof.
  intros Hme Hactive Huniq. unfold changePassword. split; [by intros -> |].
  intros ->. simpl. rewrite Hme. split; [done |]. intros now pw. simpl.
  pose proof (uniqueUsers_step C L (ChangePassword me current new) st Huniq) as Huniq'.
  simpl in Huniq'. unfold changePassword in Huniq'.
  destruct (comparePassword C current (password (udoc me))) eqn:Hok; simpl in Huniq'.
  - rewrite Hme in Huniq'. simpl in Huniq'. unfold login. simpl.
    change (email (udoc me)) with (email (withPassword (bcryptHash L new) (udoc me))).
    rewrite (findOneUser_email _ (uid me) _ Huniq' (lookup_insert_eq _ _ _)). simpl.
    rewrite Hactive. simpl. by destruct (comparePassword C pw (bcryptHash L new)).
  - unfold login. simpl.
    assert (Huniq2 : uniqueUsers (<[uid me := withPassword (bcryptHash L new) (udoc me)]>
                                    (users st))).
    { apply uniqueUsers_insert; [done |]. intros j v Hv Hne. simpl.
      by apply (Huniq (uid me) j). }
    change (email (udoc me)) with (email (withPassword (bcryptHash L new) (udoc me))).
    rewrite (findOneUser_email _ (uid me) _ Huniq2 (lookup_insert_eq _ _ _)). simpl.
    rewrite Hactive. simpl. by destruct (comparePassword C pw (bcryptHash L new)).
Qed.

Lemma changePassword_then_login_witness :
  users demoStore !! uid ann = Some (udoc ann)
  /\ isActive (udoc ann) = true
  /\ uniqueUsers (users demoStore)
  /\ comparePassword demoCrypto "ann" (password (udoc ann)) = true
  /\ statusCode (fst (login demoCrypto demoLib 1720000000000
                        {| lb_email := "ann@example.com"; lb_password := "better" |}
                        (snd (changePassword demoCrypto demoLib ann "ann" "better"
                                demoStore)))) = 200
  /\ statusCode (fst (login demoCrypto demoLib 1720000000000
                        {| lb_email := "ann@example.com"; lb_password := "ann" |}
                        (snd (changePassword demoCrypto demoLib ann "ann" "better"
                                demoStore)))) = 401.
Proof.
  assert (Hme : users demoStore !! uid ann = Some (udoc ann)) by reflexivity.
  assert (Hok : comparePassword demoCrypto "ann" (password (udoc ann)) = true) by reflexivity.
  split; [exact Hme | split; [reflexivity | split; [exact demoStore_unique |]]].
  split; [exact Hok |].
  destruct (proj2 (changePassword_then_login demoCrypto demoLib ann "ann" "better" demoStore
                     Hme eq_refl demoStore_unique) Hok) as [_ Hlogin].
  split.
  - change "ann@example.com" with (email (udoc ann)). by rewrite (Hlogin _ "better").
  - change "ann@example.com" with (email (udoc ann)). by rewrite (Hlogin _ "ann").
Defined.
